(** * Fleet Manager: registry, control-plane client, status resolver and
      request handlers of [manager/src], embedded in Rocq.

    The JavaScript sources are embedded shallowly:
    - [Js]         the string primitives the sources call ([toLowerCase],
                   [trim], [slice], the regex replaces, [parseInt]);
    - [Slug]       [slugify] of store.js;
    - [RailwayApi] [railwayGql] of railway-api.js over a scripted server;
    - [Model]      the registry document, the control-plane calls, the
                   world the process acts on and the monad of the handlers;
    - [Runtime]    clock, randomness, console and node:fs;
    - [Store]      store.js: [migrateV1toV2], [load], [save] and the tenant
                   and instance CRUD;
    - [Server]     server.js: [getInstanceStatus] and the request handlers;
    - [StatusTable] the decision table of the status resolver as the design
                   document words it.

    Side effects are threaded through an explicit [World]; exceptions are
    the [Throw] outcome of the monad [M]. Remote collaborators (control
    plane, health endpoint, mesh key issuer), the clock and the random
    source are oracles gathered in [Env]. *)

From Stdlib Require Import ZArith Lia Ascii String List Bool.
From stdpp Require Import base option list gmap strings pretty.

Open Scope string_scope.
Open Scope list_scope.

(* ===================================================================== *)
(** ** JavaScript string primitives *)
(* ===================================================================== *)

Module Js.

(** Strings are sequences of code units below 256; the sources only ever
    keep ASCII letters, digits, space and hyphen. *)
Definition chars (s : string) : list ascii := list_ascii_of_string s.
Definition str (l : list ascii) : string := string_of_list_ascii l.

Definition code (c : ascii) : nat := nat_of_ascii c.

Definition between (lo hi : nat) (c : ascii) : bool :=
  (lo <=? code c)%nat && (code c <=? hi)%nat.

Definition is_lower : ascii -> bool := between 97 122.   (* a-z *)
Definition is_upper : ascii -> bool := between 65 90.    (* A-Z *)
Definition is_digit : ascii -> bool := between 48 57.    (* 0-9 *)

Definition hyphen : ascii := "-"%char.
Definition space : ascii := " "%char.

Definition is_hyphen (c : ascii) : bool := Ascii.eqb c hyphen.

(** [String.prototype.toLowerCase] on one 8-bit character. It is exact on
    ASCII; outside ASCII the real function may also change the length of
    the string. *)
Definition lower_char (c : ascii) : ascii :=
  if is_upper c then ascii_of_nat (code c + 32) else c.

Definition toLowerCase (l : list ascii) : list ascii := map lower_char l.

(** White space as [trim] and the regex class [\s] see it. *)
Definition is_space (c : ascii) : bool :=
  between 9 13 c || Ascii.eqb c space || (code c =? 160)%nat.

Fixpoint trimStart (l : list ascii) : list ascii :=
  match l with
  | c :: r => if is_space c then trimStart r else l
  | [] => []
  end.

Definition trim (l : list ascii) : list ascii :=
  rev (trimStart (rev (trimStart l))).

(** [s.slice(0, n)]. *)
Definition slice0 (n : nat) (l : list ascii) : list ascii := firstn n l.

(** [s.replace(/[^a-z0-9]+/g, "-")]: every maximal run of characters
    outside [a-z0-9] becomes one hyphen. [in_run] tells that the run the
    scan is in has already produced its hyphen. *)
Definition is_slug_alnum (c : ascii) : bool := is_lower c || is_digit c.

Fixpoint collapse_runs (in_run : bool) (l : list ascii) : list ascii :=
  match l with
  | [] => []
  | c :: r =>
      if is_slug_alnum c then c :: collapse_runs false r
      else if in_run then collapse_runs true r
           else hyphen :: collapse_runs true r
  end.

Definition replace_non_alnum_runs (l : list ascii) : list ascii :=
  collapse_runs false l.

(** [s.replace(/^-|-$/g, '')]: one hyphen at the very start and one at the
    very end are deleted. *)
Definition drop_leading_hyphen (l : list ascii) : list ascii :=
  match l with
  | c :: r => if is_hyphen c then r else l
  | [] => []
  end.

Fixpoint drop_trailing_hyphen (l : list ascii) : list ascii :=
  match l with
  | [] => []
  | [c] => if is_hyphen c then [] else [c]
  | c :: r => c :: drop_trailing_hyphen r
  end.

Definition strip_edge_hyphens (l : list ascii) : list ascii :=
  drop_trailing_hyphen (drop_leading_hyphen l).

(** [s.replace(/[^a-zA-Z0-9 -]/g, '')]. *)
Definition is_name_char (c : ascii) : bool :=
  is_lower c || is_upper c || is_digit c || Ascii.eqb c space || is_hyphen c.

Definition keep_name_chars (l : list ascii) : list ascii :=
  filter (fun c => is_name_char c = true) l.

(** [s.replace(/\s+/g, "-")]. *)
Fixpoint spaces_to_hyphen (in_run : bool) (l : list ascii) : list ascii :=
  match l with
  | [] => []
  | c :: r =>
      if is_space c
      then (if in_run then spaces_to_hyphen true r
            else hyphen :: spaces_to_hyphen true r)
      else c :: spaces_to_hyphen false r
  end.

(** [s.replace(/[^a-z0-9-]/g, '')]. *)
Definition is_slug_char (c : ascii) : bool := is_slug_alnum c || is_hyphen c.

Definition keep_slug_chars (l : list ascii) : list ascii :=
  filter (fun c => is_slug_char c = true) l.

(** [parseInt(s, 10)]: leading white space, an optional sign, then the
    longest prefix of decimal digits; [None] stands for [NaN]. *)
Definition digit_val (c : ascii) : Z := Z.of_nat (code c - 48).

Fixpoint read_digits (acc : Z) (l : list ascii) : Z :=
  match l with
  | c :: r => if is_digit c then read_digits (10 * acc + digit_val c) r else acc
  | [] => acc
  end.

Definition starts_with_digit (l : list ascii) : bool :=
  match l with
  | c :: _ => is_digit c
  | [] => false
  end.

Definition parse_unsigned (l : list ascii) : option Z :=
  if starts_with_digit l then Some (read_digits 0 l) else None.

Definition parseInt10 (s : string) : option Z :=
  match trimStart (chars s) with
  | c :: r =>
      if Ascii.eqb c "-"%char then Z.opp <$> parse_unsigned r
      else if Ascii.eqb c "+"%char then parse_unsigned r
      else parse_unsigned (c :: r)
  | [] => None
  end.

End Js.

(* ===================================================================== *)
(** ** store.js, pure part: slugify *)
(* ===================================================================== *)

Module Slug.
Import Js.

(** [String(name || '').toLowerCase().replace(/[^a-z0-9]+/g, "-")
      .replace(/^-|-$/g, '').slice(0, 30)] *)
Definition slugify_chars (l : list ascii) : list ascii :=
  slice0 30 (strip_edge_hyphens (replace_non_alnum_runs (toLowerCase l))).

Definition slugify (name : string) : string :=
  str (slugify_chars (chars name)).

End Slug.

(* ===================================================================== *)
(** ** railway-api.js: the control-plane client *)
(* ===================================================================== *)

Module RailwayApi.

(** What [fetch] resolves to. [retry_after] is
    [res.headers.get("Retry-After")] ([None] for [null]); [body_json] is
    what [res.json()] yields, [None] when the body is not JSON. *)
Record GqlJson (D : Type) := mkGqlJson {
  errors : list string;             (* messages of json.errors, [] if absent *)
  data : D;
}.
Arguments mkGqlJson {D} _ _.
Arguments errors {D} _.
Arguments data {D} _.

Record HttpResponse (D : Type) := mkHttpResponse {
  status : Z;
  retry_after : option string;
  body_text : string;
  body_json : option (GqlJson D);
}.
Arguments mkHttpResponse {D} _ _ _ _.
Arguments status {D} _.
Arguments retry_after {D} _.
Arguments body_text {D} _.
Arguments body_json {D} _.

Inductive FetchResult (D : Type) :=
| NetworkFailure (msg : string)        (* fetch itself rejects *)
| Responded (res : HttpResponse D).
Arguments NetworkFailure {D} _.
Arguments Responded {D} _.

(** The errors [railwayGql] throws. *)
Inductive GqlError :=
| FetchRejected (msg : string)
| HttpError (status : Z) (text : string)     (* Railway API HTTP <status>: <text> *)
| BodyNotJson
| ApiError (messages : list string).         (* Railway API error: m1; m2 *)

(** What the client does besides computing its result. *)
Inductive Event :=
| Fetched (attempt : nat)                  (* the POST to RAILWAY_API_URL *)
| Warned (retryAfter : option Z)           (* console.warn, rate limited *)
| Slept (ms : option Z).                   (* setTimeout(r, retryAfter * 1000) *)

(** [res.ok] *)
Definition ok {D} (res : HttpResponse D) : bool :=
  (200 <=? status res)%Z && (status res <=? 299)%Z.

(** [parseInt(res.headers.get("Retry-After") || "5", 10)] *)
Definition retryAfter {D} (res : HttpResponse D) : option Z :=
  Js.parseInt10
    (match retry_after res with
     | Some h => if String.eqb h EmptyString then "5" else h
     | None => "5"
     end).

Section Client.
Context {D : Type}.
(** The server: the response the [n]-th request of this call receives.
    Query and variables are the same for every attempt of a call. *)
Variable server : nat -> FetchResult D.

(** [railwayGql(query, variables)]. The function calls itself after a
    429; [fuel] bounds the number of requests the model follows, and
    [None] says that the bound was reached before the call settled. *)
Fixpoint railwayGql (fuel : nat) (attempt : nat) (trace : list Event)
  : option ((GqlError + D) * list Event) :=
  match fuel with
  | O => None
  | S fuel' =>
      let trace := trace ++ [Fetched attempt] in
      match server attempt with
      | NetworkFailure msg => Some (inl (FetchRejected msg), trace)
      | Responded res =>
          if (status res =? 429)%Z then
            let ra := retryAfter res in
            let trace := trace ++ [Warned ra; Slept ((fun s => s * 1000)%Z <$> ra)] in
            railwayGql fuel' (S attempt) trace
          else if negb (ok res) then
            Some (inl (HttpError (status res) (body_text res)), trace)
          else
            match body_json res with
            | None => Some (inl BodyNotJson, trace)
            | Some json =>
                if (0 <? length (errors json))%nat
                then Some (inl (ApiError (errors json)), trace)
                else Some (inr (data json), trace)
            end
      end
  end.

Definition call (fuel : nat) := railwayGql fuel 0 [].

Definition slept (e : Event) : bool :=
  match e with Slept _ => true | _ => false end.

Definition fetched (e : Event) : bool :=
  match e with Fetched _ => true | _ => false end.

End Client.

(** A server that answers the first [n] requests with 429 and then [final]. *)
Definition rate_limited {D}
    (n : nat) (hdr : option string) (final : FetchResult D) (k : nat)
  : FetchResult D :=
  if (k <? n)%nat
  then Responded (mkHttpResponse 429 hdr EmptyString None)
  else final.

End RailwayApi.

(* ===================================================================== *)
(** ** The registry document (fleet.json) *)
(* ===================================================================== *)

Module Model.

(** A JavaScript object used as a map from string keys that are not array
    indices (the keys here are UUIDs): insertion-ordered, one entry per
    key. *)
Definition Obj (V : Type) := list (string * V).

(** [o[k]] among the own properties of [o]. For a name that
    [Object.prototype] defines ('constructor', 'toString', ...) a read on
    an object without an own property of that name yields the inherited
    value instead; what is stated about a missing key is stated for keys
    that are not such names. *)
Fixpoint obj_get {V} (o : Obj V) (k : string) : option V :=
  match o with
  | [] => None
  | (k', v) :: r => if String.eqb k' k then Some v else obj_get r k
  end.

(** [o[k] = v]: an existing key keeps its position, a new one goes last. *)
Fixpoint obj_set {V} (o : Obj V) (k : string) (v : V) : Obj V :=
  match o with
  | [] => [(k, v)]
  | (k', v') :: r =>
      if String.eqb k' k then (k', v) :: r else (k', v') :: obj_set r k v
  end.

(** [delete o[k]] *)
Fixpoint obj_delete {V} (o : Obj V) (k : string) : Obj V :=
  match o with
  | [] => []
  | (k', v') :: r =>
      if String.eqb k' k then obj_delete r k else (k', v') :: obj_delete r k
  end.

Definition obj_values {V} (o : Obj V) : list V := map snd o.
Definition obj_keys {V} (o : Obj V) : list string := map fst o.

Record RailwayRefs := mkRailwayRefs {
  projectId : string;
  serviceId : string;
  environmentId : string;
  volumeId : string;
}.

Record InstanceConfig := mkInstanceConfig {
  setupPassword : string;
  gatewayToken : string;
}.

Record Instance := mkInstance {
  i_id : string;
  i_name : string;
  i_createdAt : string;
  i_railway : RailwayRefs;
  i_config : InstanceConfig;
  i_tailscale : option string;        (* { hostname } or null *)
  i_notes : string;
}.

Record Tenant := mkTenant {
  t_id : string;
  t_name : string;
  t_slug : string;
  t_createdAt : string;
  t_notes : string;
  t_tailscale : option string;        (* always null in this version *)
  t_instances : option (Obj Instance);  (* [None]: the property is missing *)
}.

(** The parsed document. A version-1 file has [instances] at the top level
    and no [tenants]; [None] is an absent property. *)
Record Doc := mkDoc {
  version : option Z;
  tenants : option (Obj Tenant);
  instances : option (Obj Instance);
}.

(** A file on disk: text that [JSON.parse] rejects, the text of a
    document ([JSON.stringify] followed by [JSON.parse] is the identity on
    documents), or a regular file that the process is not allowed to read
    (a write-only file: it can still be overwritten, and renamed over). *)
Inductive File :=
| Garbage (raw : string)
| Json (d : Doc)
| Unreadable.

Definition readable (f : File) : bool :=
  match f with
  | Unreadable => false
  | _ => true
  end.

(** The file can be read and holds a document. *)
Definition holds_document (f : File) : bool :=
  match f with
  | Json _ => true
  | _ => false
  end.

(** Thrown values, and [String(err)]. *)
Inductive Exn :=
| JsError (msg : string)
| JsTypeError (msg : string)
| JsSyntaxError (msg : string).

Definition String_ (e : Exn) : string :=
  match e with
  | JsError m => "Error: " ++ m
  | JsTypeError m => "TypeError: " ++ m
  | JsSyntaxError m => "SyntaxError: " ++ m
  end.

(** *** The control plane as the handlers see it *)

Inductive Call :=
| PROJECT_CREATE (name : string)
| PROJECT_QUERY (id : string)
| PROJECT_DELETE (id : string)
| SERVICE_CREATE (projectId name repo : string)
| VOLUME_CREATE (projectId serviceId environmentId mountPath : string)
| VARIABLE_COLLECTION_UPSERT
    (projectId environmentId serviceId : string)
    (variables : list (string * string)) (replace : bool)
| SERVICE_INSTANCE_DEPLOY (serviceId environmentId : string)
| SERVICE_INSTANCE_REDEPLOY (serviceId environmentId : string)
| DEPLOYMENTS_QUERY (serviceId environmentId : string)
| SERVICE_DOMAIN_CREATE (serviceId environmentId : string).

Record EnvNode := mkEnvNode { env_id : string; env_name : string }.

Record DeploymentNode := mkDeploymentNode {
  dn_id : string; dn_status : string; dn_createdAt : string;
}.

Record ServiceInstanceNode := mkServiceInstanceNode {
  serviceDomains : list string;
  customDomains : list string;
}.

Record ServiceNode := mkServiceNode {
  sn_id : string;
  sn_name : string;
  sn_serviceInstances : list ServiceInstanceNode;
}.

(** The [data] of a GraphQL response. *)
Inductive Data :=
| DProjectCreate (id name : string) (environments : list EnvNode)
| DProject (services : list ServiceNode)
| DServiceCreate (id name : string)
| DVolumeCreate (id : string)
| DDeployments (edges : list DeploymentNode)
| DServiceDomainCreate (domain : option string)
| DScalar (b : bool).

Inductive Outcome (A : Type) :=
| Ret (a : A)
| Throw (e : Exn).
Arguments Ret {A} _.
Arguments Throw {A} _.

(** An awaited external call: how long it took (ms) and how it settled. *)
Record Reply (A : Type) := mkReply {
  elapsed : N;
  settled : Outcome A;
}.
Arguments mkReply {A} _ _.
Arguments elapsed {A} _.
Arguments settled {A} _.

(** The instance's own /healthz payload. *)
Record Health := mkHealth {
  configured : bool;                 (* truthiness of health.configured *)
  gateway_reachable : option bool;   (* health.gateway?.reachable *)
}.

(** What the probe's [fetch] gives: [hRes.ok] and what [hRes.json()]
    yields (a thrown parse error, a falsy value, or a payload). *)
Inductive ProbeResponse :=
| ProbeNotOk (status : Z)
| ProbeOk (json : Outcome (option Health)).

Record AuthKey := mkAuthKey { key : string; key_id : string }.

(** Process configuration and the outside world. Oracles that answer
    remote calls see the calls made so far. *)
Record Env := mkEnv {
  DATA_DIR : string;
  GITHUB_REPO : string;
  randomUUID : nat -> string;                (* n-th crypto.randomUUID() *)
  randomBytesHex : nat -> nat -> string;     (* size, n-th draw *)
  toISOString : Z -> string;
  railwayGql : list Call -> Call -> Reply Data;
  fetchHealthz : list string -> string -> Reply ProbeResponse;
  isTailscaleConfigured : bool;
  getTailscaleToken : list Call -> Reply string;
  createAuthKey : string -> string -> Reply AuthKey;
}.

(** *** Status snapshots *)

Inductive Deployment :=
| Deployed (id status createdAt : string)
| DeploymentUnknown (error : string).   (* { status: "UNKNOWN", error } *)

Definition deployment_status (d : Deployment) : string :=
  match d with
  | Deployed _ s _ => s
  | DeploymentUnknown _ => "UNKNOWN"
  end.

Record StatusData := mkStatusData {
  sd_deployment : option Deployment;
  sd_domain : option string;
  sd_health : option Health;
  sd_status : string;
}.

Record CacheEntry := mkCacheEntry {
  ce_data : StatusData;
  ce_fetchedAt : Z;
}.

Inductive FsOp :=
| FsCopy (src dst : string)
| FsWrite (path : string)
| FsRename (src dst : string).

(** Everything the process can read or change. *)
Record World := mkWorld {
  files : gmap string File;
  fsops : list FsOp;                 (* file operations done, oldest first *)
  clock : Z;                         (* Date.now() *)
  draws : nat;                       (* random values drawn so far *)
  statusCache : gmap string CacheEntry;
  console : list string;             (* console.log / warn / error lines *)
  gqlCalls : list Call;              (* control-plane calls, oldest first *)
  probes : list string;              (* domains probed, oldest first *)
  stepLog : list string;             (* the [log] array of the create request *)
}.

Definition with_files (f : gmap string File) (op : list FsOp) (w : World) : World :=
  mkWorld f (fsops w ++ op) (clock w) (draws w) (statusCache w) (console w)
          (gqlCalls w) (probes w) (stepLog w).

Definition with_clock (t : Z) (w : World) : World :=
  mkWorld (files w) (fsops w) t (draws w) (statusCache w) (console w)
          (gqlCalls w) (probes w) (stepLog w).

Definition with_draws (n : nat) (w : World) : World :=
  mkWorld (files w) (fsops w) (clock w) n (statusCache w) (console w)
          (gqlCalls w) (probes w) (stepLog w).

Definition with_statusCache (c : gmap string CacheEntry) (w : World) : World :=
  mkWorld (files w) (fsops w) (clock w) (draws w) c (console w)
          (gqlCalls w) (probes w) (stepLog w).

Definition with_console (l : list string) (w : World) : World :=
  mkWorld (files w) (fsops w) (clock w) (draws w) (statusCache w) l
          (gqlCalls w) (probes w) (stepLog w).

Definition with_gqlCalls (l : list Call) (w : World) : World :=
  mkWorld (files w) (fsops w) (clock w) (draws w) (statusCache w) (console w)
          l (probes w) (stepLog w).

Definition with_probes (l : list string) (w : World) : World :=
  mkWorld (files w) (fsops w) (clock w) (draws w) (statusCache w) (console w)
          (gqlCalls w) l (stepLog w).

Definition with_stepLog (l : list string) (w : World) : World :=
  mkWorld (files w) (fsops w) (clock w) (draws w) (statusCache w) (console w)
          (gqlCalls w) (probes w) l.

(** *** The monad of the handlers: state and exceptions *)

Definition M (A : Type) : Type := World -> Outcome A * World.

Definition ret {A} (a : A) : M A := fun w => (Ret a, w).

Definition bind {A B} (m : M A) (k : A -> M B) : M B :=
  fun w =>
    match m w with
    | (Ret a, w') => k a w'
    | (Throw e, w') => (Throw e, w')
    end.

Definition throw {A} (e : Exn) : M A := fun w => (Throw e, w).

(** [try { m } catch (e) { h e }]: effects of [m] before the throw stay. *)
Definition try_catch {A} (m : M A) (h : Exn -> M A) : M A :=
  fun w =>
    match m w with
    | (Ret a, w') => (Ret a, w')
    | (Throw e, w') => h e w'
    end.

Definition get : M World := fun w => (Ret w, w).
Definition modify (f : World -> World) : M unit := fun w => (Ret tt, f w).

Definition lift_outcome {A} (o : Outcome A) : M A := fun w => (o, w).

(** [for (const x of l) { body x }] *)
Fixpoint for_of {A} (l : list A) (body : A -> M unit) : M unit :=
  match l with
  | [] => ret tt
  | x :: r => bind (body x) (fun _ => for_of r body)
  end.

End Model.

Declare Scope js_scope.
Delimit Scope js_scope with js.
Notation "'let*' x := m 'in' k" :=
  (Model.bind m (fun x => k))
    (at level 10, x pattern, m at level 100, k at level 200) : js_scope.
Notation "m ;; k" :=
  (Model.bind m (fun _ => k))
    (at level 100, k at level 200, right associativity) : js_scope.

(* ===================================================================== *)
(** ** Runtime services: clock, randomness, console, node:fs *)
(* ===================================================================== *)

Module Runtime.
Import Model.
Local Open Scope js_scope.

Section WithEnv.
Variable E : Env.

Definition Date_now : M Z := fun w => (Ret (clock w), w).

(** [new Date().toISOString()] *)
Definition isoNow : M string := fun w => (Ret (toISOString E (clock w)), w).

Definition crypto_randomUUID : M string :=
  fun w => (Ret (randomUUID E (draws w)), with_draws (S (draws w)) w).

(** [crypto.randomBytes(n).toString("hex")] *)
Definition crypto_randomBytes_hex (n : nat) : M string :=
  fun w => (Ret (randomBytesHex E n (draws w)), with_draws (S (draws w)) w).

Definition console_log (line : string) : M unit :=
  modify (fun w => with_console (console w ++ [line]) w).

(** [await] of an external call: time passes, then it settles. *)
Definition await {A} (r : Reply A) : M A :=
  fun w => (settled r, with_clock (clock w + Z.of_N (elapsed r)) w).

(** [await railwayGql(op, vars)] as the handlers use it: the call is
    recorded, and it returns [json.data] or throws. (Calls that never
    settle are outside this interface; the client itself is
    [RailwayApi.railwayGql].) *)
Definition gql (c : Call) : M Data :=
  fun w =>
    let r := railwayGql E (gqlCalls w) c in
    await r (with_gqlCalls (gqlCalls w ++ [c]) w).

(** *** node:fs *)

Definition path_join (dir name : string) : string := dir ++ "/" ++ name.

Definition fs_readFileSync (p : string) : M File :=
  fun w =>
    match files w !! p with
    | Some Unreadable =>
        (Throw (JsError ("EACCES: permission denied, open '" ++ p ++ "'")), w)
    | Some f => (Ret f, w)
    | None => (Throw (JsError ("ENOENT: no such file or directory, open '" ++ p ++ "'")), w)
    end.

(** [JSON.parse] of what was read; nothing is ever read from an
    unreadable file. *)
Definition JSON_parse (f : File) : M Doc :=
  match f with
  | Json d => ret d
  | Garbage _ | Unreadable => throw (JsSyntaxError "Unexpected token in JSON")
  end.

Definition fs_existsSync (p : string) : M bool :=
  fun w => (Ret (bool_decide (is_Some (files w !! p))), w).

Definition fs_copyFileSync (src dst : string) : M unit :=
  fun w =>
    match files w !! src with
    | Some Unreadable =>
        (Throw (JsError ("EACCES: permission denied, copyfile '" ++ src ++ "'")), w)
    | Some f => (Ret tt, with_files (<[dst := f]> (files w)) [FsCopy src dst] w)
    | None => (Throw (JsError ("ENOENT: no such file or directory, copyfile '" ++ src ++ "'")), w)
    end.

Definition fs_writeFileSync (p : string) (f : File) : M unit :=
  modify (fun w => with_files (<[p := f]> (files w)) [FsWrite p] w).

Definition fs_renameSync (src dst : string) : M unit :=
  fun w =>
    match files w !! src with
    | Some f =>
        (Ret tt, with_files (<[dst := f]> (delete src (files w))) [FsRename src dst] w)
    | None => (Throw (JsError ("ENOENT: no such file or directory, rename '" ++ src ++ "'")), w)
    end.

(** [fs.mkdirSync(DATA_DIR, { recursive: true })]: directories are not
    part of the file-system model. *)
Definition fs_mkdirSync (dir : string) : M unit := ret tt.

End WithEnv.
End Runtime.

(* ===================================================================== *)
(** ** store.js *)
(* ===================================================================== *)

Module Store.
Import Model Runtime.
Local Open Scope js_scope.

Definition slugify := Slug.slugify.

Section WithEnv.
Variable E : Env.

Definition STORE_PATH : string := path_join (DATA_DIR E) "fleet.json".

Definition emptyStore : M Doc :=
  let* id := crypto_randomUUID E in
  let* createdAt := isoNow E in
  ret {| version := Some 2%Z;
         tenants := Some [(id, {| t_id := id;
                                  t_name := "Default";
                                  t_slug := "default";
                                  t_createdAt := createdAt;
                                  t_notes := EmptyString;
                                  t_tailscale := None;
                                  t_instances := Some [] |})];
         instances := None |}.

(** [data.version >= 2] *)
Definition version_ge_2 (data : Doc) : bool :=
  match version data with
  | Some v => (2 <=? v)%Z
  | None => false
  end.

(** [!data.version || data.version < 2] *)
Definition needs_migration (data : Doc) : bool :=
  match version data with
  | None => true
  | Some v => (v =? 0)%Z || (v <? 2)%Z
  end.

Definition migrateV1toV2 (data : Doc) : M Doc :=
  if version_ge_2 data then ret data
  else
    console_log "[store] Migrating fleet data from v1 to v2...";;
    let* defaultTenantId := crypto_randomUUID E in
    let* createdAt := isoNow E in
    ret {| version := Some 2%Z;
           tenants :=
             Some [(defaultTenantId,
                    {| t_id := defaultTenantId;
                       t_name := "Default";
                       t_slug := "default";
                       t_createdAt := createdAt;
                       t_notes := "Auto-created during migration from v1. Contains pre-existing instances.";
                       t_tailscale := None;
                       t_instances := Some (default [] (instances data)) |})];
           instances := None |}.

(** [ts.replace(/[:.]/g, "-")] *)
Definition dash_colons_dots (s : string) : string :=
  Js.str (map (fun c => if Ascii.eqb c ":"%char || Ascii.eqb c "."%char
                        then Js.hyphen else c) (Js.chars s)).

Definition timestamped_backup_path (iso : string) : string :=
  path_join (DATA_DIR E) ("fleet.bak-" ++ dash_colons_dots iso ++ ".json").

Definition premigrate_backup_path : string :=
  path_join (DATA_DIR E) "fleet.bak-premigrate.json".

Definition tmp_path : string := STORE_PATH ++ ".tmp".

Definition save (data : Doc) : M unit :=
  fs_mkdirSync (DATA_DIR E);;
  let* present := fs_existsSync STORE_PATH in
  (if present : bool then
     let* ts := isoNow E in
     let bakPath := timestamped_backup_path ts in
     try_catch (fs_copyFileSync STORE_PATH bakPath) (fun _ => ret tt)
   else ret tt);;
  let tmpPath := tmp_path in
  fs_writeFileSync tmpPath (Json data);;
  fs_renameSync tmpPath STORE_PATH.

Definition load : M Doc :=
  try_catch
    (let* raw := fs_readFileSync STORE_PATH in
     let* data := JSON_parse raw in
     if needs_migration data then
       let bakPath := premigrate_backup_path in
       try_catch
         (fs_copyFileSync STORE_PATH bakPath;;
          console_log ("[store] Pre-migration backup: " ++ bakPath))
         (fun _ => ret tt);;
       let* data := migrateV1toV2 data in
       save data;;
       console_log "[store] Migration complete.";;
       ret data
     else ret data)
    (fun _ =>
       let* data := emptyStore in
       save data;;
       console_log "[store] Initialized new fleet store with Default tenant.";;
       ret data).

(** *** Tenant CRUD *)

Record TenantSummary := mkTenantSummary {
  ts_id : string;
  ts_name : string;
  ts_slug : string;
  ts_createdAt : string;
  ts_notes : string;
  ts_tailscale : option string;
  ts_instanceCount : nat;
}.

Definition summarize (t : Tenant) : TenantSummary :=
  {| ts_id := t_id t; ts_name := t_name t; ts_slug := t_slug t;
     ts_createdAt := t_createdAt t; ts_notes := t_notes t;
     ts_tailscale := t_tailscale t;
     ts_instanceCount := length (obj_keys (default [] (t_instances t))) |}.

Definition getAllTenants : M (list TenantSummary) :=
  let* data := load in
  ret (map summarize (obj_values (default [] (tenants data)))).

(** [data.tenants] dereferenced: a missing property makes the property
    access that follows throw. *)
Definition tenants_of (data : Doc) : M (Obj Tenant) :=
  match tenants data with
  | Some ts => ret ts
  | None => throw (JsTypeError "Cannot read properties of undefined")
  end.

Definition instances_of (t : Tenant) : M (Obj Instance) :=
  match t_instances t with
  | Some insts => ret insts
  | None => throw (JsTypeError "Cannot read properties of undefined")
  end.

Definition set_tenants (data : Doc) (ts : Obj Tenant) : Doc :=
  {| version := version data; tenants := Some ts; instances := instances data |}.

Definition set_instances (t : Tenant) (insts : Obj Instance) : Tenant :=
  {| t_id := t_id t; t_name := t_name t; t_slug := t_slug t;
     t_createdAt := t_createdAt t; t_notes := t_notes t;
     t_tailscale := t_tailscale t; t_instances := Some insts |}.

Definition getTenant (tenantId : string) : M (option Tenant) :=
  let* data := load in
  let* ts := tenants_of data in
  ret (obj_get ts tenantId).

Definition addTenant (tenant : Tenant) : M Tenant :=
  let* data := load in
  let tenant :=
    match t_instances tenant with
    | Some _ => tenant
    | None => set_instances tenant []
    end in
  let* ts := tenants_of data in
  save (set_tenants data (obj_set ts (t_id tenant) tenant));;
  ret tenant.

(** The patch of [updateTenant] after [instances] has been taken out:
    the properties that [Object.assign] copies. *)
Record TenantPatch := mkTenantPatch {
  p_name : option string;
  p_slug : option string;
  p_notes : option string;
}.

Definition assign_tenant (t : Tenant) (p : TenantPatch) : Tenant :=
  {| t_id := t_id t;
     t_name := default (t_name t) (p_name p);
     t_slug := default (t_slug t) (p_slug p);
     t_createdAt := t_createdAt t;
     t_notes := default (t_notes t) (p_notes p);
     t_tailscale := t_tailscale t;
     t_instances := t_instances t |}.

Definition updateTenant (tenantId : string) (patch : TenantPatch)
  : M (option Tenant) :=
  let* data := load in
  let* ts := tenants_of data in
  match obj_get ts tenantId with
  | None => ret None
  | Some t =>
      let t' := assign_tenant t patch in
      save (set_tenants data (obj_set ts tenantId t'));;
      ret (Some t')
  end.

Definition removeTenant (tenantId : string) : M (option Tenant) :=
  let* data := load in
  let* ts := tenants_of data in
  let removed := obj_get ts tenantId in
  save (set_tenants data (obj_delete ts tenantId));;
  ret removed.

Definition getDefaultTenant : M (option Tenant) :=
  let* data := load in
  let* ts := tenants_of data in
  ret (List.find (fun t => String.eqb (t_slug t) "default") (obj_values ts)).

(** *** Instance CRUD (tenant-scoped) *)

Definition getAllInstances (tenantId : string) : M (list Instance) :=
  let* tenant := getTenant tenantId in
  match tenant with
  | None => ret []
  | Some t => ret (obj_values (default [] (t_instances t)))
  end.

Definition getInstance (tenantId instanceId : string) : M (option Instance) :=
  let* tenant := getTenant tenantId in
  match tenant with
  | None => ret None
  | Some t =>
      let* insts := instances_of t in
      ret (obj_get insts instanceId)
  end.

Definition addInstance (tenantId : string) (instance : Instance)
  : M (option Instance) :=
  let* data := load in
  let* ts := tenants_of data in
  match obj_get ts tenantId with
  | None => ret None
  | Some t =>
      let insts := default [] (t_instances t) in
      let t' := set_instances t (obj_set insts (i_id instance) instance) in
      save (set_tenants data (obj_set ts tenantId t'));;
      ret (Some instance)
  end.

Definition removeInstance (tenantId instanceId : string)
  : M (option Instance) :=
  let* data := load in
  let* ts := tenants_of data in
  match obj_get ts tenantId with
  | None => ret None
  | Some t =>
      let* insts := instances_of t in
      let removed := obj_get insts instanceId in
      let t' := set_instances t (obj_delete insts instanceId) in
      save (set_tenants data (obj_set ts tenantId t'));;
      ret removed
  end.

Fixpoint find_instance (ts : list Tenant) (instanceId : string)
  : option (Tenant * Instance) :=
  match ts with
  | [] => None
  | t :: r =>
      match t_instances t with
      | Some insts =>
          match obj_get insts instanceId with
          | Some i => Some (t, i)
          | None => find_instance r instanceId
          end
      | None => find_instance r instanceId
      end
  end.

Definition findInstanceAcrossTenants (instanceId : string)
  : M (option (Tenant * Instance)) :=
  let* data := load in
  let* ts := tenants_of data in
  ret (find_instance (obj_values ts) instanceId).

End WithEnv.
End Store.

(* ===================================================================== *)
(** ** server.js *)
(* ===================================================================== *)

Module Server.
Import Model Runtime.
Local Open Scope string_scope.
Local Open Scope js_scope.

(** What a handler sends: the HTTP status and the JSON body. *)
Inductive Body :=
| BError (error : string)                     (* { ok: false, error } *)
| BMessage (message : string)                 (* { ok: true, message } *)
| BTenantCreated (id name slug : string)
| BTenantUpdated (id name slug notes : string)
| BInstanceCreated
    (id name setupPassword projectId serviceId environmentId : string)
    (log : list string).

Record Response := mkResponse { code : nat; body : Body }.

Definition json (b : Body) : Response := mkResponse 200 b.
Definition status_json (c : nat) (b : Body) : Response := mkResponse c b.

(** [name.trim().replace(/[^a-zA-Z0-9 -]/g, '').slice(0, 50)] *)
Definition cleanName (name : string) : string :=
  Js.str (Js.slice0 50 (Js.keep_name_chars (Js.trim (Js.chars name)))).

(** ["cortexai-" + cleanName.toLowerCase().replace(/\s+/g, "-")
      .replace(/[^a-z0-9-]/g, '')] *)
Definition serviceSlug (cleanName : string) : string :=
  "cortexai-" ++
  Js.str (Js.keep_slug_chars
            (Js.spaces_to_hyphen false (Js.toLowerCase (Js.chars cleanName)))).

Definition is_empty (s : string) : bool := String.eqb s EmptyString.

(** The text between double quotes, as the template strings print it. *)
Definition quoted (s : string) : string :=
  String (ascii_of_nat 34) (s ++ String (ascii_of_nat 34) EmptyString).


(** The name of the remote project of a new instance: the tenant's slug is
    part of it unless the tenant is the default one. *)
Definition projectLabel (tenant : Tenant) (cleanName : string) : string :=
  if String.eqb (t_slug tenant) "default"
  then "CortexAI - " ++ cleanName
  else "CortexAI - " ++ t_slug tenant ++ " - " ++ cleanName.

Definition STATUS_CACHE_TTL : Z := 30000.

(** The composite status of [getInstanceStatus], its if-chain as written. *)
Definition compositeStatus (deployment : option Deployment)
    (health : option Health) : string :=
  match deployment with
  | None => "no-deployment"
  | Some d =>
      let st := deployment_status d in
      if String.eqb st "BUILDING" then "building"
      else if String.eqb st "DEPLOYING" then "deploying"
      else if String.eqb st "FAILED" || String.eqb st "CRASHED" then "failed"
      else if String.eqb st "SUCCESS" then
        match health with
        | None => "unhealthy"
        | Some h =>
            if negb (configured h) then "needs-setup"
            else if default false (gateway_reachable h) then "running"
            else "unhealthy"
        end
      else if String.eqb st "REMOVED" then "stopped"
      else "unknown"
  end.

(** [a || b] on possibly missing strings: the first non-empty one. *)
Definition truthy (s : option string) : option string :=
  match s with
  | Some x => if is_empty x then None else Some x
  | None => None
  end.

Definition or_else (a b : option string) : option string :=
  match truthy a with
  | Some x => Some x
  | None => truthy b
  end.

(** [deployment?.status === "SUCCESS"] *)
Definition is_success (deployment : option Deployment) : bool :=
  match deployment with
  | Some d => String.eqb (deployment_status d) "SUCCESS"
  | None => false
  end.

Section WithEnv.
Variable E : Env.

Definition statusCache_get (id : string) : M (option CacheEntry) :=
  fun w => (Ret (statusCache w !! id), w).

Definition statusCache_set (id : string) (c : CacheEntry) : M unit :=
  modify (fun w => with_statusCache (<[id := c]> (statusCache w)) w).

Definition statusCache_delete (id : string) : M unit :=
  modify (fun w => with_statusCache (delete id (statusCache w)) w).

(** The [try] block of [getInstanceStatus]: latest deployment, then the
    domain. *)
Definition queryControlPlane (instance : Instance)
  : M (option Deployment * option string) :=
  let* depData :=
    gql E (DEPLOYMENTS_QUERY (serviceId (i_railway instance))
                             (environmentId (i_railway instance))) in
  let deployment :=
    match depData with
    | DDeployments (node :: _) =>
        Some (Deployed (dn_id node) (dn_status node) (dn_createdAt node))
    | _ => None
    end in
  let* projData := gql E (PROJECT_QUERY (projectId (i_railway instance))) in
  let svc :=
    match projData with
    | DProject services =>
        List.find (fun n => String.eqb (sn_id n) (serviceId (i_railway instance)))
                  services
    | _ => None
    end in
  let domain :=
    match svc with
    | Some node =>
        let inst := head (sn_serviceInstances node) in
        let sd := inst ≫= (fun i => head (serviceDomains i)) in
        let cd := inst ≫= (fun i => head (customDomains i)) in
        or_else cd sd
    | None => None
    end in
  ret (deployment, domain).

(** The probe of the instance's own /healthz; every failure is "no
    health data". *)
Definition probeHealth (domain : string) : M (option Health) :=
  try_catch
    (let* hRes :=
       (fun w => await (fetchHealthz E (probes w) domain)
                         (with_probes (probes w ++ [domain]) w)) in
     match hRes with
     | ProbeOk body => lift_outcome body
     | ProbeNotOk _ => ret None
     end)
    (fun _ => ret None).

(** The part of [getInstanceStatus] after the cache check. *)
Definition resolveStatus (instance : Instance) : M StatusData :=
  let* found :=
    try_catch (queryControlPlane instance)
              (fun err => ret (Some (DeploymentUnknown (String_ err)), None)) in
  let deployment := fst found in
  let domain := snd found in
  let* health :=
    match domain with
    | Some dom => if is_success deployment then probeHealth dom else ret None
    | None => ret None
    end in
  let statusData :=
    mkStatusData deployment domain health (compositeStatus deployment health) in
  let* now := Date_now in
  statusCache_set (i_id instance) (mkCacheEntry statusData now);;
  ret statusData.

Definition getInstanceStatus (instance : Instance) : M StatusData :=
  let* cached := statusCache_get (i_id instance) in
  match cached with
  | Some c =>
      let* now := Date_now in
      if (now - ce_fetchedAt c <? STATUS_CACHE_TTL)%Z then ret (ce_data c)
      else resolveStatus instance
  | None => resolveStatus instance
  end.

(** [try { handler } catch (err) { res.status(500).json(...) }] *)
Definition guarded (handler : M Response) : M Response :=
  try_catch handler (fun err => ret (status_json 500 (BError (String_ err)))).

(** *** Tenant API *)

Record TenantBody := mkTenantBody {
  tb_name : option string;       (* [None]: undefined *)
  tb_notes : option string;
}.

(** POST /api/tenants *)
Definition createTenant (req : TenantBody) : M Response :=
  guarded
    (match tb_name req with
     | None => ret (status_json 400 (BError "Name is required."))
     | Some name =>
         if is_empty name || (length (Js.trim (Js.chars name)) =? 0)%nat
         then ret (status_json 400 (BError "Name is required."))
         else
           let cleanName := cleanName name in
           if is_empty cleanName
           then ret (status_json 400
                       (BError "Name must contain alphanumeric characters."))
           else
             let slug := Store.slugify cleanName in
             let* all := Store.getAllTenants E in
             match List.find (fun t => String.eqb (Store.ts_slug t) slug) all with
             | Some _ =>
                 ret (status_json 409
                        (BError ("A tenant with slug " ++ quoted slug ++ " already exists.")))
             | None =>
                 let* id := crypto_randomUUID E in
                 let* createdAt := isoNow E in
                 let* tenant :=
                   Store.addTenant E
                     {| t_id := id; t_name := cleanName; t_slug := slug;
                        t_createdAt := createdAt;
                        t_notes := default EmptyString (truthy (tb_notes req));
                        t_tailscale := None; t_instances := None |} in
                 console_log ("[fleet] Tenant created: " ++ quoted cleanName ++ " ("
                                ++ t_id tenant ++ ")");;
                 ret (json (BTenantCreated (t_id tenant) (t_name tenant) (t_slug tenant)))
             end
     end).

(** PATCH /api/tenants/:tenantId *)
Definition patchTenant (tenantId : string) (req : TenantBody) : M Response :=
  guarded
    (let finish (patch : Store.TenantPatch) : M Response :=
       let patch :=
         match tb_notes req with
         | Some notes =>
             Store.mkTenantPatch (Store.p_name patch) (Store.p_slug patch) (Some notes)
         | None => patch
         end in
       let* updated := Store.updateTenant E tenantId patch in
       match updated with
       | None => ret (status_json 404 (BError "Tenant not found."))
       | Some u =>
           ret (json (BTenantUpdated (t_id u) (t_name u) (t_slug u) (t_notes u)))
       end in
     match tb_name req with
     | Some name =>
         let cleanName := cleanName name in
         if is_empty cleanName
         then ret (status_json 400
                     (BError "Name must contain alphanumeric characters."))
         else finish (Store.mkTenantPatch (Some cleanName)
                                          (Some (Store.slugify cleanName)) None)
     | None => finish (Store.mkTenantPatch None None None)
     end).




(** *** Instance API (tenant-scoped) *)

(** POST /api/tenants/:tid/instances/:id/restart *)
Definition restartInstance (tid id : string) : M Response :=
  guarded
    (let* found := Store.getInstance E tid id in
     match found with
     | None => ret (status_json 404 (BError "Not found"))
     | Some instance =>
         gql E (SERVICE_INSTANCE_REDEPLOY (serviceId (i_railway instance))
                                          (environmentId (i_railway instance)));;
         statusCache_delete (i_id instance);;
         ret (json (BMessage "Redeployment triggered."))
     end).

(** POST /api/tenants/:tid/instances/:id/redeploy *)
Definition redeployInstance (tid id : string) : M Response :=
  guarded
    (let* found := Store.getInstance E tid id in
     match found with
     | None => ret (status_json 404 (BError "Not found"))
     | Some instance =>
         gql E (SERVICE_INSTANCE_REDEPLOY (serviceId (i_railway instance))
                                          (environmentId (i_railway instance)));;
         statusCache_delete (i_id instance);;
         ret (json (BMessage "Redeployment triggered."))
     end).

Record InstanceBody := mkInstanceBody {
  ib_name : option string;
  ib_setupPassword : option string;
  ib_notes : option string;
}.

(** [addLog] of the create handler: the line goes to the request's [log]
    array and to the console. *)
Definition addLog (tenant : Tenant) (cleanName msg : string) : M unit :=
  modify (fun w => with_stepLog (stepLog w ++ [msg]) w);;
  console_log ("[fleet] [" ++ t_slug tenant ++ "/" ++ cleanName ++ "] " ++ msg).

Definition undefined_property {A} (prop : string) : M A :=
  throw (JsTypeError ("Cannot read properties of undefined (reading '" ++ prop ++ "')")).

(** [project.projectCreate.id] and [project.projectCreate.environments] *)
Definition projectCreate_of (d : Data) : M (string * list EnvNode) :=
  match d with
  | DProjectCreate id _ environments => ret (id, environments)
  | _ => undefined_property "id"
  end.

(** [service.serviceCreate.id] *)
Definition serviceCreate_id (d : Data) : M string :=
  match d with
  | DServiceCreate id _ => ret id
  | _ => undefined_property "id"
  end.

(** [volume.volumeCreate.id] *)
Definition volumeCreate_id (d : Data) : M string :=
  match d with
  | DVolumeCreate id => ret id
  | _ => undefined_property "id"
  end.

(** [domainResult.serviceDomainCreate?.domain] *)
Definition serviceDomainCreate_domain (d : Data) : option string :=
  match d with
  | DServiceDomainCreate domain => domain
  | _ => None
  end.

Definition instanceVariables (finalSetupPassword gatewayToken : string)
  : list (string * string) :=
  [ ("SETUP_PASSWORD", finalSetupPassword);
    ("OPENCLAW_STATE_DIR", "/data/.openclaw");
    ("OPENCLAW_WORKSPACE_DIR", "/data/workspace");
    ("OPENCLAW_GATEWAY_TOKEN", gatewayToken);
    ("PORT", "8080");
    ("OPENCLAW_PUBLIC_PORT", "8080") ].

(** Step 5b of the handler: the optional Tailscale key. *)
Definition tailscaleStep (addLog : string -> M unit)
    (projectId environmentId serviceId serviceSlug : string)
  : M (option string) :=
  if isTailscaleConfigured E then
    try_catch
      (addLog "Generating Tailscale auth key...";;
       let* tsToken := (fun w => await (getTailscaleToken E (gqlCalls w)) w) in
       let* tsKey := await (createAuthKey E tsToken serviceSlug) in
       gql E (VARIABLE_COLLECTION_UPSERT projectId environmentId serviceId
                [("TS_AUTHKEY", key tsKey); ("TS_HOSTNAME", serviceSlug)] false);;
       addLog ("Tailscale key created. Device will join as "
                 ++ quoted serviceSlug ++ ".");;
       ret (Some serviceSlug))
      (fun e => addLog ("Tailscale setup skipped: " ++ String_ e);; ret None)
  else ret None.

(** Step 6 of the handler: the public domain, best-effort. *)
Definition domainStep (addLog : string -> M unit)
    (serviceId environmentId : string) : M unit :=
  addLog "Creating public domain...";;
  try_catch
    (let* domainResult := gql E (SERVICE_DOMAIN_CREATE serviceId environmentId) in
     addLog ("Domain: " ++
             default "(pending)" (truthy (serviceDomainCreate_domain domainResult))))
    (fun e => addLog ("Domain creation note: " ++ String_ e
                        ++ " (may auto-assign later).")).

(** The provisioning steps of the handler, from the first [addLog] to the
    response. *)
Definition provision (tid : string) (tenant : Tenant) (cleanName : string)
    (notes : option string)
    (finalSetupPassword gatewayToken instanceId : string) : M Response :=
  let addLog := addLog tenant cleanName in
  (* Step 1: Create Railway project (named with tenant context). *)
  let projectLabel := projectLabel tenant cleanName in
  addLog ("Creating Railway project " ++ quoted projectLabel ++ "...");;
  let* project := gql E (PROJECT_CREATE projectLabel) in
  let* created := projectCreate_of project in
  let projectId := fst created in
  addLog ("Project created: " ++ projectId);;
  (* Step 2: Get default environment. *)
  let* envEdge :=
    match snd created with
    | edge :: _ => ret edge
    | [] => throw (JsError "No default environment found in new project.")
    end in
  let environmentId := env_id envEdge in
  addLog ("Environment: " ++ env_name envEdge ++ " (" ++ environmentId ++ ")");;
  (* Step 3: Create service from GitHub repo. *)
  let serviceSlug := serviceSlug cleanName in
  addLog ("Creating service " ++ quoted serviceSlug ++ " from "
            ++ GITHUB_REPO E ++ "...");;
  let* service := gql E (SERVICE_CREATE projectId serviceSlug (GITHUB_REPO E)) in
  let* serviceId := serviceCreate_id service in
  addLog ("Service created: " ++ serviceId);;
  (* Step 4: Create volume. *)
  addLog "Creating volume at /data...";;
  let* volume := gql E (VOLUME_CREATE projectId serviceId environmentId "/data") in
  let* volumeId := volumeCreate_id volume in
  addLog ("Volume created: " ++ volumeId);;
  (* Step 5: Set environment variables. *)
  addLog "Setting environment variables...";;
  gql E (VARIABLE_COLLECTION_UPSERT projectId environmentId serviceId
           (instanceVariables finalSetupPassword gatewayToken) false);;
  addLog "Variables set.";;
  (* Step 5b: Generate Tailscale auth key. *)
  let* tailscaleHostname :=
    tailscaleStep addLog projectId environmentId serviceId serviceSlug in
  (* Step 6: Create a public domain. *)
  domainStep addLog serviceId environmentId;;
  (* Step 7: Trigger deployment. *)
  addLog "Triggering deployment...";;
  gql E (SERVICE_INSTANCE_DEPLOY serviceId environmentId);;
  addLog "Deployment triggered. Build will take several minutes.";;
  (* Step 8: Save to store (tenant-scoped). *)
  let* createdAt := isoNow E in
  Store.addInstance E tid
    {| i_id := instanceId;
       i_name := cleanName;
       i_createdAt := createdAt;
       i_railway := mkRailwayRefs projectId serviceId environmentId volumeId;
       i_config := mkInstanceConfig finalSetupPassword gatewayToken;
       i_tailscale := tailscaleHostname;
       i_notes := default EmptyString (truthy notes) |};;
  addLog "Instance saved to fleet store.";;
  let* w := get in
  ret (json (BInstanceCreated instanceId cleanName finalSetupPassword
                              projectId serviceId environmentId (stepLog w))).

(** POST /api/tenants/:tid/instances *)
Definition createInstance (tid : string) (req : InstanceBody) : M Response :=
  try_catch
    (let* found := Store.getTenant E tid in
     match found with
     | None => ret (status_json 404 (BError "Tenant not found."))
     | Some tenant =>
         match ib_name req with
         | None => ret (status_json 400 (BError "Name is required."))
         | Some name =>
             if is_empty name || (length (Js.trim (Js.chars name)) =? 0)%nat
             then ret (status_json 400 (BError "Name is required."))
             else
               let cleanName := cleanName name in
               if is_empty cleanName
               then ret (status_json 400
                           (BError "Name must contain alphanumeric characters."))
               else
                 let* finalSetupPassword :=
                   match truthy (ib_setupPassword req) with
                   | Some p => ret p
                   | None => crypto_randomBytes_hex E 16
                   end in
                 let* gatewayToken := crypto_randomBytes_hex E 32 in
                 let* instanceId := crypto_randomUUID E in
                 modify (with_stepLog []);;
                 provision tid tenant cleanName (ib_notes req)
                           finalSetupPassword gatewayToken instanceId
         end
     end)
    (fun err =>
       console_log ("[fleet] create error: " ++ String_ err);;
       ret (status_json 500 (BError (String_ err)))).

End WithEnv.
End Server.

(* ===================================================================== *)
(** ** The decision table of the status resolver, as the design states it *)
(* ===================================================================== *)

Module StatusTable.
Import Model.

(** One row: when it applies, and the composite status it gives. *)
Record Row := mkRow {
  applies : option Deployment -> option Health -> bool;
  label : string;
}.

Definition state_is (st : string) (d : option Deployment) : bool :=
  match d with
  | Some d => String.eqb (deployment_status d) st
  | None => false
  end.

Definition health_is (p : Health -> bool) (h : option Health) : bool :=
  match h with
  | Some h => p h
  | None => false
  end.

Definition reachable (h : Health) : bool := default false (gateway_reachable h).

Definition none_found (d : option Deployment) : bool :=
  match d with
  | None => true
  | Some _ => false
  end.

Definition absent (h : option Health) : bool :=
  match h with
  | None => true
  | Some _ => false
  end.

(** The rows, top to bottom. *)
Definition rows : list Row :=
  [ mkRow (fun d _ => none_found d) "no-deployment";
    mkRow (fun d _ => state_is "BUILDING" d) "building";
    mkRow (fun d _ => state_is "DEPLOYING" d) "deploying";
    mkRow (fun d _ => state_is "FAILED" d || state_is "CRASHED" d) "failed";
    mkRow (fun d h => state_is "SUCCESS" d && absent h) "unhealthy";
    mkRow (fun d h => state_is "SUCCESS" d
                      && health_is (fun h => negb (configured h)) h)
          "needs-setup";
    mkRow (fun d h => state_is "SUCCESS" d
                      && health_is (fun h => configured h && reachable h) h)
          "running";
    mkRow (fun d h => state_is "SUCCESS" d
                      && health_is (fun h => configured h && negb (reachable h)) h)
          "unhealthy";
    mkRow (fun d _ => state_is "REMOVED" d) "stopped";
    mkRow (fun _ _ => true) "unknown" ].

(** First match wins. *)
Fixpoint first_match (rs : list Row) (d : option Deployment) (h : option Health)
  : option string :=
  match rs with
  | [] => None
  | r :: rest => if applies r d h then Some (label r) else first_match rest d h
  end.

Definition lookup (d : option Deployment) (h : option Health) : option string :=
  first_match rows d h.

End StatusTable.

(* ===================================================================== *)
(** ** Concrete inputs used by the examples *)
(* ===================================================================== *)

Module Scenario.
Import Model.

(** A 31-character tenant name: 29 letters, a space, one more letter. *)
Definition long_name : string := "aaaaaaaaaaaaaaaaaaaaaaaaaaaaa b".

(** A control plane that answers 429 twice, first with [Retry-After: 2]
    and then without the header, and then succeeds with data [7]. *)
Definition twice_limited (k : nat) : RailwayApi.FetchResult nat :=
  match k with
  | 0 => RailwayApi.Responded
           (RailwayApi.mkHttpResponse 429 (Some "2") "slow down" None)
  | 1 => RailwayApi.Responded
           (RailwayApi.mkHttpResponse 429 None "slow down" None)
  | _ => RailwayApi.Responded
           (RailwayApi.mkHttpResponse 200 None "{}"
              (Some (RailwayApi.mkGqlJson [] 7)))
  end.

(** A control plane that never stops answering 429. *)
Definition always_limited (k : nat) : RailwayApi.FetchResult nat :=
  RailwayApi.Responded (RailwayApi.mkHttpResponse 429 None "slow down" None).

(** *** A small fleet *)

Definition okay {A} (a : A) : Reply A := mkReply 120 (Ret a).
Definition failing {A} (msg : string) : Reply A := mkReply 80 (Throw (JsError msg)).

Definition alpha : Instance :=
  {| i_id := "inst-a"; i_name := "alpha";
     i_createdAt := "2026-02-14T00:00:00.000Z";
     i_railway := mkRailwayRefs "proj-a" "svc-a" "env-a" "vol-a";
     i_config := mkInstanceConfig "pw-a" "tok-a";
     i_tailscale := None; i_notes := EmptyString |}.

Definition beta : Instance :=
  {| i_id := "inst-b"; i_name := "beta";
     i_createdAt := "2026-02-15T00:00:00.000Z";
     i_railway := mkRailwayRefs "proj-b" "svc-b" "env-b" "vol-b";
     i_config := mkInstanceConfig "pw-b" "tok-b";
     i_tailscale := None; i_notes := EmptyString |}.

Definition default_tenant : Tenant :=
  {| t_id := "t-default"; t_name := "Default"; t_slug := "default";
     t_createdAt := "2026-02-01T00:00:00.000Z"; t_notes := EmptyString;
     t_tailscale := None; t_instances := Some [] |}.

Definition acme : Tenant :=
  {| t_id := "t-acme"; t_name := "Acme"; t_slug := "acme";
     t_createdAt := "2026-02-10T00:00:00.000Z"; t_notes := EmptyString;
     t_tailscale := None;
     t_instances := Some [("inst-a", alpha); ("inst-b", beta)] |}.

Definition registry : Doc :=
  {| version := Some 2%Z;
     tenants := Some [("t-default", default_tenant); ("t-acme", acme)];
     instances := None |}.

(** The same two instances in the flat version-1 layout. *)
Definition legacy : Doc :=
  {| version := Some 1%Z;
     tenants := None;
     instances := Some [("inst-a", alpha); ("inst-b", beta)] |}.

(** A control plane on which the variable upsert and the deletion of
    project [proj-b] fail, and everything else succeeds. *)
Definition controlPlane (history : list Call) (c : Call) : Reply Data :=
  match c with
  | PROJECT_CREATE name =>
      okay (DProjectCreate "proj-new" name [mkEnvNode "env-new" "production"])
  | SERVICE_CREATE _ name _ => okay (DServiceCreate "svc-new" name)
  | VOLUME_CREATE _ _ _ _ => okay (DVolumeCreate "vol-new")
  | VARIABLE_COLLECTION_UPSERT _ _ _ _ _ =>
      failing "Railway API HTTP 500: upstream unavailable"
  | PROJECT_DELETE id =>
      if String.eqb id "proj-b"
      then failing "Railway API error: Not Authorized"
      else okay (DScalar true)
  | DEPLOYMENTS_QUERY _ _ =>
      okay (DDeployments
              [mkDeploymentNode "dep-1" "SUCCESS" "2026-02-14T00:05:00.000Z"])
  | PROJECT_QUERY _ =>
      okay (DProject
              [mkServiceNode "svc-a" "cortexai-alpha"
                 [mkServiceInstanceNode ["alpha.up.railway.app"] []]])
  | _ => okay (DScalar true)
  end.

Definition env : Env :=
  {| DATA_DIR := "/data";
     GITHUB_REPO := "TukaTek/cortexai-assistant";
     randomUUID := fun n => ("uuid-" ++ pretty n)%string;
     randomBytesHex := fun size n => ("hex-" ++ pretty n)%string;
     toISOString := fun t => "2026-03-01T12:00:00.000Z";
     railwayGql := controlPlane;
     fetchHealthz :=
       fun _ _ => okay (ProbeOk (Ret (Some (mkHealth true (Some true)))));
     isTailscaleConfigured := false;
     getTailscaleToken := fun _ => okay "ts-token";
     createAuthKey := fun _ _ => okay (mkAuthKey "tskey-auth" "k1") |}.

(** A control plane on which the required steps succeed and the domain
    creation fails, with a mesh key issuer that is configured but refuses
    the token. *)
Definition lenientControlPlane (history : list Call) (c : Call) : Reply Data :=
  match c with
  | VARIABLE_COLLECTION_UPSERT _ _ _ _ _ => okay (DScalar true)
  | SERVICE_DOMAIN_CREATE _ _ => failing "Railway API error: domain limit"
  | _ => controlPlane history c
  end.

Definition lenient_env : Env :=
  {| DATA_DIR := DATA_DIR env;
     GITHUB_REPO := GITHUB_REPO env;
     randomUUID := randomUUID env;
     randomBytesHex := randomBytesHex env;
     toISOString := toISOString env;
     railwayGql := lenientControlPlane;
     fetchHealthz := fetchHealthz env;
     isTailscaleConfigured := true;
     getTailscaleToken := fun _ => failing "Tailscale OAuth error 401: denied";
     createAuthKey := createAuthKey env |}.

Definition world_of (f : File) : World :=
  {| files := {[ "/data/fleet.json" := f ]};
     fsops := []; clock := 1000000; draws := 0; statusCache := ∅;
     console := []; gqlCalls := []; probes := []; stepLog := [] |}.

Definition world : World := world_of (Json registry).
Definition legacy_world : World := world_of (Json legacy).
Definition corrupt_world : World := world_of (Garbage "{ version: 2, tenants").
Definition unreadable_world : World := world_of Unreadable.

End Scenario.

(* ===================================================================== *)
(** ** What an observer reads off a world or a response *)
(* ===================================================================== *)

Module Observe.
Import Model.

(** The document in the registry file, if it holds one. *)
Definition stored (E : Env) (w : World) : option Doc :=
  match files w !! Store.STORE_PATH E with
  | Some (Json d) => Some d
  | _ => None
  end.

(** The slugs of the tenants of a document, in document order. *)
Definition slugs (d : Doc) : list string :=
  map t_slug (obj_values (default [] (tenants d))).

(** The instance stored under a tenant id and an instance id, if any. *)
Definition stored_instance (E : Env) (w : World) (tid iid : string)
  : option Instance :=
  match stored E w with
  | Some d =>
      match obj_get (default [] (tenants d)) tid with
      | Some t => obj_get (default [] (t_instances t)) iid
      | None => None
      end
  | None => None
  end.

(** What a run returned, when it did not throw. *)
Definition returned {A} (o : Outcome A) : option A :=
  match o with
  | Ret a => Some a
  | Throw _ => None
  end.

(** The [log] property of a response body, when it has one. *)
Definition response_log (r : Server.Response) : option (list string) :=
  match Server.body r with
  | Server.BInstanceCreated _ _ _ _ _ _ log => Some log
  | _ => None
  end.



(** The lines the create handler logs for the project (with its default
    environment), the service and the volume: steps 1 to 3 of the
    provisioning workflow. *)
Definition lines_of_steps_1_to_3 (E : Env) (tenant : Tenant) (cleanName : string)
    (projectId : string) (env : EnvNode) (serviceId volumeId : string)
  : list string :=
  [ "Creating Railway project "
      ++ Server.quoted (Server.projectLabel tenant cleanName) ++ "...";
    "Project created: " ++ projectId;
    "Environment: " ++ env_name env ++ " (" ++ env_id env ++ ")";
    "Creating service " ++ Server.quoted (Server.serviceSlug cleanName)
      ++ " from " ++ GITHUB_REPO E ++ "...";
    "Service created: " ++ serviceId;
    "Creating volume at /data...";
    "Volume created: " ++ volumeId ]%string.

(** The line that opens step 4, logged before the upsert is sent. *)
Definition upsert_opening_line : string := "Setting environment variables...".

(** The console copy of a step-log line. *)
Definition console_line (tenant : Tenant) (cleanName msg : string) : string :=
  ("[fleet] [" ++ t_slug tenant ++ "/" ++ cleanName ++ "] " ++ msg)%string.

(** The snapshot the cache would serve for [inst] in world [w]: an entry
    computed less than [STATUS_CACHE_TTL] ms ago. *)
Definition fresh_entry (w : World) (inst : Instance) : option StatusData :=
  match statusCache w !! i_id inst with
  | Some c =>
      if (clock w - ce_fetchedAt c <? Server.STATUS_CACHE_TTL)%Z
      then Some (ce_data c) else None
  | None => None
  end.

(** The deployment query a status resolution starts with. *)
Definition deployments_query (inst : Instance) : Call :=
  DEPLOYMENTS_QUERY (serviceId (i_railway inst)) (environmentId (i_railway inst)).

(** The domains a resolution probes, given what it found: the domain, when
    one is known and the deployment status is SUCCESS. *)
Definition probed (s : StatusData) : list string :=
  match sd_domain s with
  | Some dom => if Server.is_success (sd_deployment s) then [dom] else []
  | None => []
  end.

(** The health data of a probe reply: the payload of an ok response whose
    body parses, and nothing otherwise. *)
Definition health_of (r : Reply ProbeResponse) : option Health :=
  match settled r with
  | Ret (ProbeOk (Ret h)) => h
  | _ => None
  end.

(** [w'] differs from [w] by network activity only: calls made, probes
    sent, time passed. *)
Definition network_only (w w' : World) : Prop :=
  files w' = files w /\ fsops w' = fsops w /\ draws w' = draws w
  /\ statusCache w' = statusCache w /\ console w' = console w
  /\ stepLog w' = stepLog w /\ (clock w <= clock w')%Z.

(** The project query a status resolution goes on with. *)
Definition project_query (inst : Instance) : Call :=
  PROJECT_QUERY (projectId (i_railway inst)).

(** The latest deployment a deployments reply reports: its first edge. *)
Definition latest_deployment (edges : list DeploymentNode) : option Deployment :=
  match edges with
  | node :: _ => Some (Deployed (dn_id node) (dn_status node) (dn_createdAt node))
  | [] => None
  end.

(** The first entry of a list of domains, unless it is the empty string. *)
Definition first_domain (domains : list string) : option string :=
  match domains with
  | d :: _ => if String.eqb d EmptyString then None else Some d
  | [] => None
  end.

(** The domain a project reply reports for the instance: that of the
    first service instance of the service with the instance's service
    id, a custom domain before a generated one. *)
Definition public_domain (inst : Instance) (services : list ServiceNode)
  : option string :=
  match List.find (fun n => String.eqb (sn_id n) (serviceId (i_railway inst)))
                  services with
  | Some node =>
      match sn_serviceInstances node with
      | si :: _ =>
          match first_domain (customDomains si) with
          | Some d => Some d
          | None => first_domain (serviceDomains si)
          end
      | [] => None
      end
  | None => None
  end.

End Observe.

(* ===================================================================== *)
(** ** The shape of a slug *)
(* ===================================================================== *)

Module SlugShape.
Import Js.

(** Hyphens are isolated: no two in a row, and none first when [in_run]. *)
Fixpoint hyphens_isolated (in_run : bool) (l : list ascii) : Prop :=
  match l with
  | [] => True
  | c :: r =>
      if is_slug_alnum c then hyphens_isolated false r
      else in_run = false /\ hyphens_isolated true r
  end.

(** The name is made of ASCII characters: the names on which
    [toLowerCase] changes nothing but the letters A to Z and keeps the
    length. *)
Definition is_ascii (l : list ascii) : bool :=
  forallb (fun c => (code c <? 128)%nat) l.

End SlugShape.

(* ===================================================================== *)
(** ** What the control-plane client is expected to return *)
(* ===================================================================== *)

Module Expect.
Import RailwayApi.




End Expect.

(* ===================================================================== *)
(** ** store.js: updateInstance *)
(* ===================================================================== *)

Module StoreRest.
Import Model Runtime.
Local Open Scope js_scope.

(** The properties a patch may carry; [Object.assign] copies those that
    are present. *)
Record InstancePatch := mkInstancePatch {
  ip_id : option string;
  ip_name : option string;
  ip_createdAt : option string;
  ip_railway : option RailwayRefs;
  ip_config : option InstanceConfig;
  ip_tailscale : option (option string);
  ip_notes : option string;
}.

Definition assign_instance (i : Instance) (p : InstancePatch) : Instance :=
  {| i_id := default (i_id i) (ip_id p);
     i_name := default (i_name i) (ip_name p);
     i_createdAt := default (i_createdAt i) (ip_createdAt p);
     i_railway := default (i_railway i) (ip_railway p);
     i_config := default (i_config i) (ip_config p);
     i_tailscale := default (i_tailscale i) (ip_tailscale p);
     i_notes := default (i_notes i) (ip_notes p) |}.

(** A patch as [updateTenant] may receive it: any of the tenant's
    properties, [instances] among them. *)
Record FullTenantPatch := mkFullTenantPatch {
  tp_id : option string;
  tp_name : option string;
  tp_slug : option string;
  tp_createdAt : option string;
  tp_notes : option string;
  tp_tailscale : option (option string);
  tp_instances : option (Obj Instance);
}.

(** [const { instances: _ignored, ...safePatch } = patch] *)
Definition safePatch (p : FullTenantPatch) : FullTenantPatch :=
  {| tp_id := tp_id p; tp_name := tp_name p; tp_slug := tp_slug p;
     tp_createdAt := tp_createdAt p; tp_notes := tp_notes p;
     tp_tailscale := tp_tailscale p; tp_instances := None |}.

(** [Object.assign(tenant, patch)] *)
Definition assign_full (t : Tenant) (p : FullTenantPatch) : Tenant :=
  {| t_id := default (t_id t) (tp_id p);
     t_name := default (t_name t) (tp_name p);
     t_slug := default (t_slug t) (tp_slug p);
     t_createdAt := default (t_createdAt t) (tp_createdAt p);
     t_notes := default (t_notes t) (tp_notes p);
     t_tailscale := default (t_tailscale t) (tp_tailscale p);
     t_instances :=
       match tp_instances p with
       | Some insts => Some insts
       | None => t_instances t
       end |}.

(** The patch of name, slug and notes that the PATCH route passes. *)
Definition of_route_patch (p : Store.TenantPatch) : FullTenantPatch :=
  {| tp_id := None; tp_name := Store.p_name p; tp_slug := Store.p_slug p;
     tp_createdAt := None; tp_notes := Store.p_notes p;
     tp_tailscale := None; tp_instances := None |}.

Section WithEnv.
Variable E : Env.

(** [updateTenant] for any patch. *)
Definition updateTenant (tenantId : string) (patch : FullTenantPatch)
  : M (option Tenant) :=
  let* data := Store.load E in
  let* ts := Store.tenants_of data in
  match obj_get ts tenantId with
  | None => ret None
  | Some t =>
      let t' := assign_full t (safePatch patch) in
      Store.save E (Store.set_tenants data (obj_set ts tenantId t'));;
      ret (Some t')
  end.

Definition updateInstance (tenantId instanceId : string) (patch : InstancePatch)
  : M (option Instance) :=
  let* data := Store.load E in
  let* ts := Store.tenants_of data in
  match obj_get ts tenantId with
  | None => ret None
  | Some tenant =>
      let* insts := Store.instances_of tenant in
      match obj_get insts instanceId with
      | None => ret None
      | Some i =>
          let i' := assign_instance i patch in
          let tenant' := Store.set_instances tenant (obj_set insts instanceId i') in
          Store.save E (Store.set_tenants data (obj_set ts tenantId tenant'));;
          ret (Some i')
      end
  end.

End WithEnv.
End StoreRest.

(* ===================================================================== *)
(** ** server.js: the remaining instance routes *)
(* ===================================================================== *)

Module Routes.
Import Model Runtime.
Local Open Scope string_scope.
Local Open Scope js_scope.

(** [{ status: "unknown" }], what a failed status read is replaced by. *)
Definition unknownLive : StatusData := mkStatusData None None None "unknown".

(** The instance as the detail routes send it: everything but the gateway
    token, plus the live status. *)
Record InstanceDetail := mkInstanceDetail {
  d_id : string;
  d_name : string;
  d_createdAt : string;
  d_railway : RailwayRefs;
  d_setupPassword : string;
  d_tailscale : option string;
  d_notes : string;
  d_live : StatusData;
}.

Definition detail_of (instance : Instance) (live : StatusData) : InstanceDetail :=
  {| d_id := i_id instance; d_name := i_name instance;
     d_createdAt := i_createdAt instance; d_railway := i_railway instance;
     d_setupPassword := setupPassword (i_config instance);
     d_tailscale := i_tailscale instance; d_notes := i_notes instance;
     d_live := live |}.

Inductive DetailBody :=
| DError (error : string)                 (* { ok: false, error } *)
| DInstance (instance : InstanceDetail).  (* { ok: true, instance } *)

Record DetailResponse := mkDetailResponse { d_code : nat; d_body : DetailBody }.

Inductive HealthBody :=
| HError (error : string)                 (* { ok: false, error } *)
| HStatus (status : Z)                    (* { ok: false, status } *)
| HHealth (health : option Health).       (* { ok: true, health } *)

(** What enrichInstance returns for the instance lists. *)
Record InstanceSummary := mkInstanceSummary {
  s_id : string;
  s_name : string;
  s_createdAt : string;
  s_notes : string;
  s_setupPassword : string;
  s_domain : option string;
  s_status : string;
  s_deployment : option Deployment;
  s_tailscale : option string;
}.

Section WithEnv.
Variable E : Env.

(** [await getInstanceStatus(inst).catch(() => ({ status: "unknown" }))] *)
Definition liveStatus (inst : Instance) : M StatusData :=
  try_catch (Server.getInstanceStatus E inst) (fun _ => ret unknownLive).

Definition enrichInstance (inst : Instance) : M InstanceSummary :=
  let* live := liveStatus inst in
  ret {| s_id := i_id inst; s_name := i_name inst;
         s_createdAt := i_createdAt inst; s_notes := i_notes inst;
         s_setupPassword := setupPassword (i_config inst);
         s_domain := sd_domain live; s_status := sd_status live;
         s_deployment := sd_deployment live;
         s_tailscale := i_tailscale inst |}.

(** The body shared by the two detail routes once the instance is known:
    the cache entry is dropped, then the status is read. *)
Definition freshDetail (instance : Instance) : M DetailResponse :=
  Server.statusCache_delete (i_id instance);;
  let* live := liveStatus instance in
  ret (mkDetailResponse 200 (DInstance (detail_of instance live))).

(** GET /api/tenants/:tid/instances/:id *)
Definition getInstanceDetail (tid id : string) : M DetailResponse :=
  try_catch
    (let* found := Store.getInstance E tid id in
     match found with
     | None => ret (mkDetailResponse 404 (DError "Not found"))
     | Some instance => freshDetail instance
     end)
    (fun err => ret (mkDetailResponse 500 (DError (String_ err)))).

(** DELETE /api/tenants/:tid/instances/:id *)
Definition deleteInstance (tid id : string) : M Server.Response :=
  Server.guarded
    (let* found := Store.getInstance E tid id in
     match found with
     | None => ret (Server.status_json 404 (Server.BError "Not found"))
     | Some instance =>
         gql E (PROJECT_DELETE (projectId (i_railway instance)));;
         Store.removeInstance E tid (i_id instance);;
         Server.statusCache_delete (i_id instance);;
         ret (Server.json
                (Server.BMessage ("Deleted project for "
                                    ++ Server.quoted (i_name instance) ++ ".")))
     end).

(** The part of the health routes after the instance is known: the domain
    is taken from the cache entry, whatever its age. *)
Definition probeCached (instance : Instance) : M HealthBody :=
  let* cached := Server.statusCache_get (i_id instance) in
  match Server.truthy (cached ≫= (fun c => sd_domain (ce_data c))) with
  | None => ret (HError "Domain not yet available.")
  | Some domain =>
      let* hRes :=
        (fun w => await (fetchHealthz E (probes w) domain)
                        (with_probes (probes w ++ [domain]) w)) in
      match hRes with
      | ProbeOk body =>
          let* data := lift_outcome body in
          ret (HHealth data)
      | ProbeNotOk status => ret (HStatus status)
      end
  end.

(** GET /api/tenants/:tid/instances/:id/health; every answer has HTTP
    status 200 but the 404. *)
Definition getInstanceHealth (tid id : string) : M (nat * HealthBody) :=
  try_catch
    (let* found := Store.getInstance E tid id in
     match found with
     | None => ret (404%nat, HError "Not found")
     | Some instance =>
         let* body := probeCached instance in
         ret (200%nat, body)
     end)
    (fun err => ret (200%nat, HError (String_ err))).

(** *** The routes without tenant id *)

(** GET /api/instances/:id. The lookup is outside any [try]. *)
Definition legacyGetInstance (id : string) : M DetailResponse :=
  let* found := Store.findInstanceAcrossTenants E id in
  match found with
  | None => ret (mkDetailResponse 404 (DError "Not found"))
  | Some (_, instance) => freshDetail instance
  end.

Definition redeployFound (instance : Instance) : M Server.Response :=
  Server.guarded
    (gql E (SERVICE_INSTANCE_REDEPLOY (serviceId (i_railway instance))
                                      (environmentId (i_railway instance)));;
     Server.statusCache_delete (i_id instance);;
     ret (Server.json (Server.BMessage "Redeployment triggered."))).

(** POST /api/instances/:id/restart *)
Definition legacyRestart (id : string) : M Server.Response :=
  let* found := Store.findInstanceAcrossTenants E id in
  match found with
  | None => ret (Server.status_json 404 (Server.BError "Not found"))
  | Some (_, instance) => redeployFound instance
  end.

(** POST /api/instances/:id/redeploy *)
Definition legacyRedeploy (id : string) : M Server.Response :=
  let* found := Store.findInstanceAcrossTenants E id in
  match found with
  | None => ret (Server.status_json 404 (Server.BError "Not found"))
  | Some (_, instance) => redeployFound instance
  end.

(** DELETE /api/instances/:id *)
Definition legacyDelete (id : string) : M Server.Response :=
  let* found := Store.findInstanceAcrossTenants E id in
  match found with
  | None => ret (Server.status_json 404 (Server.BError "Not found"))
  | Some (tenant, instance) =>
      Server.guarded
        (gql E (PROJECT_DELETE (projectId (i_railway instance)));;
         Store.removeInstance E (t_id tenant) (i_id instance);;
         Server.statusCache_delete (i_id instance);;
         ret (Server.json
                (Server.BMessage ("Deleted project for "
                                    ++ Server.quoted (i_name instance) ++ "."))))
  end.

(** GET /api/instances/:id/health *)
Definition legacyHealth (id : string) : M (nat * HealthBody) :=
  let* found := Store.findInstanceAcrossTenants E id in
  match found with
  | None => ret (404%nat, HError "Not found")
  | Some (_, instance) =>
      try_catch
        (let* body := probeCached instance in ret (200%nat, body))
        (fun err => ret (200%nat, HError (String_ err)))
  end.

End WithEnv.
End Routes.

(* ===================================================================== *)
(** ** manager-app.js: status labels of the dashboard *)
(* ===================================================================== *)

Module Dashboard.

(** The own properties of the [labels] object of [statusLabel]. *)
Definition labels : list (string * string) :=
  [ ("running", "Running"); ("needs-setup", "Needs Setup");
    ("building", "Building"); ("deploying", "Deploying");
    ("failed", "Failed"); ("unhealthy", "Unhealthy");
    ("stopped", "Stopped"); ("no-deployment", "No Deployment");
    ("unknown", "Unknown") ].

(** The own properties of the [map] object of [statusDotClass]. *)
Definition dotClasses : list (string * string) :=
  [ ("running", "status-running"); ("needs-setup", "status-needs-setup");
    ("building", "status-building"); ("deploying", "status-deploying");
    ("failed", "status-failed"); ("unhealthy", "status-unhealthy");
    ("stopped", "status-stopped"); ("no-deployment", "status-no-deployment");
    ("unknown", "status-unknown") ].

(** The names every object literal inherits from [Object.prototype]; a
    lookup of one of them yields a function or an object, not a string. *)
Definition inherited : list string :=
  [ "constructor"; "__proto__"; "hasOwnProperty"; "isPrototypeOf";
    "propertyIsEnumerable"; "toLocaleString"; "toString"; "valueOf";
    "__defineGetter__"; "__defineSetter__"; "__lookupGetter__";
    "__lookupSetter__" ].

Inductive Looked :=
| Text (s : string)
| Inherited (name : string).

(** [table[key] || fallback] *)
Definition lookup_or (table : list (string * string)) (key fallback : string)
  : Looked :=
  match Model.obj_get table key with
  | Some v => if String.eqb v EmptyString then Text fallback else Text v
  | None =>
      if existsb (String.eqb key) inherited then Inherited key else Text fallback
  end.

(** [labels[status] || status] *)
Definition statusLabel (status : string) : Looked := lookup_or labels status status.

(** [map[status] || 'status-unknown'] *)
Definition statusDotClass (status : string) : Looked :=
  lookup_or dotClasses status "status-unknown".

End Dashboard.

(* ===================================================================== *)
(** ** Frames: what an operation leaves alone *)
(* ===================================================================== *)

Module Frame.
Import Model.

(** [w'] differs from [w] on disk, console and random draws only. *)
Definition store_only (w w' : World) : Prop :=
  statusCache w' = statusCache w /\ gqlCalls w' = gqlCalls w
  /\ probes w' = probes w /\ clock w' = clock w /\ stepLog w' = stepLog w.

(** Every tenant of the document is stored under its own id. *)
Definition keyed_by_id (d : Doc) : Prop :=
  Forall (fun kt => t_id (snd kt) = fst kt) (default [] (tenants d)).

(** The registry file, when it holds a current document, holds one whose
    tenants are stored under their own ids. *)
Definition well_keyed (E : Env) (w : World) : Prop :=
  forall doc,
    files w !! Store.STORE_PATH E = Some (Json doc) ->
    Store.needs_migration doc = false ->
    keyed_by_id doc.

(** The registry file holds a document of version 2 or more whose
    tenants are stored under their own ids. *)
Definition registry_keyed (E : Env) (w : World) : Prop :=
  exists doc,
    Observe.stored E w = Some doc /\ Store.version_ge_2 doc = true
    /\ keyed_by_id doc.

(** A JS object has each key once. *)
Definition unique_keys (d : Doc) : Prop :=
  NoDup (obj_keys (default [] (tenants d))).

(** The key is not the name of a property that every object inherits
    from [Object.prototype]. For such a name a property read on an object
    without an own property of that name finds the inherited value, which
    [obj_get], the lookup among the own properties, does not show. *)
Definition plain_key (k : string) : bool :=
  negb (existsb (String.eqb k) Dashboard.inherited).




(** What [getInstance] finds in a document. *)
Definition instance_in (d : Doc) (tid iid : string) : option Instance :=
  match obj_get (default [] (tenants d)) tid with
  | Some t => obj_get (default [] (t_instances t)) iid
  | None => None
  end.

End Frame.

(* ===================================================================== *)
(** ** Further scenarios *)
(* ===================================================================== *)

Module Incident.
Import Model.

(** The control plane is down: every call is rejected. *)
Definition down_env : Env :=
  {| DATA_DIR := DATA_DIR Scenario.env;
     GITHUB_REPO := GITHUB_REPO Scenario.env;
     randomUUID := randomUUID Scenario.env;
     randomBytesHex := randomBytesHex Scenario.env;
     toISOString := toISOString Scenario.env;
     railwayGql := fun _ _ => Scenario.failing "fetch failed";
     fetchHealthz := fetchHealthz Scenario.env;
     isTailscaleConfigured := false;
     getTailscaleToken := getTailscaleToken Scenario.env;
     createAuthKey := createAuthKey Scenario.env |}.

(** A snapshot of [alpha] taken ten minutes before the clock of the
    scenario world, and that world with the snapshot in its cache. *)
Definition old_snapshot : StatusData :=
  mkStatusData (Some (Deployed "dep-0" "BUILDING" "2026-02-14T00:01:00.000Z"))
               (Some "alpha.up.railway.app") None "building".

Definition warm_world : World :=
  with_statusCache
    {[ "inst-a" := mkCacheEntry old_snapshot 400000 ]} Scenario.world.

End Incident.

(* ===================================================================== *)
(** ** server.js: the auth middleware *)
(* ===================================================================== *)

Module Auth.
Local Open Scope string_scope.

(** What the middleware does with a request: hands it on, or answers. *)
Inductive Verdict :=
| Next
| Answered (code : nat) (challenge : bool) (text : string).

(** [s.indexOf(c)], with [None] for -1. *)
Fixpoint indexOf (c : ascii) (s : string) : option nat :=
  match s with
  | EmptyString => None
  | String a r => if Ascii.eqb a c then Some 0%nat else S <$> indexOf c r
  end.

(** [s.slice(n)] *)
Fixpoint slice_from (n : nat) (s : string) : string :=
  match n, s with
  | O, _ => s
  | S k, String _ r => slice_from k r
  | S _, EmptyString => EmptyString
  end.

Definition colon : ascii := ":"%char.

Section WithConfig.
(** [Buffer.from(text, 'base64').toString()] and the configured password. *)
Variable base64_decode : string -> string.
Variable FLEET_PASSWORD : string.

(** [authorization] is the request header, [None] when it is absent. *)
Definition requireAuth (authorization : option string) : Verdict :=
  if Server.is_empty FLEET_PASSWORD
  then Answered 500 false "FLEET_PASSWORD not configured on server."
  else
    let auth := default EmptyString authorization in
    if negb (String.prefix "Basic " auth)
    then Answered 401 true "Authentication required."
    else
      let decoded := base64_decode (slice_from 6 auth) in
      let pass :=
        match indexOf colon decoded with
        | Some colonIdx => slice_from (colonIdx + 1) decoded
        | None => decoded
        end in
      if negb (String.eqb pass FLEET_PASSWORD)
      then Answered 401 true "Invalid password."
      else Next.

End WithConfig.
End Auth.

(* ===================================================================== *)
(** * Properties *)
(* ===================================================================== *)

(** ** Running the handler monad *)

Section MonadFacts.
Import Model.

Lemma bind_Ret {A B} (m : M A) (k : A -> M B) (w w' : World) (a : A) :
  m w = (Ret a, w') -> bind m k w = k a w'.
Proof. intros H. unfold bind. rewrite H. reflexivity. Qed.

Lemma bind_Throw {A B} (m : M A) (k : A -> M B) (w w' : World) (e : Exn) :
  m w = (Throw e, w') -> bind m k w = (Throw e, w').
Proof. intros H. unfold bind. rewrite H. reflexivity. Qed.

Lemma try_catch_Ret {A} (m : M A) (h : Exn -> M A) (w w' : World) (a : A) :
  m w = (Ret a, w') -> try_catch m h w = (Ret a, w').
Proof. intros H. unfold try_catch. rewrite H. reflexivity. Qed.

Lemma try_catch_Throw {A} (m : M A) (h : Exn -> M A) (w w' : World) (e : Exn) :
  m w = (Throw e, w') -> try_catch m h w = h e w'.
Proof. intros H. unfold try_catch. rewrite H. reflexivity. Qed.

End MonadFacts.

(** ** The embedding on the examples of the product document *)

Section Examples.
Import Model.

Example slugify_client_xyz : Store.slugify "Client XYZ" = "client-xyz".
Proof. vm_compute. reflexivity. Qed.

Example serviceSlug_client_xyz :
  Server.serviceSlug "Client XYZ" = "cortexai-client-xyz".
Proof. vm_compute. reflexivity. Qed.

Example cleanName_strips_and_trims :
  Server.cleanName "  Acme (EU) #1  " = "Acme EU 1".
Proof. vm_compute. reflexivity. Qed.

(** Provisioning goes through to the registry when only the optional
    steps fail: the mesh key and the domain are logged and skipped, the
    instance is stored without a mesh hostname, and the response carries
    the whole step log. *)
Example createInstance_completes_without_optional_steps :
  let r :=
    Server.createInstance Scenario.lenient_env "t-acme"
      (Server.mkInstanceBody (Some "Prod 1") None None) Scenario.world in
  option_map Server.code (Observe.returned (fst r)) = Some 200%nat
  /\ option_map (@length string)
       (match Observe.returned (fst r) with
        | Some resp => Observe.response_log resp
        | None => None
        end) = Some 16%nat
  /\ gqlCalls (snd r)
     = [ PROJECT_CREATE "CortexAI - acme - Prod 1";
         SERVICE_CREATE "proj-new" "cortexai-prod-1" "TukaTek/cortexai-assistant";
         VOLUME_CREATE "proj-new" "svc-new" "env-new" "/data";
         VARIABLE_COLLECTION_UPSERT "proj-new" "env-new" "svc-new"
           (Server.instanceVariables "hex-0" "hex-1") false;
         SERVICE_DOMAIN_CREATE "svc-new" "env-new";
         SERVICE_INSTANCE_DEPLOY "svc-new" "env-new" ]
  /\ Observe.stored_instance Scenario.lenient_env (snd r) "t-acme" "uuid-2"
     = Some {| i_id := "uuid-2"; i_name := "Prod 1";
               i_createdAt := "2026-03-01T12:00:00.000Z";
               i_railway := mkRailwayRefs "proj-new" "svc-new" "env-new" "vol-new";
               i_config := mkInstanceConfig "hex-0" "hex-1";
               i_tailscale := None; i_notes := EmptyString |}.
Proof. cbv zeta. repeat split; vm_compute; reflexivity. Qed.

End Examples.

(** ** slugify *)

Section SlugifyFacts.
Import Js Slug.

Lemma alnum_not_hyphen c : is_slug_alnum c = true -> is_hyphen c = false.
Proof.
  unfold is_slug_alnum, is_lower, is_digit, between, is_hyphen, hyphen.
  destruct (Ascii.eqb_spec c "-"%char) as [-> | _]; [ | reflexivity].
  vm_compute. intros H; discriminate H.
Qed.

Lemma collapse_runs_charset b l :
  Forall (fun c => is_slug_char c = true) (collapse_runs b l).
Proof.
  revert b. induction l as [| c r IH]; intros b; simpl.
  - constructor.
  - destruct (is_slug_alnum c) eqn:Hc.
    + constructor; [ unfold is_slug_char; rewrite Hc; reflexivity | apply IH ].
    + destruct b; [ apply IH | constructor; [ reflexivity | apply IH ] ].
Qed.

Lemma drop_leading_hyphen_Forall (P : ascii -> Prop) l :
  Forall P l -> Forall P (drop_leading_hyphen l).
Proof.
  destruct l as [| c r]; simpl; intros H; [ assumption | ].
  destruct (is_hyphen c); [ inversion H; assumption | assumption ].
Qed.

Lemma drop_trailing_hyphen_Forall (P : ascii -> Prop) l :
  Forall P l -> Forall P (drop_trailing_hyphen l).
Proof.
  induction l as [| c r IH]; intros H; [ constructor | ].
  inversion H as [| ? ? Hc Hr]; subst.
  destruct r as [| d r'].
  - simpl. destruct (is_hyphen c); [ constructor | assumption ].
  - change (Forall P (c :: drop_trailing_hyphen (d :: r'))).
    constructor; [ assumption | apply IH; assumption ].
Qed.

(** Every character of a slug is a lowercase letter, a digit or a hyphen. *)
Lemma slugify_charset l :
  Forall (fun c => is_slug_char c = true) (slugify_chars l).
Proof.
  unfold slugify_chars, slice0, strip_edge_hyphens, replace_non_alnum_runs.
  apply Forall_take, drop_trailing_hyphen_Forall, drop_leading_hyphen_Forall,
    collapse_runs_charset.
Qed.

(** A slug has at most 30 characters. *)
Lemma slugify_length l : (length (slugify_chars l) <= 30)%nat.
Proof. unfold slugify_chars, slice0. rewrite length_take. lia. Qed.

Lemma collapse_in_run_head l : head (collapse_runs true l) <> Some hyphen.
Proof.
  induction l as [| c r IH]; simpl; [ discriminate | ].
  destruct (is_slug_alnum c) eqn:Hc; [ | exact IH ].
  simpl. intros [= ->]. apply alnum_not_hyphen in Hc. discriminate Hc.
Qed.

Lemma drop_leading_collapse_head l :
  head (drop_leading_hyphen (collapse_runs false l)) <> Some hyphen.
Proof.
  destruct l as [| c r]; simpl; [ discriminate | ].
  destruct (is_slug_alnum c) eqn:Hc; simpl.
  - rewrite (alnum_not_hyphen _ Hc). simpl. intros [= ->].
    apply alnum_not_hyphen in Hc. discriminate Hc.
  - apply collapse_in_run_head.
Qed.

Lemma drop_trailing_head l :
  head l <> Some hyphen -> head (drop_trailing_hyphen l) <> Some hyphen.
Proof.
  destruct l as [| c [| d r]]; simpl; intros H; [ discriminate | | exact H ].
  destruct (is_hyphen c); [ discriminate | exact H ].
Qed.

(** A slug never starts with a hyphen. *)
Lemma slugify_no_leading_hyphen l : head (slugify_chars l) <> Some hyphen.
Proof.
  unfold slugify_chars, slice0, strip_edge_hyphens, replace_non_alnum_runs.
  pose proof (drop_trailing_head _ (drop_leading_collapse_head (toLowerCase l))) as H.
  destruct (drop_trailing_hyphen _) as [| c r]; simpl; [ discriminate | exact H ].
Qed.

(** C4 (evaluation at the failing input). For the 31-character name
    [Scenario.long_name], which the tenant handlers accept unchanged,
    [slugify] cuts the slug after its 30th character, a hyphen: the result
    ends in a hyphen, and slugifying it again gives a different string, so
    [slugify] is not idempotent there. *)
Theorem slugify_truncation_leaves_trailing_hyphen :
  Server.cleanName Scenario.long_name = Scenario.long_name /\
  slugify Scenario.long_name = "aaaaaaaaaaaaaaaaaaaaaaaaaaaaa-" /\
  last (chars (slugify Scenario.long_name)) = Some hyphen /\
  slugify (slugify Scenario.long_name) = "aaaaaaaaaaaaaaaaaaaaaaaaaaaaa" /\
  slugify (slugify Scenario.long_name) <> slugify Scenario.long_name.
Proof.
  repeat split; try (vm_compute; reflexivity).
  vm_compute. intros H; discriminate H.
Qed.

End SlugifyFacts.

(** ** railwayGql: the retry on HTTP 429 *)

Section RailwayGqlFacts.
Import RailwayApi.

(** The wait is the Retry-After header read as a decimal number of seconds,
    and 5 seconds when the header is missing or empty. *)
Lemma retryAfter_default (D : Type) (st : Z) (text : string) (j : option (GqlJson D)) :
  retryAfter (mkHttpResponse st None text j) = Some 5%Z /\
  retryAfter (mkHttpResponse st (Some EmptyString) text j) = Some 5%Z.
Proof. split; reflexivity. Qed.

(** A server that answers 429 for ever: the call never settles, whatever
    the number of requests followed. *)
Lemma railwayGql_always_limited fuel attempt trace :
  railwayGql Scenario.always_limited fuel attempt trace = None.
Proof.
  revert attempt trace. induction fuel as [| fuel IH]; intros attempt trace.
  - reflexivity.
  - simpl. apply IH.
Qed.

(** One request of the client on a 429 answer. *)
Lemma railwayGql_on_429 (D : Type) (server : nat -> FetchResult D)
    fuel attempt trace res :
  server attempt = Responded res -> status res = 429%Z ->
  railwayGql server (S fuel) attempt trace
  = railwayGql server fuel (S attempt)
      ((trace ++ [Fetched attempt])
         ++ [Warned (retryAfter res);
             Slept ((fun s => s * 1000)%Z <$> retryAfter res)]).
Proof. intros Hs H429. simpl. rewrite Hs, H429. reflexivity. Qed.

(** After [n] answers 429 the client is still retrying: it sends request
    [n + 1], and its result is the one of that request. The number of
    retries is not bounded by the client. *)
Lemma railwayGql_retries_every_429 (D : Type) (hdr : option string) (d : D) n :
  forall attempt trace, (attempt <= n)%nat ->
  exists events,
    railwayGql
      (rate_limited n hdr
         (Responded (mkHttpResponse 200 None EmptyString (Some (mkGqlJson [] d)))))
      (S (n - attempt)) attempt trace
    = Some (inr d, trace ++ events)
    /\ length (filter (fun e => slept e = true) events) = (n - attempt)%nat.
Proof.
  intros attempt. remember (n - attempt)%nat as m eqn:Hm.
  revert attempt Hm. induction m as [| m IH]; intros attempt Hm trace Hle.
  - assert (attempt = n) as -> by lia.
    exists [Fetched n]. cbn [railwayGql]. unfold rate_limited.
    replace (n <? n)%nat with false by (symmetry; apply Nat.ltb_ge; lia).
    split; reflexivity.
  - assert (attempt < n)%nat as Hlt by lia.
    erewrite railwayGql_on_429; cycle 1.
    { unfold rate_limited.
      replace (attempt <? n)%nat with true by (symmetry; apply Nat.ltb_lt; lia).
      reflexivity. }
    { reflexivity. }
    edestruct (IH (S attempt) ltac:(lia)) as (events & Hrun & Hcount);
      [ lia | ].
    rewrite Hrun. eexists. rewrite <- !app_assoc. split; [ reflexivity | ].
    rewrite !filter_app, !length_app, Hcount. reflexivity.
Qed.

(** C1 (evaluation at the failing input). The control plane answers 429
    twice and then succeeds. [railwayGql] waits 2 s (the header) after the
    first 429, retries, waits 5 s (no header) after the second 429, retries
    again, and returns the data of the third response: a second 429 is
    followed by another automatic retry, and the call does not fail. *)
Theorem railwayGql_retries_after_second_429 :
  call Scenario.twice_limited 3
  = Some (inr 7%nat,
          [ Fetched 0; Warned (Some 2%Z); Slept (Some 2000%Z);
            Fetched 1; Warned (Some 5%Z); Slept (Some 5000%Z);
            Fetched 2 ]).
Proof. vm_compute. reflexivity. Qed.

End RailwayGqlFacts.

(** ** The registry on disk *)

Section StoreFacts.
Import Model Runtime Store.
Variable E : Env.

Lemma string_app_assoc (a b c : string) : ((a ++ b) ++ c = a ++ (b ++ c))%string.
Proof.
  induction a as [| x a IH]; [ reflexivity | ].
  change (String x ((a ++ b) ++ c) = String x (a ++ (b ++ c)))%string.
  rewrite IH. reflexivity.
Qed.

Lemma path_join_inj dir a b : path_join dir a = path_join dir b -> a = b.
Proof.
  unfold path_join. intros H. apply String.app_inj in H.
  cbv [String.append] in H. injection H as ->. reflexivity.
Qed.

Ltac distinct_names H :=
  apply path_join_inj in H; cbv [String.append] in H; discriminate H.

Lemma store_ne_premigrate : STORE_PATH E <> premigrate_backup_path E.
Proof. intros H. distinct_names H. Qed.

Lemma store_ne_timestamped iso : STORE_PATH E <> timestamped_backup_path E iso.
Proof. intros H. distinct_names H. Qed.

Lemma tmp_path_eq : tmp_path E = path_join (DATA_DIR E) "fleet.json.tmp".
Proof.
  unfold tmp_path, STORE_PATH, path_join.
  rewrite !string_app_assoc. reflexivity.
Qed.

Lemma tmp_ne_store : tmp_path E <> STORE_PATH E.
Proof. rewrite tmp_path_eq. intros H. distinct_names H. Qed.

Lemma tmp_ne_premigrate : tmp_path E <> premigrate_backup_path E.
Proof. rewrite tmp_path_eq. intros H. distinct_names H. Qed.

Lemma tmp_ne_timestamped iso : tmp_path E <> timestamped_backup_path E iso.
Proof. rewrite tmp_path_eq. intros H. distinct_names H. Qed.

(** [save] over an existing file: the previous content is copied to the
    timestamped backup, the new document is written to the temporary path,
    and the temporary file is renamed over the canonical path. *)
Lemma save_over_existing (data : Doc) (w : World) (f : File) :
  files w !! STORE_PATH E = Some f ->
  readable f = true ->
  save E data w
  = (Ret tt,
     mkWorld
       (<[STORE_PATH E := Json data]>
          (delete (tmp_path E)
             (<[tmp_path E := Json data]>
                (<[timestamped_backup_path E (toISOString E (clock w)) := f]>
                   (files w)))))
       (fsops w
          ++ [ FsCopy (STORE_PATH E)
                 (timestamped_backup_path E (toISOString E (clock w)));
               FsWrite (tmp_path E);
               FsRename (tmp_path E) (STORE_PATH E) ])
       (clock w) (draws w) (statusCache w) (console w) (gqlCalls w)
       (probes w) (stepLog w)).
Proof.
  intros Hf Hr.
  unfold save, bind, fs_mkdirSync, ret, fs_existsSync, isoNow, try_catch,
    fs_copyFileSync, fs_writeFileSync, fs_renameSync, modify.
  rewrite Hf.
  rewrite bool_decide_eq_true_2 by (eexists; reflexivity).
  cbn beta iota. rewrite Hf.
  destruct f as [raw | d |]; [ | | discriminate Hr ];
    cbn [files with_files]; rewrite lookup_insert_eq;
    unfold with_files; cbn; rewrite <- !app_assoc; reflexivity.
Qed.

(** [save] over a file that cannot be read: the copy fails, the failure
    is swallowed, and the file is replaced without a backup. *)
Lemma save_over_unreadable (data : Doc) (w : World) :
  files w !! STORE_PATH E = Some Unreadable ->
  save E data w
  = (Ret tt,
     mkWorld
       (<[STORE_PATH E := Json data]>
          (delete (tmp_path E) (<[tmp_path E := Json data]> (files w))))
       (fsops w ++ [ FsWrite (tmp_path E); FsRename (tmp_path E) (STORE_PATH E) ])
       (clock w) (draws w) (statusCache w) (console w) (gqlCalls w)
       (probes w) (stepLog w)).
Proof.
  intros Hf.
  unfold save, bind, fs_mkdirSync, ret, fs_existsSync, isoNow, try_catch,
    fs_copyFileSync, fs_writeFileSync, fs_renameSync, modify.
  rewrite Hf.
  rewrite bool_decide_eq_true_2 by (eexists; reflexivity).
  cbn beta iota. rewrite Hf.
  cbn [files with_files].
  rewrite lookup_insert_eq.
  unfold with_files. cbn. rewrite <- !app_assoc. reflexivity.
Qed.

(** [save] when there is no file yet: no backup is taken. *)
Lemma save_first (data : Doc) (w : World) :
  files w !! STORE_PATH E = None ->
  save E data w
  = (Ret tt,
     mkWorld
       (<[STORE_PATH E := Json data]>
          (delete (tmp_path E) (<[tmp_path E := Json data]> (files w))))
       (fsops w ++ [ FsWrite (tmp_path E); FsRename (tmp_path E) (STORE_PATH E) ])
       (clock w) (draws w) (statusCache w) (console w) (gqlCalls w)
       (probes w) (stepLog w)).
Proof.
  intros Hf.
  unfold save, bind, fs_mkdirSync, ret, fs_existsSync, isoNow, try_catch,
    fs_copyFileSync, fs_writeFileSync, fs_renameSync, modify.
  rewrite Hf.
  rewrite bool_decide_eq_false_2 by (intros [x Hx]; discriminate Hx).
  cbn [files with_files].
  rewrite lookup_insert_eq.
  unfold with_files. cbn. rewrite <- !app_assoc. reflexivity.
Qed.

(** A current document is returned as it is, and nothing changes. *)
Lemma load_current (w : World) (doc : Doc) :
  files w !! STORE_PATH E = Some (Json doc) ->
  needs_migration doc = false ->
  load E w = (Ret doc, w).
Proof.
  intros Hf Hv. unfold load, try_catch, bind, fs_readFileSync.
  rewrite Hf. cbn [JSON_parse ret]. rewrite Hv. reflexivity.
Qed.

(** The document [emptyStore] builds in world [w]. *)
Lemma emptyStore_run (w : World) :
  emptyStore E w
  = (Ret {| version := Some 2%Z;
            tenants :=
              Some [(randomUUID E (draws w),
                     {| t_id := randomUUID E (draws w);
                        t_name := "Default";
                        t_slug := "default";
                        t_createdAt := toISOString E (clock w);
                        t_notes := EmptyString;
                        t_tailscale := None;
                        t_instances := Some [] |})];
            instances := None |},
     with_draws (S (draws w)) w).
Proof. reflexivity. Qed.

(** C9. When the registry file exists but gives no document, [load]
    does not raise. It returns a fresh version-2 document with exactly
    one tenant, named Default, with slug default and no instances: the
    very document it returns when the file is absent. The fresh document
    is written over the canonical path at once. When the file could be
    read and [JSON.parse] rejected its content, that content survives in
    the timestamped backup that [save] takes of the previous file, and
    only there. When the file could not be read, the copy that [save]
    attempts fails as well and the failure is swallowed: the file is
    replaced and nothing of it is kept, no other path is written. *)
Theorem load_replaces_unparsable_registry (w : World) (f : File) :
  files w !! STORE_PATH E = Some f ->
  holds_document f = false ->
  let fresh :=
    {| version := Some 2%Z;
       tenants :=
         Some [(randomUUID E (draws w),
                {| t_id := randomUUID E (draws w);
                   t_name := "Default";
                   t_slug := "default";
                   t_createdAt := toISOString E (clock w);
                   t_notes := EmptyString;
                   t_tailscale := None;
                   t_instances := Some [] |})];
       instances := None |} in
  let backup := timestamped_backup_path E (toISOString E (clock w)) in
  exists w',
    load E w = (Ret fresh, w')
    /\ files w' !! STORE_PATH E = Some (Json fresh)
    /\ (if readable f
        then files w' !! backup = Some f
             /\ fsops w'
                = fsops w ++ [ FsCopy (STORE_PATH E) backup;
                               FsWrite (tmp_path E);
                               FsRename (tmp_path E) (STORE_PATH E) ]
        else fsops w'
             = fsops w ++ [ FsWrite (tmp_path E);
                            FsRename (tmp_path E) (STORE_PATH E) ]
             /\ forall p,
                  p <> STORE_PATH E -> p <> tmp_path E ->
                  files w' !! p = files w !! p)
    /\ fst (load E (with_files (delete (STORE_PATH E) (files w)) [] w)) = Ret fresh.
Proof.
  intros Hf Hdoc fresh backup.
  assert (Habsent :
            fst (load E (with_files (delete (STORE_PATH E) (files w)) [] w))
            = Ret fresh).
  { unfold load, try_catch, bind, fs_readFileSync.
    cbn [files with_files]. rewrite lookup_delete_eq.
    rewrite emptyStore_run.
    rewrite save_first by (cbn [files with_files with_draws]; apply lookup_delete_eq).
    reflexivity. }
  destruct f as [raw | d |]; [ | discriminate Hdoc | ].
  - eexists. split; [ | split; [ | split; [ split | exact Habsent ] ] ].
    + unfold load, try_catch, bind, fs_readFileSync. rewrite Hf.
      cbn [JSON_parse throw]. rewrite emptyStore_run.
      rewrite (save_over_existing _ (with_draws (S (draws w)) w) (Garbage raw) Hf eq_refl).
      reflexivity.
    + cbn [files with_console]. apply lookup_insert_eq.
    + cbn [files with_console clock with_draws].
      rewrite lookup_insert_ne by apply store_ne_timestamped.
      rewrite lookup_delete_ne by apply tmp_ne_timestamped.
      rewrite lookup_insert_ne by apply tmp_ne_timestamped.
      apply lookup_insert_eq.
    + reflexivity.
  - eexists. split; [ | split; [ | split; [ split | exact Habsent ] ] ].
    + unfold load, try_catch, bind, fs_readFileSync. rewrite Hf.
      rewrite emptyStore_run.
      rewrite (save_over_unreadable _ (with_draws (S (draws w)) w) Hf).
      reflexivity.
    + cbn [files with_console]. apply lookup_insert_eq.
    + reflexivity.
    + intros p Hstore Htmp. cbn [files with_console with_draws].
      rewrite lookup_insert_ne by (apply not_eq_sym; exact Hstore).
      rewrite lookup_delete_ne by (apply not_eq_sym; exact Htmp).
      rewrite lookup_insert_ne by (apply not_eq_sym; exact Htmp).
      reflexivity.
Qed.

Lemma below_2_needs_migration (doc : Doc) :
  (forall v, version doc = Some v -> (v < 2)%Z) ->
  needs_migration doc = true /\ version_ge_2 doc = false.
Proof.
  unfold needs_migration, version_ge_2. intros Hv.
  destruct (version doc) as [v |]; [ | split; reflexivity ].
  specialize (Hv v eq_refl). split.
  - apply orb_true_iff. right. apply Z.ltb_lt. exact Hv.
  - apply Z.leb_gt. exact Hv.
Qed.

(** C5. Loading a document whose version is below 2 (or missing) and
    that holds a flat [instances] map gives a version-2 document with
    exactly one tenant, named Default with slug default, that owns the
    original instance map verbatim. The original file is first copied to
    the fixed name [fleet.bak-premigrate.json]; only then does [save]
    write the migrated document over the canonical path. The migrated
    document is on disk when [load] returns, and loading again returns
    the same document and changes nothing. *)
Theorem load_migrates_flat_registry (w : World) (doc : Doc) (flat : Obj Instance) :
  files w !! STORE_PATH E = Some (Json doc) ->
  (forall v, version doc = Some v -> (v < 2)%Z) ->
  instances doc = Some flat ->
  let migrated :=
    {| version := Some 2%Z;
       tenants :=
         Some [(randomUUID E (draws w),
                {| t_id := randomUUID E (draws w);
                   t_name := "Default";
                   t_slug := "default";
                   t_createdAt := toISOString E (clock w);
                   t_notes := "Auto-created during migration from v1. Contains pre-existing instances.";
                   t_tailscale := None;
                   t_instances := Some flat |})];
       instances := None |} in
  exists w1,
    load E w = (Ret migrated, w1)
    /\ files w1 !! STORE_PATH E = Some (Json migrated)
    /\ files w1 !! premigrate_backup_path E = Some (Json doc)
    /\ premigrate_backup_path E = path_join (DATA_DIR E) "fleet.bak-premigrate.json"
    /\ fsops w1
       = fsops w
           ++ [ FsCopy (STORE_PATH E) (premigrate_backup_path E);
                FsCopy (STORE_PATH E)
                  (timestamped_backup_path E (toISOString E (clock w)));
                FsWrite (tmp_path E);
                FsRename (tmp_path E) (STORE_PATH E) ]
    /\ load E w1 = (Ret migrated, w1).
Proof.
  intros Hf Hv Hflat migrated.
  destruct (below_2_needs_migration doc Hv) as [Hneeds Hge].
  assert (Hf1 : <[premigrate_backup_path E := Json doc]> (files w) !! STORE_PATH E
                = Some (Json doc)).
  { rewrite lookup_insert_ne by (apply not_eq_sym, store_ne_premigrate). exact Hf. }
  eexists. split; [ | split; [ | split; [ | split; [ | split ] ] ] ].
  - unfold load, try_catch at 1, bind at 1, fs_readFileSync. rewrite Hf.
    unfold bind at 1. cbn [JSON_parse ret]. rewrite Hneeds.
    unfold bind at 1, try_catch, bind at 1, fs_copyFileSync. rewrite Hf.
    unfold console_log, modify. cbn beta iota.
    unfold bind at 1, migrateV1toV2. rewrite Hge.
    unfold bind at 1, console_log, modify. cbn beta iota.
    unfold bind at 1, crypto_randomUUID. cbn beta iota.
    unfold bind at 1, isoNow, ret. cbn beta iota.
    unfold bind at 1.
    erewrite save_over_existing;
      [ | cbn [files with_files with_console with_draws]; exact Hf1 | reflexivity ].
    unfold bind, console_log, modify, ret. cbn beta iota.
    rewrite Hflat. reflexivity.
  - cbn [files with_console]. apply lookup_insert_eq.
  - cbn [files clock draws with_console with_files with_draws].
    rewrite lookup_insert_ne by apply store_ne_premigrate.
    rewrite lookup_delete_ne by apply tmp_ne_premigrate.
    rewrite lookup_insert_ne by apply tmp_ne_premigrate.
    destruct (decide (timestamped_backup_path E (toISOString E (clock w))
                      = premigrate_backup_path E)) as [Heq | Hne].
    + rewrite Heq. apply lookup_insert_eq.
    + rewrite lookup_insert_ne by exact Hne. apply lookup_insert_eq.
  - reflexivity.
  - cbn [fsops with_console with_files with_draws]. rewrite <- !app_assoc. reflexivity.
  - apply load_current; [ cbn [files with_console]; apply lookup_insert_eq | reflexivity ].
Qed.

End StoreFacts.

Lemma load_replaces_unparsable_registry_witness :
  exists w',
    Store.load Scenario.env Scenario.corrupt_world
    = (Model.Ret
         {| Model.version := Some 2%Z;
            Model.tenants :=
              Some [("uuid-0",
                     {| Model.t_id := "uuid-0";
                        Model.t_name := "Default";
                        Model.t_slug := "default";
                        Model.t_createdAt := "2026-03-01T12:00:00.000Z";
                        Model.t_notes := EmptyString;
                        Model.t_tailscale := None;
                        Model.t_instances := Some [] |})];
            Model.instances := None |}, w')
    /\ Model.files w' !! "/data/fleet.bak-2026-03-01T12-00-00-000Z.json"
       = Some (Model.Garbage "{ version: 2, tenants").
Proof.
  destruct (load_replaces_unparsable_registry Scenario.env Scenario.corrupt_world
              (Model.Garbage "{ version: 2, tenants")
              ltac:(vm_compute; reflexivity) eq_refl)
    as (w' & Hload & _ & [Hbackup _] & _).
  exists w'. split; [ exact Hload | exact Hbackup ].
Defined.

(** C9 (counterexample to the claim as stated). When the registry is a
    file that cannot be read, [load] replaces it by the fresh document
    and keeps nothing of it: afterwards the registry is the only file,
    and the timestamped backup path holds nothing. *)
Lemma load_replaces_unparsable_registry_counterexample :
  exists fresh w',
    Store.load Scenario.env Scenario.unreadable_world = (Model.Ret fresh, w')
    /\ Model.files w' !! "/data/fleet.json" = Some (Model.Json fresh)
    /\ Model.files w' !! "/data/fleet.bak-2026-03-01T12-00-00-000Z.json" = None
    /\ map fst (map_to_list (Model.files w')) = ["/data/fleet.json"].
Proof.
  eexists. eexists. split; [ vm_compute; reflexivity | ].
  split; [ vm_compute; reflexivity | ].
  split; vm_compute; reflexivity.
Qed.

Lemma load_migrates_flat_registry_witness :
  exists w1,
    Store.load Scenario.env Scenario.legacy_world
    = (Model.Ret
         {| Model.version := Some 2%Z;
            Model.tenants :=
              Some [("uuid-0",
                     {| Model.t_id := "uuid-0";
                        Model.t_name := "Default";
                        Model.t_slug := "default";
                        Model.t_createdAt := "2026-03-01T12:00:00.000Z";
                        Model.t_notes := "Auto-created during migration from v1. Contains pre-existing instances.";
                        Model.t_tailscale := None;
                        Model.t_instances :=
                          Some [("inst-a", Scenario.alpha); ("inst-b", Scenario.beta)] |})];
            Model.instances := None |}, w1)
    /\ Model.files w1 !! "/data/fleet.bak-premigrate.json"
       = Some (Model.Json Scenario.legacy).
Proof.
  destruct (load_migrates_flat_registry Scenario.env Scenario.legacy_world
              Scenario.legacy [("inst-a", Scenario.alpha); ("inst-b", Scenario.beta)]
              ltac:(vm_compute; reflexivity)
              ltac:(intros v [= <-]; reflexivity)
              eq_refl)
    as (w1 & Hload & _ & Hbackup & _).
  exists w1. split; [ exact Hload | exact Hbackup ].
Defined.

(** ** Tenant slugs *)

Section TenantSlugFacts.
Import Model.

(** C2 (evaluation at the failing input). The registry holds the tenants
    Default (slug default) and Acme (slug acme), so its slugs are unique.
    PATCH /api/tenants/t-acme with the name Default is accepted: the
    handler recomputes the slug and [updateTenant] stores it without
    looking at the other tenants. Afterwards two tenants hold the slug
    default. *)
Theorem patchTenant_duplicates_slug :
  let r :=
    Server.patchTenant Scenario.env "t-acme"
      (Server.mkTenantBody (Some "Default") None) Scenario.world in
  NoDup (Observe.slugs Scenario.registry)
  /\ fst r = Ret (Server.json
                   (Server.BTenantUpdated "t-acme" "Default" "default" EmptyString))
  /\ Observe.slugs <$> Observe.stored Scenario.env (snd r)
     = Some ["default"; "default"]
  /\ ~ NoDup ["default"; "default"].
Proof.
  split; [ | split; [ | split ] ].
  - change (NoDup ["default"; "acme"]).
    apply NoDup_cons. split; [ | apply NoDup_singleton ].
    intros H. apply list_elem_of_singleton in H. discriminate H.
  - vm_compute. reflexivity.
  - vm_compute. reflexivity.
  - intros H. apply NoDup_cons in H as [Hin _]. apply Hin.
    apply list_elem_of_singleton. reflexivity.
Qed.

Variable E : Env.

Lemma obj_set_values_elem {V} (o : Obj V) (k : string) (v x : V) :
  x ∈ obj_values (obj_set o k v) -> x ∈ obj_values o \/ x = v.
Proof.
  induction o as [| [k' v'] r IH]; cbn [obj_set].
  - intros H. apply list_elem_of_singleton in H. right. exact H.
  - destruct (String.eqb k' k); unfold obj_values; cbn [map snd];
      intros H; apply elem_of_cons in H as [-> | H].
    + right. reflexivity.
    + left. apply elem_of_cons. right. exact H.
    + left. apply elem_of_cons. left. reflexivity.
    + destruct (IH H) as [Hin | ->]; [ left | right; reflexivity ].
      apply elem_of_cons. right. exact Hin.
Qed.

(** Storing a tenant whose slug no stored tenant holds keeps the slugs
    pairwise distinct, whether the id is new or replaces an entry. *)
Lemma obj_set_keeps_slugs_unique (ts : Obj Tenant) (k : string) (t : Tenant) :
  NoDup (map t_slug (obj_values ts)) ->
  t_slug t ∉ map t_slug (obj_values ts) ->
  NoDup (map t_slug (obj_values (obj_set ts k t))).
Proof.
  induction ts as [| [k' v'] r IH]; cbn [obj_set]; intros Hnd Hnew.
  - apply NoDup_singleton.
  - unfold obj_values in *. cbn [map snd] in Hnd, Hnew.
    apply NoDup_cons in Hnd as [Hv' Hr].
    apply not_elem_of_cons in Hnew as [Hne Hnew].
    destruct (String.eqb k' k); cbn [map snd].
    + apply NoDup_cons. split; assumption.
    + apply NoDup_cons. split; [ | apply IH; assumption ].
      intros Hin. apply list_elem_of_fmap in Hin as (x & Hx & Hin).
      apply obj_set_values_elem in Hin as [Hin | ->].
      * apply Hv'. rewrite Hx. apply list_elem_of_fmap. exists x. split;
          [ reflexivity | exact Hin ].
      * apply Hne. symmetry. exact Hx.
Qed.

Lemma find_slug_None (slug : string) (ts : list Tenant) :
  List.find (fun t => String.eqb (Store.ts_slug t) slug) (map Store.summarize ts)
  = None ->
  slug ∉ map t_slug ts.
Proof.
  induction ts as [| t r IH]; cbn [map List.find]; intros H.
  - apply not_elem_of_nil.
  - cbn [Store.summarize Store.ts_slug] in H.
    destruct (String.eqb (t_slug t) slug) eqn:Heq; [ discriminate H | ].
    apply not_elem_of_cons. split; [ | apply IH; exact H ].
    intros ->. rewrite String.eqb_refl in Heq. discriminate Heq.
Qed.

(** The create handler, the sibling of the rename: on a registry with
    pairwise distinct slugs it leaves a registry with pairwise distinct
    slugs, whatever the request. *)
Lemma createTenant_keeps_slugs_unique
    (w : World) (doc : Doc) (ts : Obj Tenant) (req : Server.TenantBody) :
  files w !! Store.STORE_PATH E = Some (Json doc) ->
  Store.needs_migration doc = false ->
  tenants doc = Some ts ->
  NoDup (Observe.slugs doc) ->
  exists resp w' doc',
    Server.createTenant E req w = (Ret resp, w')
    /\ Observe.stored E w' = Some doc'
    /\ NoDup (Observe.slugs doc').
Proof.
  intros Hf Hv Hts Hnd.
  assert (Hsame : Observe.stored E w = Some doc)
    by (unfold Observe.stored; rewrite Hf; reflexivity).
  unfold Server.createTenant, Server.guarded.
  destruct (Server.tb_name req) as [name |];
    [ | eexists; eexists; exists doc; split; [ reflexivity | split; assumption ] ].
  destruct (Server.is_empty name || (length (Js.trim (Js.chars name)) =? 0)%nat);
    [ eexists; eexists; exists doc; split; [ reflexivity | split; assumption ] | ].
  destruct (Server.is_empty (Server.cleanName name));
    [ eexists; eexists; exists doc; split; [ reflexivity | split; assumption ] | ].
  assert (Hall : Store.getAllTenants E w
                 = (Ret (map Store.summarize (obj_values ts)), w)).
  { unfold Store.getAllTenants.
    rewrite (bind_Ret _ _ _ _ _ (load_current E w doc Hf Hv)).
    rewrite Hts. reflexivity. }
  destruct (List.find
              (fun t => String.eqb (Store.ts_slug t)
                          (Store.slugify (Server.cleanName name)))
              (map Store.summarize (obj_values ts))) as [existing |] eqn:Hfind.
  - eexists. eexists. exists doc.
    split; [ apply try_catch_Ret; rewrite (bind_Ret _ _ _ _ _ Hall), Hfind;
             reflexivity
           | split; assumption ].
  - apply find_slug_None in Hfind.
    eexists. eexists. eexists. split; [ | split ].
    + apply try_catch_Ret. rewrite (bind_Ret _ _ _ _ _ Hall).
      match goal with
      | |- context [List.find ?f ?l] =>
          replace (List.find f l) with (@None Store.TenantSummary)
      end.
      2:{ symmetry.
          destruct (List.find _ _) as [x |] eqn:Hx; [ | reflexivity ].
          exfalso. apply List.find_some in Hx as [Hin Heq].
          apply Hfind. apply List.in_map_iff in Hin as (t & <- & Hin).
          cbn [Store.summarize Store.ts_slug] in Heq.
          apply String.eqb_eq in Heq. rewrite <- Heq.
          apply list_elem_of_fmap. exists t. split; [ reflexivity | ].
          apply list_elem_of_In. exact Hin. }
      erewrite bind_Ret by reflexivity.
      erewrite bind_Ret by reflexivity.
      erewrite bind_Ret; cycle 1.
      { unfold Store.addTenant.
        erewrite bind_Ret by (apply load_current; [ exact Hf | exact Hv ]).
        unfold Store.tenants_of. rewrite Hts.
        erewrite bind_Ret by reflexivity.
        erewrite bind_Ret by (eapply save_over_existing; [ exact Hf | reflexivity ]).
        reflexivity. }
      erewrite bind_Ret by reflexivity. reflexivity.
    + unfold Observe.stored. cbn [files with_console].
      rewrite lookup_insert_eq. reflexivity.
    + unfold Observe.slugs. cbn [tenants Store.set_tenants default].
      apply obj_set_keeps_slugs_unique.
      * unfold Observe.slugs in Hnd. rewrite Hts in Hnd. exact Hnd.
      * exact Hfind.
Qed.

End TenantSlugFacts.

(** ** Restart and redeploy *)

Section RestartRedeployFacts.
Import Model Runtime.
Variable E : Env.

(** C10. The restart and the redeploy endpoints are the same function of
    the request and the world: same response, same effects. Both look the
    instance up, send the redeploy mutation with the instance's service id
    and environment id, and, when the mutation returns, evict the
    instance's status-cache entry and answer that the redeployment was
    triggered; when the mutation throws both answer 500 and leave the
    cache as it is. *)
Theorem restart_redeploy_equivalent (tid id : string) (w : World) :
  Server.restartInstance E tid id w = Server.redeployInstance E tid id w
  /\ match Store.getInstance E tid id w with
     | (Ret (Some inst), w1) =>
         let c := SERVICE_INSTANCE_REDEPLOY (serviceId (i_railway inst))
                                            (environmentId (i_railway inst)) in
         let r := railwayGql E (gqlCalls w1) c in
         let w2 := with_clock (clock w1 + Z.of_N (elapsed r))
                              (with_gqlCalls (gqlCalls w1 ++ [c]) w1) in
         match settled r with
         | Ret _ =>
             Server.restartInstance E tid id w
             = (Ret (Server.json (Server.BMessage "Redeployment triggered.")),
                with_statusCache (delete (i_id inst) (statusCache w2)) w2)
         | Throw e =>
             Server.restartInstance E tid id w
             = (Ret (Server.status_json 500 (Server.BError (String_ e))), w2)
         end
     | (Ret None, w1) =>
         Server.restartInstance E tid id w
         = (Ret (Server.status_json 404 (Server.BError "Not found")), w1)
     | (Throw e, w1) =>
         Server.restartInstance E tid id w
         = (Ret (Server.status_json 500 (Server.BError (String_ e))), w1)
     end.
Proof.
  split; [ reflexivity | ].
  destruct (Store.getInstance E tid id w) as [[[inst |] | e] w1] eqn:Hget.
  - cbv zeta.
    destruct (settled (railwayGql E (gqlCalls w1) _)) as [d | e] eqn:Hgql;
      unfold Server.restartInstance, Server.guarded.
    + apply try_catch_Ret. rewrite (bind_Ret _ _ _ _ _ Hget).
      unfold bind, gql, await. rewrite Hgql. reflexivity.
    + erewrite try_catch_Throw; [ reflexivity | ].
      rewrite (bind_Ret _ _ _ _ _ Hget).
      unfold bind, gql, await. rewrite Hgql. reflexivity.
  - unfold Server.restartInstance, Server.guarded. apply try_catch_Ret.
    rewrite (bind_Ret _ _ _ _ _ Hget). reflexivity.
  - unfold Server.restartInstance, Server.guarded.
    erewrite try_catch_Throw; [ reflexivity | ].
    apply bind_Throw. exact Hget.
Qed.

End RestartRedeployFacts.

(** ** Deleting a tenant *)

Section DeleteTenantFacts.
Import Model Runtime.
Variable E : Env.


Lemma obj_get_delete {V} (o : Obj V) (k : string) : obj_get (obj_delete o k) k = None.
Proof.
  induction o as [| [k' v] r IH]; [ reflexivity | ].
  cbn [obj_delete]. destruct (String.eqb k' k) eqn:Hk; [ exact IH | ].
  cbn [obj_get]. rewrite Hk. exact IH.
Qed.

Lemma getTenant_current (w : World) (doc : Doc) (ts : Obj Tenant) (tid : string) :
  files w !! Store.STORE_PATH E = Some (Json doc) ->
  Store.needs_migration doc = false ->
  tenants doc = Some ts ->
  Store.getTenant E tid w = (Ret (obj_get ts tid), w).
Proof.
  intros Hf Hv Hts. unfold Store.getTenant.
  rewrite (bind_Ret _ _ _ _ _ (load_current E w doc Hf Hv)).
  unfold Store.tenants_of. rewrite Hts. reflexivity.
Qed.




End DeleteTenantFacts.


(** ** Creating an instance: failure of the variable upsert *)

Section CreateInstanceFacts.
Import Model Runtime.
Variable E : Env.

Lemma gql_Ret (c : Call) (w : World) (d : Data) :
  settled (railwayGql E (gqlCalls w) c) = Ret d ->
  gql E c w
  = (Ret d,
     with_clock (clock w + Z.of_N (elapsed (railwayGql E (gqlCalls w) c)))
                (with_gqlCalls (gqlCalls w ++ [c]) w)).
Proof. intros H. unfold gql, await. rewrite H. reflexivity. Qed.

Lemma gql_Throw (c : Call) (w : World) (e : Exn) :
  settled (railwayGql E (gqlCalls w) c) = Throw e ->
  gql E c w
  = (Throw e,
     with_clock (clock w + Z.of_N (elapsed (railwayGql E (gqlCalls w) c)))
                (with_gqlCalls (gqlCalls w ++ [c]) w)).
Proof. intros H. unfold gql, await. rewrite H. reflexivity. Qed.

Ltac norm_world :=
  cbn [files fsops clock draws statusCache console gqlCalls probes stepLog
       with_files with_clock with_draws with_statusCache with_console
       with_gqlCalls with_probes with_stepLog].

Ltac norm_world_in H :=
  cbn [files fsops clock draws statusCache console gqlCalls probes stepLog
       with_files with_clock with_draws with_statusCache with_console
       with_gqlCalls with_probes with_stepLog] in H.

Ltac run_step := erewrite bind_Ret by reflexivity; norm_world.

(** The provisioning steps when the upsert throws: the workflow stops
    there, with the lines logged so far and no file touched. *)
Lemma provision_upsert_failure
    (w : World) (tid : string) (tenant : Tenant) (cn : string)
    (notes : option string) (pw tok iid : string)
    (pid pname : string) (env0 : EnvNode) (envs : list EnvNode)
    (sid sname vid : string) (e : Exn) :
  let c1 := PROJECT_CREATE (Server.projectLabel tenant cn) in
  let c2 := SERVICE_CREATE pid (Server.serviceSlug cn) (GITHUB_REPO E) in
  let c3 := VOLUME_CREATE pid sid (env_id env0) "/data" in
  let h := gqlCalls w in
  settled (railwayGql E h c1) = Ret (DProjectCreate pid pname (env0 :: envs)) ->
  settled (railwayGql E (h ++ [c1]) c2) = Ret (DServiceCreate sid sname) ->
  settled (railwayGql E (h ++ [c1; c2]) c3) = Ret (DVolumeCreate vid) ->
  (forall vars,
      settled (railwayGql E (h ++ [c1; c2; c3])
                 (VARIABLE_COLLECTION_UPSERT pid (env_id env0) sid vars false))
      = Throw e) ->
  let lines :=
    Observe.lines_of_steps_1_to_3 E tenant cn pid env0 sid vid
      ++ [Observe.upsert_opening_line] in
  exists w',
    Server.provision E tid tenant cn notes pw tok iid w = (Throw e, w')
    /\ stepLog w' = stepLog w ++ lines
    /\ console w' = console w ++ map (Observe.console_line tenant cn) lines
    /\ files w' = files w
    /\ fsops w' = fsops w.
Proof.
  intros c1 c2 c3 h H1 H2 H3 H4 lines.
  assert (H3' : settled (railwayGql E ((h ++ [c1]) ++ [c2]) c3)
                = Ret (DVolumeCreate vid))
    by (rewrite <- app_assoc; exact H3).
  assert (H4' : forall vars,
             settled (railwayGql E (((h ++ [c1]) ++ [c2]) ++ [c3])
                        (VARIABLE_COLLECTION_UPSERT pid (env_id env0) sid vars false))
             = Throw e)
    by (intros vars; rewrite <- !app_assoc; apply H4).
  eexists. split.
  - unfold Server.provision.
    run_step.
    erewrite bind_Ret by (apply gql_Ret; norm_world; exact H1). norm_world.
    run_step. cbn [fst snd].
    run_step. run_step. run_step. run_step.
    erewrite bind_Ret by (apply gql_Ret; norm_world; exact H2). norm_world.
    run_step. run_step. run_step.
    erewrite bind_Ret by (apply gql_Ret; norm_world; exact H3'). norm_world.
    run_step. run_step. run_step.
    apply bind_Throw. apply gql_Throw. norm_world. apply H4'.
  - norm_world. rewrite <- !app_assoc. repeat split; reflexivity.
Qed.

(** C3 (as amended). When the project, the service and the volume have
    been created and the variable upsert throws, the create handler
    answers 500 with the text of the error and nothing else: the response
    carries no step log. The log collected up to the failure holds the
    lines of steps 1 to 3 followed by the opening line of step 4, and is
    visible on the console only. No file is touched: no instance is added
    to the registry. *)
Theorem createInstance_upsert_failure
    (w : World) (doc : Doc) (ts : Obj Tenant) (tid : string) (tenant : Tenant)
    (name : string) (password notes : option string)
    (pid pname : string) (env0 : EnvNode) (envs : list EnvNode)
    (sid sname vid : string) (e : Exn) :
  files w !! Store.STORE_PATH E = Some (Json doc) ->
  Store.needs_migration doc = false ->
  tenants doc = Some ts ->
  obj_get ts tid = Some tenant ->
  Server.is_empty name = false ->
  length (Js.trim (Js.chars name)) <> 0%nat ->
  Server.is_empty (Server.cleanName name) = false ->
  let cn := Server.cleanName name in
  let c1 := PROJECT_CREATE (Server.projectLabel tenant cn) in
  let c2 := SERVICE_CREATE pid (Server.serviceSlug cn) (GITHUB_REPO E) in
  let c3 := VOLUME_CREATE pid sid (env_id env0) "/data" in
  let h := gqlCalls w in
  settled (railwayGql E h c1) = Ret (DProjectCreate pid pname (env0 :: envs)) ->
  settled (railwayGql E (h ++ [c1]) c2) = Ret (DServiceCreate sid sname) ->
  settled (railwayGql E (h ++ [c1; c2]) c3) = Ret (DVolumeCreate vid) ->
  (forall vars,
      settled (railwayGql E (h ++ [c1; c2; c3])
                 (VARIABLE_COLLECTION_UPSERT pid (env_id env0) sid vars false))
      = Throw e) ->
  let lines :=
    Observe.lines_of_steps_1_to_3 E tenant cn pid env0 sid vid
      ++ [Observe.upsert_opening_line] in
  exists resp w',
    Server.createInstance E tid (Server.mkInstanceBody (Some name) password notes) w
    = (Ret resp, w')
    /\ resp = Server.status_json 500 (Server.BError (String_ e))
    /\ Observe.response_log resp = None
    /\ stepLog w' = lines
    /\ console w'
       = console w ++ map (Observe.console_line tenant cn) lines
           ++ [("[fleet] create error: " ++ String_ e)%string]
    /\ files w' = files w
    /\ fsops w' = fsops w.
Proof.
  intros Hf Hv Hts Hget Hname Htrim Hclean cn c1 c2 c3 h H1 H2 H3 H4 lines.
  apply Nat.eqb_neq in Htrim.
  assert (Hbody : forall pw w0,
             gqlCalls w0 = h -> console w0 = console w ->
             files w0 = files w -> fsops w0 = fsops w ->
             exists w',
               (bind (crypto_randomBytes_hex E 32) (fun gatewayToken =>
                bind (crypto_randomUUID E) (fun instanceId =>
                bind (modify (with_stepLog [])) (fun _ =>
                Server.provision E tid tenant cn notes pw gatewayToken instanceId))))
                 w0
               = (Throw e, w')
               /\ stepLog w' = lines
               /\ console w' = console w ++ map (Observe.console_line tenant cn) lines
               /\ files w' = files w /\ fsops w' = fsops w).
  { intros pw w0 Hh Hcon Hfiles Hops.
    run_step. run_step. run_step.
    match goal with
    | |- context [Server.provision E tid tenant cn notes pw ?tok ?iid ?w1] =>
        destruct (provision_upsert_failure w1 tid tenant cn notes pw tok iid
                    pid pname env0 envs sid sname vid e)
          as (w' & Hrun & Hlog & Hcons & Hfiles' & Hops');
        norm_world; rewrite ?Hh; try assumption
    end.
    exists w'. norm_world_in Hlog. norm_world_in Hcons.
    norm_world_in Hfiles'. norm_world_in Hops'.
    rewrite Hrun, Hlog, Hcons, Hfiles', Hops', Hcon, Hfiles, Hops.
    repeat split; reflexivity. }
  assert (Hmain : exists w1,
             (bind (match Server.truthy password with
                    | Some p => ret p
                    | None => crypto_randomBytes_hex E 16
                    end)
                (fun finalSetupPassword =>
                bind (crypto_randomBytes_hex E 32) (fun gatewayToken =>
                bind (crypto_randomUUID E) (fun instanceId =>
                bind (modify (with_stepLog [])) (fun _ =>
                Server.provision E tid tenant cn notes finalSetupPassword
                                 gatewayToken instanceId))))) w
             = (Throw e, w1)
             /\ stepLog w1 = lines
             /\ console w1 = console w ++ map (Observe.console_line tenant cn) lines
             /\ files w1 = files w /\ fsops w1 = fsops w).
  { destruct (Server.truthy password) as [p |].
    - erewrite bind_Ret by reflexivity. apply Hbody; reflexivity.
    - erewrite bind_Ret by reflexivity. apply Hbody; reflexivity. }
  destruct Hmain as (w1 & Hrun & Hlog & Hcons & Hfiles & Hops).
  eexists. eexists.
  split; [ | split; [ reflexivity | split; [ reflexivity | ] ] ].
  - unfold Server.createInstance.
    erewrite try_catch_Throw; cycle 1.
    { rewrite (bind_Ret _ _ _ _ _ (getTenant_current E w doc ts tid Hf Hv Hts)).
      rewrite Hget. cbn [Server.ib_name Server.ib_setupPassword Server.ib_notes].
      rewrite Hname, Htrim. cbn [orb]. rewrite Hclean.
      exact Hrun. }
    erewrite bind_Ret by reflexivity. reflexivity.
  - norm_world. rewrite Hlog, Hcons, Hfiles, Hops, <- app_assoc.
    repeat split; reflexivity.
Qed.


End CreateInstanceFacts.

Lemma createInstance_upsert_failure_witness :
  exists w',
    Server.createInstance Scenario.env "t-acme"
      (Server.mkInstanceBody (Some "Prod 1") None None) Scenario.world
    = (Model.Ret
         (Server.status_json 500
            (Server.BError "Error: Railway API HTTP 500: upstream unavailable")),
       w')
    /\ Model.files w' = Model.files Scenario.world
    /\ last (Model.stepLog w') = Some "Setting environment variables...".
Proof.
  destruct (createInstance_upsert_failure Scenario.env Scenario.world
              Scenario.registry
              [("t-default", Scenario.default_tenant); ("t-acme", Scenario.acme)]
              "t-acme" Scenario.acme "Prod 1" None None
              "proj-new" "CortexAI - acme - Prod 1"
              (Model.mkEnvNode "env-new" "production") []
              "svc-new" "cortexai-prod-1" "vol-new"
              (Model.JsError "Railway API HTTP 500: upstream unavailable")
              ltac:(vm_compute; reflexivity) eq_refl eq_refl eq_refl eq_refl
              ltac:(vm_compute; intros H; discriminate H) eq_refl
              eq_refl eq_refl eq_refl ltac:(intros vars; reflexivity))
    as (resp & w' & Hrun & Hresp & _ & Hlog & _ & Hfiles & _).
  exists w'. subst resp. split; [ exact Hrun | ].
  split; [ exact Hfiles | ]. rewrite Hlog. reflexivity.
Defined.

(** C3 (counterexample to the claim as stated). On the control plane of
    [Scenario], where the variable upsert fails, creating the instance
    "Prod 1" in tenant Acme answers 500 with a body that has no [log]
    property; and the step log collected when the upsert failed already
    ends with the opening line of step 4, so it is not exactly the lines
    of steps 1 to 3. *)
Lemma createInstance_upsert_failure_counterexample :
  let r :=
    Server.createInstance Scenario.env "t-acme"
      (Server.mkInstanceBody (Some "Prod 1") None None) Scenario.world in
  let steps_1_to_3 :=
    Observe.lines_of_steps_1_to_3 Scenario.env Scenario.acme "Prod 1"
      "proj-new" (Model.mkEnvNode "env-new" "production") "svc-new" "vol-new" in
  (exists resp,
      fst r = Model.Ret resp /\ Server.code resp = 500%nat
      /\ Observe.response_log resp = None)
  /\ Model.stepLog (snd r) = steps_1_to_3 ++ ["Setting environment variables..."]
  /\ Model.stepLog (snd r) <> steps_1_to_3.
Proof.
  cbv zeta. split; [ | split ].
  - eexists. split; [ vm_compute; reflexivity | split; reflexivity ].
  - vm_compute. reflexivity.
  - vm_compute. intros H. discriminate H.
Qed.

(** ** Status resolution *)

Section StatusFacts.
Import Model Runtime.
Variable E : Env.

Ltac norm_world :=
  cbn [files fsops clock draws statusCache console gqlCalls probes stepLog
       with_files with_clock with_draws with_statusCache with_console
       with_gqlCalls with_probes with_stepLog].

(** The if-chain of [getInstanceStatus] computes what the decision table
    gives, read top to bottom with the first matching row winning. *)
Lemma compositeStatus_follows_table (d : option Deployment) (h : option Health) :
  StatusTable.lookup d h = Some (Server.compositeStatus d h).
Proof.
  unfold StatusTable.lookup, StatusTable.rows, Server.compositeStatus.
  destruct d as [d |]; [ | reflexivity ].
  cbn [StatusTable.first_match StatusTable.applies StatusTable.label
       StatusTable.none_found StatusTable.state_is].
  destruct (String.eqb (deployment_status d) "BUILDING"); [ reflexivity | ].
  destruct (String.eqb (deployment_status d) "DEPLOYING"); [ reflexivity | ].
  destruct (String.eqb (deployment_status d) "FAILED"); [ reflexivity | ].
  destruct (String.eqb (deployment_status d) "CRASHED"); [ reflexivity | ].
  cbn [orb].
  destruct (String.eqb (deployment_status d) "SUCCESS").
  - destruct h as [[[|] [[|] |]] |]; reflexivity.
  - cbn [andb]. destruct (String.eqb (deployment_status d) "REMOVED"); reflexivity.
Qed.

Lemma network_only_refl (w : World) : Observe.network_only w w.
Proof. unfold Observe.network_only. repeat split; reflexivity || lia. Qed.

(** The two control-plane queries: they touch nothing but the call list
    and the clock, and the deployment query always comes first. *)
Lemma queryControlPlane_run (inst : Instance) (w : World) :
  exists o w1,
    Server.queryControlPlane E inst w = (o, w1)
    /\ Observe.network_only w w1
    /\ probes w1 = probes w
    /\ exists rest,
         gqlCalls w1 = gqlCalls w ++ Observe.deployments_query inst :: rest.
Proof.
  unfold Server.queryControlPlane.
  change (DEPLOYMENTS_QUERY (serviceId (i_railway inst))
                            (environmentId (i_railway inst)))
    with (Observe.deployments_query inst).
  destruct (settled (railwayGql E (gqlCalls w) (Observe.deployments_query inst)))
    as [d1 | e1] eqn:H1.
  - erewrite bind_Ret by (apply gql_Ret; exact H1).
    match goal with
    | |- context [bind (gql E (PROJECT_QUERY ?p)) _ ?w1] =>
        destruct (settled (railwayGql E (gqlCalls w1) (PROJECT_QUERY p)))
          as [d2 | e2] eqn:H2
    end.
    + erewrite bind_Ret by (apply gql_Ret; exact H2).
      eexists. eexists. split; [ reflexivity | ].
      unfold Observe.network_only. norm_world.
      repeat split; try reflexivity; try lia.
      eexists. rewrite <- app_assoc. reflexivity.
    + erewrite bind_Throw by (apply gql_Throw; exact H2).
      eexists. eexists. split; [ reflexivity | ].
      unfold Observe.network_only. norm_world.
      repeat split; try reflexivity; try lia.
      eexists. rewrite <- app_assoc. reflexivity.
  - erewrite bind_Throw by (apply gql_Throw; exact H1).
    eexists. eexists. split; [ reflexivity | ].
    unfold Observe.network_only. norm_world.
    repeat split; try reflexivity; try lia.
    exists []. reflexivity.
Qed.

(** The health probe never throws: it gives the payload of an ok response
    and nothing otherwise, and records the probe. *)
Lemma probeHealth_run (dom : string) (w : World) :
  exists w1,
    Server.probeHealth E dom w
    = (Ret (Observe.health_of (fetchHealthz E (probes w) dom)), w1)
    /\ Observe.network_only w w1
    /\ probes w1 = probes w ++ [dom]
    /\ gqlCalls w1 = gqlCalls w.
Proof.
  unfold Server.probeHealth, Observe.health_of, try_catch, bind, await,
    lift_outcome, ret.
  destruct (settled (fetchHealthz E (probes w) dom)) as [[st | [h | e]] | e];
    (eexists; split; [ reflexivity | ]);
    unfold Observe.network_only; norm_world;
    repeat split; try reflexivity; lia.
Qed.

(** A resolution always produces a snapshot. Its status is the one of the
    if-chain; it probes exactly when a domain is known and the deployment
    status is SUCCESS; and it stores the snapshot under the instance id,
    stamped with the time at which it was stored. *)
Lemma resolveStatus_run (inst : Instance) (w : World) :
  exists s w',
    Server.resolveStatus E inst w = (Ret s, w')
    /\ sd_status s = Server.compositeStatus (sd_deployment s) (sd_health s)
    /\ statusCache w'
       = <[i_id inst := mkCacheEntry s (clock w')]> (statusCache w)
    /\ (clock w <= clock w')%Z
    /\ (exists rest,
          gqlCalls w' = gqlCalls w ++ Observe.deployments_query inst :: rest)
    /\ probes w' = probes w ++ Observe.probed s
    /\ sd_health s
       = match Observe.probed s with
         | dom :: _ => Observe.health_of (fetchHealthz E (probes w) dom)
         | [] => None
         end
    /\ files w' = files w.
Proof.
  destruct (queryControlPlane_run inst w)
    as (o & w1 & Hq & Hframe & Hprobes & rest & Hcalls).
  destruct Hframe as (Hfiles & _ & _ & Hcache & _ & _ & Hclock).
  unfold Server.resolveStatus.
  assert (Hfound : exists dep dom,
             try_catch (Server.queryControlPlane E inst)
               (fun err => ret (Some (DeploymentUnknown (String_ err)), None)) w
             = (Ret (dep, dom), w1)).
  { destruct o as [[dep dom] | err].
    - exists dep, dom. apply try_catch_Ret. exact Hq.
    - eexists. eexists. erewrite try_catch_Throw by exact Hq. reflexivity. }
  destruct Hfound as (dep & dom & Hfound).
  rewrite (bind_Ret _ _ _ _ _ Hfound). cbn [fst snd].
  destruct dom as [dom |]; [ destruct (Server.is_success dep) eqn:Hs | ].
  - destruct (probeHealth_run dom w1)
      as (w2 & Hp & (Hfiles2 & _ & _ & Hcache2 & _ & _ & Hclock2) & Hprobes2 & Hcalls2).
    rewrite (bind_Ret _ _ _ _ _ Hp).
    erewrite bind_Ret by reflexivity. erewrite bind_Ret by reflexivity.
    eexists. eexists. split; [ reflexivity | ].
    unfold Observe.probed. norm_world.
    cbn [sd_deployment sd_domain sd_health sd_status]. rewrite Hs.
    rewrite Hcache2, Hcache, Hprobes2, Hcalls2, Hfiles2, Hprobes.
    repeat split; try reflexivity; try assumption; try lia.
    exists rest. exact Hcalls.
  - erewrite bind_Ret by reflexivity.
    erewrite bind_Ret by reflexivity. erewrite bind_Ret by reflexivity.
    eexists. eexists. split; [ reflexivity | ].
    unfold Observe.probed. norm_world.
    cbn [sd_deployment sd_domain sd_health sd_status]. rewrite Hs.
    rewrite Hcache, Hprobes, app_nil_r.
    repeat split; try reflexivity; try assumption.
    exists rest. exact Hcalls.
  - erewrite bind_Ret by reflexivity.
    erewrite bind_Ret by reflexivity. erewrite bind_Ret by reflexivity.
    eexists. eexists. split; [ reflexivity | ].
    unfold Observe.probed. norm_world.
    cbn [sd_deployment sd_domain sd_health sd_status].
    rewrite Hcache, Hprobes, app_nil_r.
    repeat split; try reflexivity; try assumption.
    exists rest. exact Hcalls.
Qed.

(** A cached snapshot younger than the TTL is returned as it is, and
    nothing else happens. *)
Lemma getInstanceStatus_hit (inst : Instance) (w : World) (s : StatusData) :
  Observe.fresh_entry w inst = Some s ->
  Server.getInstanceStatus E inst w = (Ret s, w).
Proof.
  unfold Observe.fresh_entry, Server.getInstanceStatus. intros H.
  erewrite bind_Ret by reflexivity.
  destruct (statusCache w !! i_id inst) as [c |]; [ | discriminate H ].
  erewrite bind_Ret by reflexivity.
  destruct (clock w - ce_fetchedAt c <? Server.STATUS_CACHE_TTL)%Z;
    [ | discriminate H ].
  injection H as <-. reflexivity.
Qed.

(** Without such an entry the status is resolved afresh. *)
Lemma getInstanceStatus_miss (inst : Instance) (w : World) :
  Observe.fresh_entry w inst = None ->
  Server.getInstanceStatus E inst w = Server.resolveStatus E inst w.
Proof.
  unfold Observe.fresh_entry, Server.getInstanceStatus. intros H.
  erewrite bind_Ret by reflexivity.
  destruct (statusCache w !! i_id inst) as [c |]; [ | reflexivity ].
  erewrite bind_Ret by reflexivity.
  destruct (clock w - ce_fetchedAt c <? Server.STATUS_CACHE_TTL)%Z;
    [ discriminate H | reflexivity ].
Qed.

(** What a resolution reports when both queries are answered: the first
    edge of the deployments reply, and the domain of the project reply. *)
Lemma resolveStatus_reports
    (inst : Instance) (w : World) (edges : list DeploymentNode)
    (services : list ServiceNode) (s : StatusData) (w' : World) :
  settled (railwayGql E (gqlCalls w) (Observe.deployments_query inst))
  = Ret (DDeployments edges) ->
  settled (railwayGql E (gqlCalls w ++ [Observe.deployments_query inst])
             (Observe.project_query inst))
  = Ret (DProject services) ->
  Server.resolveStatus E inst w = (Ret s, w') ->
  sd_deployment s = Observe.latest_deployment edges
  /\ sd_domain s = Observe.public_domain inst services.
Proof.
  intros H1 H2.
  assert (Hq : exists w1,
             Server.queryControlPlane E inst w
             = (Ret (Observe.latest_deployment edges,
                     Observe.public_domain inst services), w1)).
  { unfold Server.queryControlPlane.
    change (DEPLOYMENTS_QUERY (serviceId (i_railway inst))
                              (environmentId (i_railway inst)))
      with (Observe.deployments_query inst).
    change (PROJECT_QUERY (projectId (i_railway inst)))
      with (Observe.project_query inst).
    erewrite bind_Ret by (apply gql_Ret; exact H1).
    erewrite bind_Ret by (apply gql_Ret; norm_world; exact H2).
    unfold ret.
    match goal with
    | |- exists w1, (Ret ?a, ?wa) = _ =>
        exists wa; apply (f_equal (fun x => (Ret x, wa)))
    end.
    apply f_equal2.
    - destruct edges; reflexivity.
    - unfold Observe.public_domain.
      destruct (List.find _ services) as [node |]; [ | reflexivity ].
      destruct (sn_serviceInstances node) as [| si rest]; [ reflexivity | ].
      cbn [head mbind option_bind].
      unfold Server.or_else, Server.truthy, Server.is_empty, Observe.first_domain.
      destruct (customDomains si) as [| cd ?]; cbn [head];
        [ | destruct (String.eqb cd EmptyString); [ | reflexivity ] ];
        (destruct (serviceDomains si) as [| sd ?]; cbn [head];
         [ reflexivity | destruct (String.eqb sd EmptyString); reflexivity ]). }
  destruct Hq as [w1 Hq].
  unfold Server.resolveStatus.
  erewrite bind_Ret by (apply try_catch_Ret; exact Hq).
  cbn [fst snd].
  destruct (Observe.public_domain inst services) as [dom |];
    [ destruct (Server.is_success (Observe.latest_deployment edges)) | ].
  - destruct (probeHealth_run dom w1) as (w2 & Hp & _).
    rewrite (bind_Ret _ _ _ _ _ Hp).
    erewrite bind_Ret by reflexivity. erewrite bind_Ret by reflexivity.
    intros [= <- _]. split; reflexivity.
  - erewrite bind_Ret by reflexivity.
    erewrite bind_Ret by reflexivity. erewrite bind_Ret by reflexivity.
    intros [= <- _]. split; reflexivity.
  - erewrite bind_Ret by reflexivity.
    erewrite bind_Ret by reflexivity. erewrite bind_Ret by reflexivity.
    intros [= <- _]. split; reflexivity.
Qed.

(** C6. When it has to resolve the status, [getInstanceStatus] gives
    the composite status of the decision table read top to bottom, first
    match winning. In particular a SUCCESS deployment with the health
    payload [{configured: true, gateway: {reachable: true}}] is running, a
    SUCCESS deployment without health data (the probe timed out or failed)
    is unhealthy, and a BUILDING deployment is building whatever the domain
    and the health. The health probe is sent only when a domain is known
    and the deployment status is SUCCESS, and the health data of the
    snapshot is what that probe returned.

    The deployment and the domain are those the control plane reports:
    when the deployments query is answered with a list of edges and the
    project query with a list of services, the snapshot holds the first
    edge as deployment and, as domain, that of the first service
    instance of the instance's service, custom before generated. If that
    first edge is BUILDING the status is building and no probe is sent;
    for any status but SUCCESS no probe is sent; if it is SUCCESS, the
    reported domain, when there is one, is probed, exactly once, and the
    status is running when the probe yields a configured instance with a
    reachable gateway and unhealthy when it yields no data; without a
    domain nothing is probed and the status is unhealthy. Without any
    edge the status is no-deployment and nothing is probed. *)
Theorem getStatus_decision_table (inst : Instance) (w : World) :
  Observe.fresh_entry w inst = None ->
  exists s w',
    Server.getInstanceStatus E inst w = (Ret s, w')
    /\ StatusTable.lookup (sd_deployment s) (sd_health s) = Some (sd_status s)
    /\ probes w' = probes w ++ Observe.probed s
    /\ sd_health s
       = match Observe.probed s with
         | dom :: _ => Observe.health_of (fetchHealthz E (probes w) dom)
         | [] => None
         end
    /\ (forall d, sd_deployment s = Some d -> deployment_status d = "SUCCESS" ->
          (sd_health s = Some (mkHealth true (Some true)) -> sd_status s = "running")
          /\ (sd_health s = None -> sd_status s = "unhealthy"))
    /\ (forall d, sd_deployment s = Some d -> deployment_status d = "BUILDING" ->
          sd_status s = "building")
    /\ (forall edges services,
          settled (railwayGql E (gqlCalls w) (Observe.deployments_query inst))
          = Ret (DDeployments edges) ->
          settled (railwayGql E (gqlCalls w ++ [Observe.deployments_query inst])
                     (Observe.project_query inst))
          = Ret (DProject services) ->
          sd_domain s = Observe.public_domain inst services
          /\ match edges with
             | [] =>
                 sd_deployment s = None /\ sd_status s = "no-deployment"
                 /\ probes w' = probes w
             | node :: _ =>
                 sd_deployment s
                 = Some (Deployed (dn_id node) (dn_status node) (dn_createdAt node))
                 /\ (dn_status node = "BUILDING" ->
                     sd_status s = "building" /\ probes w' = probes w)
                 /\ (dn_status node <> "SUCCESS" ->
                     probes w' = probes w /\ sd_health s = None)
                 /\ (dn_status node = "SUCCESS" ->
                     match Observe.public_domain inst services with
                     | None => probes w' = probes w /\ sd_status s = "unhealthy"
                     | Some dom =>
                         let probe :=
                           Observe.health_of (fetchHealthz E (probes w) dom) in
                         probes w' = probes w ++ [dom]
                         /\ sd_health s = probe
                         /\ (probe = Some (mkHealth true (Some true)) ->
                             sd_status s = "running")
                         /\ (probe = None -> sd_status s = "unhealthy")
                     end)
             end).
Proof.
  intros Hmiss.
  destruct (resolveStatus_run inst w)
    as (s & w' & Hrun & Hstatus & _ & _ & _ & Hprobes & Hhealth & _).
  exists s, w'. rewrite (getInstanceStatus_miss inst w Hmiss).
  split; [ exact Hrun | ].
  split; [ rewrite Hstatus; apply compositeStatus_follows_table | ].
  split; [ exact Hprobes | ]. split; [ exact Hhealth | ].
  split; [ | split ].
  - intros d Hd Hst. rewrite Hstatus, Hd. unfold Server.compositeStatus.
    rewrite Hst. split; intros ->; reflexivity.
  - intros d Hd Hst. rewrite Hstatus, Hd. unfold Server.compositeStatus.
    rewrite Hst. reflexivity.
  - intros edges services H1 H2.
    destruct (resolveStatus_reports inst w edges services s w' H1 H2 Hrun)
      as [Hdep Hdom].
    split; [ exact Hdom | ].
    unfold Observe.probed in Hprobes, Hhealth.
    rewrite Hdep, Hdom in Hprobes, Hhealth. rewrite Hstatus, Hdep.
    destruct edges as [| node rest]; cbn [Observe.latest_deployment] in *.
    + split; [ reflexivity | ]. split; [ reflexivity | ].
      cbn [Server.is_success] in Hprobes.
      destruct (Observe.public_domain inst services);
        rewrite Hprobes; apply app_nil_r.
    + split; [ reflexivity | ].
      cbn [Server.is_success deployment_status] in Hprobes, Hhealth.
      unfold Server.compositeStatus. cbn [deployment_status].
      split; [ | split ].
      * intros Hst. rewrite Hst in *. split; [ reflexivity | ].
        change (String.eqb "BUILDING" "SUCCESS") with false in Hprobes.
        destruct (Observe.public_domain inst services);
          rewrite Hprobes; apply app_nil_r.
      * intros Hst. apply String.eqb_neq in Hst. rewrite Hst in Hprobes, Hhealth.
        destruct (Observe.public_domain inst services);
          (split; [ rewrite Hprobes; apply app_nil_r | exact Hhealth ]).
      * intros Hst. rewrite Hst in *.
        change (String.eqb "SUCCESS" "SUCCESS") with true in Hprobes, Hhealth.
        change (String.eqb "SUCCESS" "BUILDING") with false.
        change (String.eqb "SUCCESS" "DEPLOYING") with false.
        change (String.eqb "SUCCESS" "FAILED") with false.
        change (String.eqb "SUCCESS" "CRASHED") with false.
        change (String.eqb "SUCCESS" "SUCCESS") with true.
        cbn [orb].
        destruct (Observe.public_domain inst services) as [dom |].
        -- cbv zeta. split; [ exact Hprobes | ]. split; [ exact Hhealth | ].
           rewrite Hhealth. split; intros ->; reflexivity.
        -- split; [ rewrite Hprobes; apply app_nil_r | ].
           rewrite Hhealth. reflexivity.
Qed.

(** C7. A request that resolves the status queries the control plane
    and caches the snapshot under the instance id. A second request for
    the same instance, issued after the first has returned and less than
    30 seconds after the first was issued, returns the same snapshot and
    changes nothing: no control-plane call, no probe. A request issued
    when 30 seconds or more have passed since the snapshot was stored
    resolves the status again, starting with a new deployment query, and
    its snapshot replaces the cache entry of that instance id. *)
Theorem getStatus_cache_ttl (inst : Instance) (w : World) :
  Observe.fresh_entry w inst = None ->
  exists s1 w1,
    Server.getInstanceStatus E inst w = (Ret s1, w1)
    /\ (exists rest,
          gqlCalls w1 = gqlCalls w ++ Observe.deployments_query inst :: rest)
    /\ statusCache w1 !! i_id inst = Some (mkCacheEntry s1 (clock w1))
    /\ (forall w2,
          statusCache w2 !! i_id inst = statusCache w1 !! i_id inst ->
          (clock w1 <= clock w2)%Z ->
          (clock w2 - clock w < 30000)%Z ->
          Server.getInstanceStatus E inst w2 = (Ret s1, w2))
    /\ (forall w3,
          statusCache w3 !! i_id inst = statusCache w1 !! i_id inst ->
          (30000 <= clock w3 - clock w1)%Z ->
          exists s3 w4,
            Server.getInstanceStatus E inst w3 = (Ret s3, w4)
            /\ (exists rest,
                  gqlCalls w4 = gqlCalls w3 ++ Observe.deployments_query inst :: rest)
            /\ statusCache w4
               = <[i_id inst := mkCacheEntry s3 (clock w4)]> (statusCache w3)).
Proof.
  intros Hmiss.
  destruct (resolveStatus_run inst w)
    as (s1 & w1 & Hrun & _ & Hcache & Hclock & Hcalls & _).
  assert (Hentry : statusCache w1 !! i_id inst = Some (mkCacheEntry s1 (clock w1)))
    by (rewrite Hcache; apply lookup_insert_eq).
  exists s1, w1. rewrite (getInstanceStatus_miss inst w Hmiss).
  split; [ exact Hrun | ]. split; [ exact Hcalls | ]. split; [ exact Hentry | ].
  split.
  - intros w2 Hsame Hafter Hwithin. apply getInstanceStatus_hit.
    unfold Observe.fresh_entry. rewrite Hsame, Hentry.
    cbn [ce_fetchedAt ce_data]. unfold Server.STATUS_CACHE_TTL.
    replace (clock w2 - clock w1 <? 30000)%Z with true
      by (symmetry; apply Z.ltb_lt; lia).
    reflexivity.
  - intros w3 Hsame Helapsed.
    assert (Hmiss3 : Observe.fresh_entry w3 inst = None).
    { unfold Observe.fresh_entry. rewrite Hsame, Hentry.
      cbn [ce_fetchedAt ce_data]. unfold Server.STATUS_CACHE_TTL.
      replace (clock w3 - clock w1 <? 30000)%Z with false
        by (symmetry; apply Z.ltb_ge; lia).
      reflexivity. }
    destruct (resolveStatus_run inst w3)
      as (s3 & w4 & Hrun3 & _ & Hcache3 & _ & Hcalls3 & _).
    exists s3, w4. rewrite (getInstanceStatus_miss inst w3 Hmiss3).
    split; [ exact Hrun3 | ]. split; [ exact Hcalls3 | exact Hcache3 ].
Qed.

End StatusFacts.

Lemma getStatus_decision_table_witness :
  exists s w',
    Server.getInstanceStatus Scenario.env Scenario.alpha Scenario.world
    = (Model.Ret s, w')
    /\ StatusTable.lookup (Model.sd_deployment s) (Model.sd_health s)
       = Some "running"
    /\ Model.probes w' = ["alpha.up.railway.app"].
Proof.
  destruct (getStatus_decision_table Scenario.env Scenario.alpha Scenario.world
              eq_refl)
    as (s & w' & Hrun & Htable & Hprobes & _).
  assert (Hs : Model.sd_status
                 (match fst (Server.getInstanceStatus Scenario.env Scenario.alpha
                               Scenario.world) with
                  | Model.Ret s => s
                  | Model.Throw _ => Model.mkStatusData None None None EmptyString
                  end) = "running"
               /\ Observe.probed
                    (match fst (Server.getInstanceStatus Scenario.env Scenario.alpha
                                  Scenario.world) with
                     | Model.Ret s => s
                     | Model.Throw _ => Model.mkStatusData None None None EmptyString
                     end) = ["alpha.up.railway.app"])
    by (split; vm_compute; reflexivity).
  rewrite Hrun in Hs. cbn [fst] in Hs. destruct Hs as [Hstatus Hprobed].
  exists s, w'. split; [ exact Hrun | ].
  split; [ rewrite Htable, Hstatus; reflexivity | ].
  rewrite Hprobes, Hprobed. reflexivity.
Defined.

Lemma getStatus_cache_ttl_witness :
  exists s1 w1,
    Server.getInstanceStatus Scenario.env Scenario.alpha Scenario.world
    = (Model.Ret s1, w1)
    /\ Server.getInstanceStatus Scenario.env Scenario.alpha
         (Model.with_clock (Model.clock Scenario.world + 29999) w1)
       = (Model.Ret s1, Model.with_clock (Model.clock Scenario.world + 29999) w1)
    /\ exists s3 w4,
         Server.getInstanceStatus Scenario.env Scenario.alpha
           (Model.with_clock (Model.clock w1 + 30000) w1)
         = (Model.Ret s3, w4)
         /\ Model.statusCache w4 !! "inst-a"
            = Some (Model.mkCacheEntry s3 (Model.clock w4)).
Proof.
  destruct (getStatus_cache_ttl Scenario.env Scenario.alpha Scenario.world eq_refl)
    as (s1 & w1 & Hrun & _ & _ & Hwithin & Hafter).
  assert (Hclock : Model.clock
                     (snd (Server.getInstanceStatus Scenario.env Scenario.alpha
                             Scenario.world)) = 1000360%Z)
    by (vm_compute; reflexivity).
  rewrite Hrun in Hclock. cbn [snd] in Hclock.
  exists s1, w1. split; [ exact Hrun | ]. split.
  - apply Hwithin.
    + reflexivity.
    + cbn [Model.clock Model.with_clock]. rewrite Hclock. vm_compute. discriminate.
    + cbn [Model.clock Model.with_clock]. vm_compute. reflexivity.
  - destruct (Hafter (Model.with_clock (Model.clock w1 + 30000) w1))
      as (s3 & w4 & Hrun3 & _ & Hcache3).
    + reflexivity.
    + cbn [Model.clock Model.with_clock]. lia.
    + exists s3, w4. split; [ exact Hrun3 | ].
      rewrite Hcache3. apply lookup_insert_eq.
Defined.

(* ===================================================================== *)
(** * Further properties of the sources *)
(* ===================================================================== *)

Ltac norm_world :=
  cbn [Model.files Model.fsops Model.clock Model.draws Model.statusCache
       Model.console Model.gqlCalls Model.probes Model.stepLog
       Model.with_files Model.with_clock Model.with_draws
       Model.with_statusCache Model.with_console Model.with_gqlCalls
       Model.with_probes Model.with_stepLog].

Ltac norm_world_in H :=
  cbn [Model.files Model.fsops Model.clock Model.draws Model.statusCache
       Model.console Model.gqlCalls Model.probes Model.stepLog
       Model.with_files Model.with_clock Model.with_draws
       Model.with_statusCache Model.with_console Model.with_gqlCalls
       Model.with_probes Model.with_stepLog] in H.

Ltac run_step := erewrite bind_Ret by reflexivity; norm_world.

(** ** Sanitizers: slugify, cleanName, serviceSlug *)

Section SanitizerFacts.
Import Js Slug.

Lemma chars_str (l : list ascii) : chars (str l) = l.
Proof. apply list_ascii_of_string_of_list_ascii. Qed.

Lemma str_chars (s : string) : str (chars s) = s.
Proof. apply string_of_list_ascii_of_string. Qed.

(** X1. Whatever the name, the slug is made of lowercase letters, digits
    and hyphens only, has at most 30 characters and does not start with a
    hyphen. *)
Theorem slugify_shape (name : string) :
  Forall (fun c => is_slug_char c = true) (chars (slugify name))
  /\ (length (chars (slugify name)) <= 30)%nat
  /\ head (chars (slugify name)) <> Some hyphen.
Proof.
  unfold slugify. rewrite chars_str.
  split; [ apply slugify_charset | ].
  split; [ apply slugify_length | apply slugify_no_leading_hyphen ].
Qed.

End SanitizerFacts.

Section SlugifyIdempotence.
Import Js Slug SlugShape.

Lemma between_code lo hi c :
  between lo hi c = true <-> (lo <= code c <= hi)%nat.
Proof.
  unfold between. rewrite andb_true_iff, !Nat.leb_le. reflexivity.
Qed.

Lemma hyphen_char c : is_hyphen c = true -> c = hyphen.
Proof. unfold is_hyphen. intros H. apply Ascii.eqb_eq in H. exact H. Qed.

Lemma slug_char_cases c :
  is_slug_char c = true -> is_slug_alnum c = true \/ c = hyphen.
Proof.
  unfold is_slug_char. intros H. apply orb_true_iff in H as [H | H];
    [ left; exact H | right; apply hyphen_char; exact H ].
Qed.

Lemma slug_char_not_upper c : is_slug_char c = true -> is_upper c = false.
Proof.
  intros H. apply slug_char_cases in H as [H | ->]; [ | reflexivity ].
  unfold is_slug_alnum, is_lower, is_digit, is_upper in *.
  apply orb_true_iff in H.
  destruct (between 65 90 c) eqn:Hu; [ exfalso | reflexivity ].
  apply between_code in Hu.
  destruct H as [H | H]; apply between_code in H; lia.
Qed.

Lemma toLowerCase_slug_chars l :
  Forall (fun c => is_slug_char c = true) l -> toLowerCase l = l.
Proof.
  induction 1 as [| c r Hc _ IH]; [ reflexivity | ].
  cbn [toLowerCase map]. unfold lower_char at 1.
  rewrite (slug_char_not_upper c Hc). f_equal. exact IH.
Qed.

Lemma hyphens_isolated_weaken b l :
  hyphens_isolated b l -> hyphens_isolated false l.
Proof.
  destruct l as [| c r]; [ trivial | ]. cbn [hyphens_isolated].
  destruct (is_slug_alnum c); [ trivial | ]. intros [_ H]. split; [ reflexivity | exact H ].
Qed.

Lemma collapse_runs_isolated b l : hyphens_isolated b (collapse_runs b l).
Proof.
  revert b. induction l as [| c r IH]; intros b; [ exact I | ].
  cbn [collapse_runs]. destruct (is_slug_alnum c) eqn:Hc.
  - cbn [hyphens_isolated]. rewrite Hc. apply IH.
  - destruct b; [ apply IH | ].
    cbn [hyphens_isolated]. replace (is_slug_alnum hyphen) with false by reflexivity.
    split; [ reflexivity | apply IH ].
Qed.

Lemma collapse_runs_fixed b l :
  Forall (fun c => is_slug_char c = true) l ->
  hyphens_isolated b l -> collapse_runs b l = l.
Proof.
  intros Hall. revert b. induction Hall as [| c r Hc _ IH]; intros b Hiso;
    [ reflexivity | ].
  cbn [collapse_runs hyphens_isolated] in *.
  destruct (is_slug_alnum c) eqn:Ha.
  - f_equal. apply IH. exact Hiso.
  - destruct Hiso as [-> Hiso]. apply slug_char_cases in Hc as [Hc | ->];
      [ rewrite Hc in Ha; discriminate Ha | ].
    f_equal. apply IH. exact Hiso.
Qed.

Lemma drop_leading_isolated l :
  hyphens_isolated false l -> hyphens_isolated false (drop_leading_hyphen l).
Proof.
  destruct l as [| c r]; [ trivial | ]. cbn [drop_leading_hyphen].
  destruct (is_hyphen c) eqn:Hh; [ | trivial ].
  apply hyphen_char in Hh as ->. cbn [hyphens_isolated].
  replace (is_slug_alnum hyphen) with false by reflexivity.
  intros [_ H]. apply (hyphens_isolated_weaken true). exact H.
Qed.

Lemma drop_trailing_isolated l :
  forall b, hyphens_isolated b l -> hyphens_isolated b (drop_trailing_hyphen l).
Proof.
  induction l as [| c r IH]; intros b H; [ exact I | ].
  destruct r as [| d r'].
  - cbn [drop_trailing_hyphen]. destruct (is_hyphen c); [ exact I | exact H ].
  - change (hyphens_isolated b (c :: drop_trailing_hyphen (d :: r'))).
    cbn [hyphens_isolated] in H |- *.
    destruct (is_slug_alnum c); [ apply IH; exact H | ].
    destruct H as [Hb H]. split; [ exact Hb | apply IH; exact H ].
Qed.

Lemma take_isolated n l :
  forall b, hyphens_isolated b l -> hyphens_isolated b (take n l).
Proof.
  revert l. induction n as [| n IH]; intros l b H; [ exact I | ].
  destruct l as [| c r]; [ exact I | ].
  cbn [take hyphens_isolated] in *.
  destruct (is_slug_alnum c); [ apply IH; exact H | ].
  destruct H as [Hb H]. split; [ exact Hb | apply IH; exact H ].
Qed.

Lemma slugify_chars_isolated l : hyphens_isolated false (slugify_chars l).
Proof.
  unfold slugify_chars, slice0, strip_edge_hyphens, replace_non_alnum_runs.
  apply take_isolated, drop_trailing_isolated, drop_leading_isolated,
    collapse_runs_isolated.
Qed.

Lemma drop_leading_fixed l : head l <> Some hyphen -> drop_leading_hyphen l = l.
Proof.
  destruct l as [| c r]; [ reflexivity | ]. cbn [drop_leading_hyphen head].
  destruct (is_hyphen c) eqn:Hh; [ | reflexivity ].
  apply hyphen_char in Hh as ->. intros H. exfalso. apply H. reflexivity.
Qed.

Lemma drop_trailing_fixed l : last l <> Some hyphen -> drop_trailing_hyphen l = l.
Proof.
  induction l as [| c r IH]; [ reflexivity | ].
  destruct r as [| d r'].
  - cbn [drop_trailing_hyphen last]. destruct (is_hyphen c) eqn:Hh; [ | reflexivity ].
    apply hyphen_char in Hh as ->. intros H. exfalso. apply H. reflexivity.
  - intros H. change (c :: drop_trailing_hyphen (d :: r') = c :: d :: r').
    f_equal. apply IH. exact H.
Qed.

(** A slug that does not end with a hyphen is a fixed point of [slugify]. *)
Lemma slugify_chars_fixed l :
  last (slugify_chars l) <> Some hyphen ->
  slugify_chars (slugify_chars l) = slugify_chars l.
Proof.
  intros Hlast. set (o := slugify_chars l) in *.
  unfold slugify_chars at 1, slice0, strip_edge_hyphens, replace_non_alnum_runs.
  rewrite (toLowerCase_slug_chars o) by apply slugify_charset.
  rewrite (collapse_runs_fixed false o)
    by (apply slugify_charset || apply slugify_chars_isolated).
  rewrite (drop_leading_fixed o) by apply slugify_no_leading_hyphen.
  rewrite (drop_trailing_fixed o) by exact Hlast.
  apply take_ge. apply slugify_length.
Qed.

Lemma collapse_runs_length b l : (length (collapse_runs b l) <= length l)%nat.
Proof.
  revert b. induction l as [| c r IH]; intros b; [ reflexivity | ].
  cbn [collapse_runs length]. destruct (is_slug_alnum c).
  - cbn [length]. specialize (IH false). lia.
  - destruct b; [ specialize (IH true); lia | ].
    cbn [length]. specialize (IH true). lia.
Qed.

Lemma drop_leading_length l : (length (drop_leading_hyphen l) <= length l)%nat.
Proof.
  destruct l as [| c r]; [ reflexivity | ]. cbn [drop_leading_hyphen].
  destruct (is_hyphen c); cbn [length]; lia.
Qed.

Lemma drop_trailing_length l : (length (drop_trailing_hyphen l) <= length l)%nat.
Proof.
  induction l as [| c r IH]; [ reflexivity | ].
  destruct r as [| d r'].
  - cbn [drop_trailing_hyphen]. destruct (is_hyphen c); cbn [length]; lia.
  - change (length (c :: drop_trailing_hyphen (d :: r')) <= length (c :: d :: r'))%nat.
    cbn [length] in *. lia.
Qed.

(** After the strip the last character is not a hyphen, when hyphens are
    isolated. *)
Lemma drop_trailing_last l :
  forall b, hyphens_isolated b l -> last (drop_trailing_hyphen l) <> Some hyphen.
Proof.
  induction l as [| c r IH]; intros b Hiso; [ discriminate | ].
  destruct r as [| d r'].
  - cbn [drop_trailing_hyphen]. destruct (is_hyphen c) eqn:Hh; [ discriminate | ].
    cbn [last]. intros [= ->]. discriminate Hh.
  - change (last (c :: drop_trailing_hyphen (d :: r')) <> Some hyphen).
    cbn [hyphens_isolated] in Hiso.
    assert (Hrest : exists b', hyphens_isolated b' (d :: r')).
    { destruct (is_slug_alnum c); [ exists false; exact Hiso | ].
      exists true. apply Hiso. }
    destruct Hrest as [b' Hrest].
    destruct (drop_trailing_hyphen (d :: r')) as [| x xs] eqn:Hd.
    + (* the rest was a lone hyphen: then [c] is not one *)
      cbn [last]. intros [= ->].
      replace (is_slug_alnum hyphen) with false in Hiso by reflexivity.
      destruct Hiso as [_ Hiso]. cbn [hyphens_isolated] in Hiso.
      destruct r' as [| e r''].
      * cbn [drop_trailing_hyphen] in Hd.
        destruct (is_hyphen d) eqn:Hh; [ | discriminate Hd ].
        apply hyphen_char in Hh as ->.
        replace (is_slug_alnum hyphen) with false in Hiso by reflexivity.
        destruct Hiso as [Hne _]. discriminate Hne.
      * change (d :: drop_trailing_hyphen (e :: r'') = []) in Hd. discriminate Hd.
    + rewrite last_cons_cons. apply (IH b'). exact Hrest.
Qed.

End SlugifyIdempotence.

Section SlugifyShortNames.
Import Js Slug SlugShape.

Lemma slugify_chars_untruncated l :
  (length l <= 30)%nat ->
  slugify_chars l
  = strip_edge_hyphens (replace_non_alnum_runs (toLowerCase l)).
Proof.
  intros Hlen. unfold slugify_chars, slice0. apply take_ge.
  unfold strip_edge_hyphens, replace_non_alnum_runs.
  pose proof (drop_trailing_length
                (drop_leading_hyphen (collapse_runs false (toLowerCase l)))).
  pose proof (drop_leading_length (collapse_runs false (toLowerCase l))).
  pose proof (collapse_runs_length false (toLowerCase l)).
  unfold toLowerCase in *. rewrite length_map in *. lia.
Qed.

(** X2. For an ASCII name of at most 30 characters nothing is cut off:
    the slug does not end with a hyphen, and slugifying the slug gives it
    back. (Outside ASCII, [toLowerCase] may lengthen the name.) *)
Theorem slugify_short_names (name : string) :
  is_ascii (chars name) = true ->
  (length (chars name) <= 30)%nat ->
  last (chars (slugify name)) <> Some hyphen
  /\ slugify (slugify name) = slugify name.
Proof.
  intros _ Hlen. unfold slugify. rewrite !chars_str.
  assert (Hlast : last (slugify_chars (chars name)) <> Some hyphen).
  { rewrite (slugify_chars_untruncated _ Hlen).
    unfold strip_edge_hyphens, replace_non_alnum_runs.
    apply (drop_trailing_last _ false), drop_leading_isolated,
      collapse_runs_isolated. }
  split; [ exact Hlast | ].
  f_equal. apply slugify_chars_fixed. exact Hlast.
Qed.

Lemma slugify_short_names_witness :
  last (chars (slugify "Client XYZ")) <> Some hyphen
  /\ slugify (slugify "Client XYZ") = slugify "Client XYZ".
Proof.
  apply (slugify_short_names "Client XYZ"); [ reflexivity | vm_compute; lia ].
Defined.

(** X3. Whenever a slug does not end with a hyphen, slugifying it again
    changes nothing, whatever the length of the name. *)
Theorem slugify_idempotent_without_trailing_hyphen (name : string) :
  last (chars (slugify name)) <> Some hyphen ->
  slugify (slugify name) = slugify name.
Proof.
  unfold slugify. rewrite !chars_str. intros Hlast.
  f_equal. apply slugify_chars_fixed. exact Hlast.
Qed.

Lemma slugify_idempotent_without_trailing_hyphen_witness :
  slugify (slugify "A very long client name, longer than the limit")
  = slugify "A very long client name, longer than the limit".
Proof.
  apply slugify_idempotent_without_trailing_hyphen.
  vm_compute. intros H. discriminate H.
Defined.

End SlugifyShortNames.

Section NameFacts.
Import Js.

(** X4. A sanitized name holds letters, digits, spaces and hyphens only
    and has at most 50 characters; the service name derived from it is
    [cortexai-] followed by lowercase letters, digits and hyphens only. *)
Theorem sanitized_names_shape (name : string) :
  Forall (fun c => is_name_char c = true) (chars (Server.cleanName name))
  /\ (length (chars (Server.cleanName name)) <= 50)%nat
  /\ exists rest,
       Server.serviceSlug name = ("cortexai-" ++ rest)%string
       /\ Forall (fun c => is_slug_char c = true) (chars rest).
Proof.
  unfold Server.cleanName, Server.serviceSlug. rewrite chars_str.
  split; [ | split ].
  - unfold slice0. apply Forall_take. unfold keep_name_chars.
    apply Forall_forall. intros c Hc. apply list_elem_of_filter in Hc.
    apply Hc.
  - unfold slice0. rewrite length_take. lia.
  - eexists. split; [ reflexivity | ]. rewrite chars_str.
    unfold keep_slug_chars. apply Forall_forall. intros c Hc.
    apply list_elem_of_filter in Hc. apply Hc.
Qed.

End NameFacts.

(** ** railwayGql on an arbitrary server *)

Section RailwayGqlGeneral.
Import RailwayApi.
Context {D : Type}.
Variable server : nat -> FetchResult D.





End RailwayGqlGeneral.


(** ** The registry: load and save on any file state *)

Section LoadFacts.
Import Model Runtime Store.
Variable E : Env.

Lemma store_only_refl w : Frame.store_only w w.
Proof. repeat split. Qed.

Lemma store_only_trans w1 w2 w3 :
  Frame.store_only w1 w2 -> Frame.store_only w2 w3 -> Frame.store_only w1 w3.
Proof.
  unfold Frame.store_only. intros (A1 & A2 & A3 & A4 & A5) (B1 & B2 & B3 & B4 & B5).
  repeat split; congruence.
Qed.

(** [save] in any file state: afterwards the canonical path holds the
    document and the temporary file is gone. *)
Lemma save_run (data : Doc) (w : World) :
  exists w',
    save E data w = (Ret tt, w')
    /\ files w' !! STORE_PATH E = Some (Json data)
    /\ files w' !! tmp_path E = None
    /\ Frame.store_only w w'.
Proof.
  destruct (files w !! STORE_PATH E) as [f |] eqn:Hf;
    [ destruct (readable f) eqn:Hr | ].
  - eexists. split; [ apply (save_over_existing _ _ _ _ Hf Hr) | ].
    norm_world. split; [ apply lookup_insert_eq | ].
    split; [ | repeat split ].
    rewrite lookup_insert_ne by (apply not_eq_sym, tmp_ne_store).
    apply lookup_delete_eq.
  - destruct f; try discriminate Hr.
    eexists. split; [ apply save_over_unreadable; exact Hf | ].
    norm_world. split; [ apply lookup_insert_eq | ].
    split; [ | repeat split ].
    rewrite lookup_insert_ne by (apply not_eq_sym, tmp_ne_store).
    apply lookup_delete_eq.
  - eexists. split; [ apply save_first; exact Hf | ].
    norm_world. split; [ apply lookup_insert_eq | ].
    split; [ | repeat split ].
    rewrite lookup_insert_ne by (apply not_eq_sym, tmp_ne_store).
    apply lookup_delete_eq.
Qed.

Lemma needs_migration_version (doc : Doc) :
  needs_migration doc = true -> version_ge_2 doc = false.
Proof.
  unfold needs_migration, version_ge_2.
  destruct (version doc) as [v |]; [ | reflexivity ].
  intros H. apply orb_true_iff in H. apply Z.leb_gt.
  destruct H as [H | H]; [ apply Z.eqb_eq in H; lia | apply Z.ltb_lt in H; lia ].
Qed.

Lemma current_version (doc : Doc) :
  needs_migration doc = false -> version_ge_2 doc = true.
Proof.
  unfold needs_migration, version_ge_2.
  destruct (version doc) as [v |]; [ | discriminate ].
  intros H. apply orb_false_iff in H as [_ H]. apply Z.ltb_ge in H.
  apply Z.leb_le. lia.
Qed.

(** The first-run path of [load]: the read or the parse threw. *)
Lemma load_bootstrap_run (w : World) :
  (files w !! STORE_PATH E = None
   \/ exists f, files w !! STORE_PATH E = Some f /\ holds_document f = false) ->
  exists d w',
    load E w = (Ret d, w')
    /\ files w' !! STORE_PATH E = Some (Json d)
    /\ needs_migration d = false
    /\ Frame.store_only w w'
    /\ exists t, tenants d = Some [(t_id t, t)] /\ t_slug t = "default"
                 /\ t_instances t = Some [].
Proof.
  intros Hfile.
  assert (Hthrow : exists e,
             (bind (fs_readFileSync (STORE_PATH E)) JSON_parse) w = (Throw e, w)).
  { destruct Hfile as [Hf | (f & Hf & Hdoc)].
    - eexists. apply bind_Throw. unfold fs_readFileSync. rewrite Hf. reflexivity.
    - destruct f as [raw | d |]; [ | discriminate Hdoc | ].
      + eexists. erewrite bind_Ret
          by (unfold fs_readFileSync; rewrite Hf; reflexivity).
        reflexivity.
      + eexists. apply bind_Throw. unfold fs_readFileSync. rewrite Hf.
        reflexivity. }
  destruct Hthrow as [e Hthrow].
  destruct (save_run
              {| version := Some 2%Z;
                 tenants :=
                   Some [(randomUUID E (draws w),
                          {| t_id := randomUUID E (draws w);
                             t_name := "Default";
                             t_slug := "default";
                             t_createdAt := toISOString E (clock w);
                             t_notes := EmptyString;
                             t_tailscale := None;
                             t_instances := Some [] |})];
                 instances := None |}
              (with_draws (S (draws w)) w))
    as (w1 & Hsave & Hstored & _ & Honly).
  eexists. eexists. split; [ | split; [ | split; [ | split ] ] ].
  - unfold load. erewrite try_catch_Throw; cycle 1.
    { unfold bind in Hthrow |- *.
      destruct (fs_readFileSync (STORE_PATH E) w) as [[raw | e0] w0] eqn:Hr.
      - destruct (JSON_parse raw w0) as [[d | e1] w2] eqn:Hp;
          [ discriminate Hthrow | exact Hthrow ].
      - exact Hthrow. }
    erewrite bind_Ret by apply emptyStore_run.
    erewrite bind_Ret by exact Hsave.
    erewrite bind_Ret by reflexivity. reflexivity.
  - norm_world. exact Hstored.
  - reflexivity.
  - destruct Honly as (A1 & A2 & A3 & A4 & A5). unfold Frame.store_only. norm_world.
    norm_world_in A1. repeat split; assumption.
  - cbn [tenants].
    match goal with |- context [Some [(_, ?x)]] => exists x end.
    split; [ reflexivity | split; reflexivity ].
Qed.

(** The migration path of [load]. *)
Lemma load_migration_run (w : World) (doc : Doc) :
  files w !! STORE_PATH E = Some (Json doc) ->
  needs_migration doc = true ->
  exists d w',
    load E w = (Ret d, w')
    /\ files w' !! STORE_PATH E = Some (Json d)
    /\ needs_migration d = false
    /\ Frame.store_only w w'
    /\ exists t, tenants d = Some [(t_id t, t)] /\ t_slug t = "default"
                 /\ t_instances t = Some (default [] (instances doc)).
Proof.
  intros Hf Hneeds. pose proof (needs_migration_version doc Hneeds) as Hge.
  set (w0 := with_draws (S (draws w))
               (with_console (console
                  (with_console (console (with_files
                      (<[premigrate_backup_path E := Json doc]> (files w))
                      [FsCopy (STORE_PATH E) (premigrate_backup_path E)] w)
                     ++ [("[store] Pre-migration backup: "
                            ++ premigrate_backup_path E)%string])
                     (with_files
                        (<[premigrate_backup_path E := Json doc]> (files w))
                        [FsCopy (STORE_PATH E) (premigrate_backup_path E)] w))
                  ++ ["[store] Migrating fleet data from v1 to v2..."])
               (with_console (console (with_files
                      (<[premigrate_backup_path E := Json doc]> (files w))
                      [FsCopy (STORE_PATH E) (premigrate_backup_path E)] w)
                     ++ [("[store] Pre-migration backup: "
                            ++ premigrate_backup_path E)%string])
                     (with_files
                        (<[premigrate_backup_path E := Json doc]> (files w))
                        [FsCopy (STORE_PATH E) (premigrate_backup_path E)] w)))).
  destruct (save_run
              {| version := Some 2%Z;
                 tenants :=
                   Some [(randomUUID E (draws w),
                          {| t_id := randomUUID E (draws w);
                             t_name := "Default";
                             t_slug := "default";
                             t_createdAt := toISOString E (clock w);
                             t_notes := "Auto-created during migration from v1. Contains pre-existing instances.";
                             t_tailscale := None;
                             t_instances := Some (default [] (instances doc)) |})];
                 instances := None |} w0)
    as (w1 & Hsave & Hstored & _ & Honly).
  eexists. eexists. split; [ | split; [ | split; [ | split ] ] ].
  - unfold load. apply try_catch_Ret.
    erewrite bind_Ret by (unfold fs_readFileSync; rewrite Hf; reflexivity).
    erewrite bind_Ret by reflexivity.
    rewrite Hneeds.
    erewrite bind_Ret; cycle 1.
    { apply try_catch_Ret.
      erewrite bind_Ret by (unfold fs_copyFileSync; rewrite Hf; reflexivity).
      reflexivity. }
    erewrite bind_Ret; cycle 1.
    { unfold migrateV1toV2. rewrite Hge.
      erewrite bind_Ret by reflexivity. erewrite bind_Ret by reflexivity.
      erewrite bind_Ret by reflexivity. reflexivity. }
    norm_world.
    erewrite bind_Ret by exact Hsave.
    erewrite bind_Ret by reflexivity. reflexivity.
  - norm_world. exact Hstored.
  - reflexivity.
  - destruct Honly as (A1 & A2 & A3 & A4 & A5). unfold Frame.store_only, w0 in *.
    norm_world. norm_world_in A1. repeat split; assumption.
  - cbn [tenants].
    match goal with |- context [Some [(_, ?x)]] => exists x end.
    split; [ reflexivity | split; reflexivity ].
Qed.

(** [load] in any file state: it returns a current document, which is
    the one on disk afterwards. *)
Lemma load_run (w : World) :
  exists d w',
    load E w = (Ret d, w')
    /\ files w' !! STORE_PATH E = Some (Json d)
    /\ needs_migration d = false
    /\ Frame.store_only w w'.
Proof.
  destruct (files w !! STORE_PATH E) as [[raw | doc |] |] eqn:Hf.
  - destruct (load_bootstrap_run w) as (d & w' & H1 & H2 & H3 & H4 & _);
      [ right; eexists; split; [ exact Hf | reflexivity ] | ].
    exists d, w'. repeat split; assumption || apply H4.
  - destruct (needs_migration doc) eqn:Hneeds.
    + destruct (load_migration_run w doc Hf Hneeds)
        as (d & w' & H1 & H2 & H3 & H4 & _).
      exists d, w'. repeat split; assumption || apply H4.
    + exists doc, w. rewrite (load_current E w doc Hf Hneeds).
      repeat split; assumption.
  - destruct (load_bootstrap_run w) as (d & w' & H1 & H2 & H3 & H4 & _);
      [ right; eexists; split; [ exact Hf | reflexivity ] | ].
    exists d, w'. repeat split; assumption || apply H4.
  - destruct (load_bootstrap_run w) as (d & w' & H1 & H2 & H3 & H4 & _);
      [ left; exact Hf | ].
    exists d, w'. repeat split; assumption || apply H4.
Qed.

(** X6. Whatever is on disk (nothing, a file that cannot be read, text
    that does not parse, an old or a current document), [load] does not
    throw; the document it returns
    has version 2 or more and is the content of the registry file when it
    returns; and loading again returns the same document and changes
    nothing. Only files, console and random draws are affected. *)
Theorem load_settles (w : World) :
  exists d w',
    load E w = (Ret d, w')
    /\ Observe.stored E w' = Some d
    /\ version_ge_2 d = true
    /\ load E w' = (Ret d, w')
    /\ statusCache w' = statusCache w /\ gqlCalls w' = gqlCalls w
    /\ clock w' = clock w.
Proof.
  destruct (load_run w) as (d & w' & Hload & Hstored & Hcur & Honly).
  exists d, w'. split; [ exact Hload | ].
  split; [ unfold Observe.stored; rewrite Hstored; reflexivity | ].
  split; [ apply current_version; exact Hcur | ].
  split; [ apply load_current; assumption | ].
  destruct Honly as (A1 & A2 & _ & A4 & _). repeat split; assumption.
Qed.

(** X7. Round trip: after [save] of a document of version 2 or more, in
    any file state, [load] returns that document and changes nothing, and
    no temporary file is left behind. *)
Theorem save_then_load (data : Doc) (w : World) :
  needs_migration data = false ->
  exists w',
    save E data w = (Ret tt, w')
    /\ load E w' = (Ret data, w')
    /\ files w' !! tmp_path E = None.
Proof.
  intros Hcur. destruct (save_run data w) as (w' & Hsave & Hstored & Htmp & _).
  exists w'. split; [ exact Hsave | ].
  split; [ apply load_current; assumption | exact Htmp ].
Qed.

End LoadFacts.

Lemma save_then_load_witness :
  exists w',
    Store.save Scenario.env Scenario.registry Scenario.corrupt_world
    = (Model.Ret tt, w')
    /\ Store.load Scenario.env w' = (Model.Ret Scenario.registry, w').
Proof.
  destruct (save_then_load Scenario.env Scenario.registry Scenario.corrupt_world
              eq_refl) as (w' & Hsave & Hload & _).
  exists w'. split; [ exact Hsave | exact Hload ].
Defined.

(** ** Objects as maps *)

Section ObjFacts.
Import Model.
Context {V : Type}.

Lemma obj_get_set_eq (o : Obj V) (k : string) (v : V) :
  obj_get (obj_set o k v) k = Some v.
Proof.
  induction o as [| [k' v'] r IH]; cbn [obj_set obj_get].
  - rewrite String.eqb_refl. reflexivity.
  - destruct (String.eqb k' k) eqn:Hk; cbn [obj_get]; rewrite Hk;
      [ reflexivity | exact IH ].
Qed.

Lemma obj_get_set_ne (o : Obj V) (k k' : string) (v : V) :
  k <> k' -> obj_get (obj_set o k v) k' = obj_get o k'.
Proof.
  intros Hne. induction o as [| [k0 v0] r IH]; cbn [obj_set obj_get].
  - destruct (String.eqb k k') eqn:Hk; [ | reflexivity ].
    apply String.eqb_eq in Hk. contradiction.
  - destruct (String.eqb k0 k) eqn:Hk; cbn [obj_get].
    + apply String.eqb_eq in Hk as ->.
      destruct (String.eqb k k') eqn:Hk'; [ | reflexivity ].
      apply String.eqb_eq in Hk'. contradiction.
    + destruct (String.eqb k0 k'); [ reflexivity | exact IH ].
Qed.

Lemma obj_get_delete_ne (o : Obj V) (k k' : string) :
  k <> k' -> obj_get (obj_delete o k) k' = obj_get o k'.
Proof.
  intros Hne. induction o as [| [k0 v0] r IH]; cbn [obj_delete obj_get];
    [ reflexivity | ].
  destruct (String.eqb k0 k) eqn:Hk.
  - apply String.eqb_eq in Hk as ->.
    destruct (String.eqb k k') eqn:Hk'; [ | exact IH ].
    apply String.eqb_eq in Hk'. contradiction.
  - cbn [obj_get]. destruct (String.eqb k0 k'); [ reflexivity | exact IH ].
Qed.

Lemma obj_get_values (o : Obj V) (k : string) (v : V) :
  obj_get o k = Some v -> v ∈ obj_values o.
Proof.
  induction o as [| [k0 v0] r IH]; cbn [obj_get]; [ discriminate | ].
  unfold obj_values. cbn [map snd].
  destruct (String.eqb k0 k).
  - intros [= ->]. apply elem_of_cons. left. reflexivity.
  - intros H. apply elem_of_cons. right. apply IH. exact H.
Qed.

End ObjFacts.

(** ** store.js on a current registry *)

Section StoreCrudFacts.
Import Model Runtime Store.
Variable E : Env.

Lemma getInstance_current (w : World) (doc : Doc) (ts : Obj Tenant)
    (tid iid : string) :
  files w !! STORE_PATH E = Some (Json doc) ->
  needs_migration doc = false ->
  tenants doc = Some ts ->
  getInstance E tid iid w
  = match obj_get ts tid with
    | None => (Ret None, w)
    | Some t =>
        match t_instances t with
        | Some insts => (Ret (obj_get insts iid), w)
        | None => (Throw (JsTypeError "Cannot read properties of undefined"), w)
        end
    end.
Proof.
  intros Hf Hv Hts. unfold getInstance.
  rewrite (bind_Ret _ _ _ _ _ (getTenant_current E w doc ts tid Hf Hv Hts)).
  destruct (obj_get ts tid) as [t |]; [ | reflexivity ].
  unfold instances_of. destruct (t_instances t); reflexivity.
Qed.

(** A store mutation on a current registry: load, change the tenants,
    save. *)
Lemma mutate_current (w : World) (doc : Doc) (ts ts' : Obj Tenant) :
  files w !! STORE_PATH E = Some (Json doc) ->
  needs_migration doc = false ->
  exists w',
    save E (set_tenants doc ts') w = (Ret tt, w')
    /\ files w' !! STORE_PATH E = Some (Json (set_tenants doc ts'))
    /\ needs_migration (set_tenants doc ts') = false
    /\ Frame.store_only w w'.
Proof.
  intros Hf Hv. destruct (save_run E (set_tenants doc ts') w)
    as (w' & Hsave & Hstored & _ & Honly).
  exists w'. repeat split; try assumption; apply Honly.
Qed.


Lemma removeInstance_current (w : World) (doc : Doc) (ts : Obj Tenant)
    (tid iid : string) (t : Tenant) (insts : Obj Instance) :
  files w !! STORE_PATH E = Some (Json doc) ->
  needs_migration doc = false ->
  tenants doc = Some ts ->
  obj_get ts tid = Some t ->
  t_instances t = Some insts ->
  exists w',
    removeInstance E tid iid w = (Ret (obj_get insts iid), w')
    /\ files w' !! STORE_PATH E
       = Some (Json (set_tenants doc
                       (obj_set ts tid (set_instances t (obj_delete insts iid)))))
    /\ Frame.store_only w w'.
Proof.
  intros Hf Hv Hts Hget Hinsts.
  destruct (mutate_current w doc ts
              (obj_set ts tid (set_instances t (obj_delete insts iid))) Hf Hv)
    as (w' & Hsave & Hstored & _ & Honly).
  exists w'. split; [ | split; assumption ].
  unfold removeInstance.
  rewrite (bind_Ret _ _ _ _ _ (load_current E w doc Hf Hv)).
  unfold tenants_of. rewrite Hts. erewrite bind_Ret by reflexivity.
  rewrite Hget. unfold instances_of. rewrite Hinsts.
  erewrite bind_Ret by reflexivity.
  erewrite bind_Ret by exact Hsave. reflexivity.
Qed.


(** X9. Adding an instance to a tenant id the registry does not know,
    and that is not the name of a property inherited from
    [Object.prototype], returns null and changes nothing at all: no file
    is written. (For an inherited name such as 'constructor' the read
    [data.tenants[tenantId]] finds the inherited value and the function
    goes on.) *)
Theorem addInstance_unknown_tenant
    (w : World) (doc : Doc) (ts : Obj Tenant) (tid : string) (inst : Instance) :
  files w !! STORE_PATH E = Some (Json doc) ->
  needs_migration doc = false ->
  tenants doc = Some ts ->
  obj_get ts tid = None ->
  Frame.plain_key tid = true ->
  addInstance E tid inst w = (Ret None, w).
Proof.
  intros Hf Hv Hts Hget _. unfold addInstance.
  rewrite (bind_Ret _ _ _ _ _ (load_current E w doc Hf Hv)).
  unfold tenants_of. rewrite Hts. erewrite bind_Ret by reflexivity.
  rewrite Hget. reflexivity.
Qed.

(** X10. Removing an instance, under an id that is not the name of a
    property inherited from [Object.prototype], returns the removed
    record (null when the tenant has none under that id); afterwards the
    instance cannot be read any more, and every other instance reads as
    before. (For an inherited name such as 'constructor' the read
    [tenant.instances[instanceId]] finds the inherited value, before and
    after.) *)
Theorem removeInstance_then_getInstance
    (w : World) (doc : Doc) (ts : Obj Tenant) (tid iid : string) (t : Tenant)
    (insts : Obj Instance) :
  files w !! STORE_PATH E = Some (Json doc) ->
  needs_migration doc = false ->
  tenants doc = Some ts ->
  obj_get ts tid = Some t ->
  t_instances t = Some insts ->
  Frame.plain_key iid = true ->
  exists w',
    removeInstance E tid iid w = (Ret (obj_get insts iid), w')
    /\ getInstance E tid iid w' = (Ret None, w')
    /\ (forall tid' iid',
          tid' <> tid \/ iid' <> iid ->
          fst (getInstance E tid' iid' w') = fst (getInstance E tid' iid' w)).
Proof.
  intros Hf Hv Hts Hget Hinsts _.
  destruct (removeInstance_current w doc ts tid iid t insts Hf Hv Hts Hget Hinsts)
    as (w' & Hrm & Hstored & Honly).
  exists w'. split; [ exact Hrm | ].
  assert (Hread : forall tid' iid',
             getInstance E tid' iid' w'
             = match obj_get
                       (obj_set ts tid (set_instances t (obj_delete insts iid)))
                       tid' with
               | None => (Ret None, w')
               | Some t' =>
                   match t_instances t' with
                   | Some insts' => (Ret (obj_get insts' iid'), w')
                   | None =>
                       (Throw (JsTypeError "Cannot read properties of undefined"), w')
                   end
               end).
  { intros tid' iid'.
    apply (getInstance_current w' _ _ tid' iid' Hstored);
      [ exact Hv | reflexivity ]. }
  split.
  - rewrite Hread, obj_get_set_eq. cbn [t_instances set_instances].
    rewrite obj_get_delete. reflexivity.
  - intros tid' iid' Hother.
    rewrite (getInstance_current w doc ts tid' iid' Hf Hv Hts), Hread.
    destruct (String.eqb_spec tid tid') as [<- | Hne].
    + rewrite obj_get_set_eq, Hget. cbn [t_instances set_instances].
      rewrite Hinsts. destruct Hother as [Hother | Hother]; [ contradiction | ].
      rewrite obj_get_delete_ne by (apply not_eq_sym; exact Hother).
      reflexivity.
    + rewrite obj_get_set_ne by exact Hne.
      destruct (obj_get ts tid') as [t' |]; [ | reflexivity ].
      destruct (t_instances t'); reflexivity.
Qed.

End StoreCrudFacts.


Lemma addInstance_unknown_tenant_witness :
  Store.addInstance Scenario.env "t-nobody" Scenario.alpha Scenario.world
  = (Model.Ret None, Scenario.world).
Proof.
  apply (addInstance_unknown_tenant Scenario.env Scenario.world Scenario.registry
           [("t-default", Scenario.default_tenant); ("t-acme", Scenario.acme)]
           "t-nobody" Scenario.alpha
           ltac:(vm_compute; reflexivity) eq_refl eq_refl eq_refl eq_refl).
Defined.

Lemma removeInstance_then_getInstance_witness :
  exists w',
    Store.removeInstance Scenario.env "t-acme" "inst-a" Scenario.world
    = (Model.Ret (Some Scenario.alpha), w')
    /\ Store.getInstance Scenario.env "t-acme" "inst-a" w' = (Model.Ret None, w').
Proof.
  destruct (removeInstance_then_getInstance Scenario.env Scenario.world
              Scenario.registry
              [("t-default", Scenario.default_tenant); ("t-acme", Scenario.acme)]
              "t-acme" "inst-a" Scenario.acme
              [("inst-a", Scenario.alpha); ("inst-b", Scenario.beta)]
              ltac:(vm_compute; reflexivity) eq_refl eq_refl eq_refl eq_refl
              eq_refl)
    as (w' & Hrm & Hget & _).
  exists w'. split; [ exact Hrm | exact Hget ].
Defined.

Section StoreUpdateFacts.
Import Model Runtime Store.
Variable E : Env.

(** The route's update is the general one at a patch of name, slug and
    notes. *)
Lemma updateTenant_of_route_patch (tid : string) (p : TenantPatch) (w : World) :
  updateTenant E tid p w
  = StoreRest.updateTenant E tid (StoreRest.of_route_patch p) w.
Proof. reflexivity. Qed.

(** X11. A tenant update never touches instances. On a current
    registry, for a tenant id that is not the name of a property
    inherited from [Object.prototype] and whatever the patch carries,
    an [instances] property included: the updated tenant has the
    instances it had, it is stored under the same tenant id, every
    instance, of this tenant or another, reads as before, and the other
    tenants are untouched. A tenant id the registry does not have gives
    null and no write. (For an inherited name such as 'constructor' the
    read [data.tenants[tenantId]] finds the inherited value and the
    function goes on.) *)
Theorem updateTenant_touches_metadata_only
    (w : World) (doc : Doc) (ts : Obj Tenant) (tid : string)
    (p : StoreRest.FullTenantPatch) :
  files w !! STORE_PATH E = Some (Json doc) ->
  needs_migration doc = false ->
  tenants doc = Some ts ->
  Frame.plain_key tid = true ->
  match obj_get ts tid with
  | None => StoreRest.updateTenant E tid p w = (Ret None, w)
  | Some t =>
      exists t' w',
        StoreRest.updateTenant E tid p w = (Ret (Some t'), w')
        /\ t_instances t' = t_instances t
        /\ getTenant E tid w' = (Ret (Some t'), w')
        /\ (forall tid', tid' <> tid ->
              fst (getTenant E tid' w') = fst (getTenant E tid' w))
        /\ (forall tid' iid',
              fst (getInstance E tid' iid' w') = fst (getInstance E tid' iid' w))
  end.
Proof.
  intros Hf Hv Hts _.
  destruct (obj_get ts tid) as [t |] eqn:Hget.
  - set (t' := StoreRest.assign_full t (StoreRest.safePatch p)).
    destruct (mutate_current E w doc ts (obj_set ts tid t') Hf Hv)
      as (w' & Hsave & Hstored & _ & _).
    exists t', w'.
    split; [ | split; [ reflexivity | split; [ | split ] ] ].
    + unfold StoreRest.updateTenant.
      rewrite (bind_Ret _ _ _ _ _ (load_current E w doc Hf Hv)).
      unfold tenants_of. rewrite Hts. erewrite bind_Ret by reflexivity.
      rewrite Hget. fold t'. erewrite bind_Ret by exact Hsave. reflexivity.
    + rewrite (getTenant_current E w' _ _ tid Hstored Hv eq_refl).
      rewrite obj_get_set_eq. reflexivity.
    + intros tid' Hne.
      rewrite (getTenant_current E w' _ _ tid' Hstored Hv eq_refl).
      rewrite (getTenant_current E w doc ts tid' Hf Hv Hts).
      rewrite obj_get_set_ne by (apply not_eq_sym; exact Hne). reflexivity.
    + intros tid' iid'.
      rewrite (getInstance_current E w' _ _ tid' iid' Hstored Hv eq_refl).
      rewrite (getInstance_current E w doc ts tid' iid' Hf Hv Hts).
      destruct (String.eqb_spec tid tid') as [<- | Hne].
      * rewrite obj_get_set_eq, Hget.
        change (t_instances t') with (t_instances t).
        destruct (t_instances t); reflexivity.
      * rewrite obj_get_set_ne by exact Hne.
        destruct (obj_get ts tid') as [t'' |]; [ | reflexivity ].
        destruct (t_instances t''); reflexivity.
  - unfold StoreRest.updateTenant.
    rewrite (bind_Ret _ _ _ _ _ (load_current E w doc Hf Hv)).
    unfold tenants_of. rewrite Hts. erewrite bind_Ret by reflexivity.
    rewrite Hget. reflexivity.
Qed.

(** X12. An instance update never relocates the instance: on a current
    registry, for an instance id that is not the name of a property
    inherited from [Object.prototype], the patched instance is read back
    under the same tenant id and the same instance id, even when the
    patch carries another id, and all other instances read as before. An
    instance id the tenant does not have gives null and no write. (For
    an inherited name such as 'constructor' the read
    [tenant.instances[instanceId]] finds the inherited value and the
    function goes on.) *)
Theorem updateInstance_stays_in_place
    (w : World) (doc : Doc) (ts : Obj Tenant) (tid iid : string) (t : Tenant)
    (insts : Obj Instance) (p : StoreRest.InstancePatch) :
  files w !! STORE_PATH E = Some (Json doc) ->
  needs_migration doc = false ->
  tenants doc = Some ts ->
  obj_get ts tid = Some t ->
  t_instances t = Some insts ->
  Frame.plain_key iid = true ->
  match obj_get insts iid with
  | None => StoreRest.updateInstance E tid iid p w = (Ret None, w)
  | Some i =>
      exists w',
        StoreRest.updateInstance E tid iid p w
        = (Ret (Some (StoreRest.assign_instance i p)), w')
        /\ getInstance E tid iid w'
           = (Ret (Some (StoreRest.assign_instance i p)), w')
        /\ (forall tid' iid',
              tid' <> tid \/ iid' <> iid ->
              fst (getInstance E tid' iid' w') = fst (getInstance E tid' iid' w))
  end.
Proof.
  intros Hf Hv Hts Hget Hinsts _.
  destruct (obj_get insts iid) as [i |] eqn:Hi.
  - destruct (mutate_current E w doc ts
                (obj_set ts tid
                   (set_instances t
                      (obj_set insts iid (StoreRest.assign_instance i p)))) Hf Hv)
      as (w' & Hsave & Hstored & _ & _).
    exists w'. split; [ | split ].
    + unfold StoreRest.updateInstance.
      rewrite (bind_Ret _ _ _ _ _ (load_current E w doc Hf Hv)).
      unfold tenants_of. rewrite Hts. erewrite bind_Ret by reflexivity.
      rewrite Hget. unfold instances_of. rewrite Hinsts.
      erewrite bind_Ret by reflexivity. rewrite Hi.
      erewrite bind_Ret by exact Hsave. reflexivity.
    + rewrite (getInstance_current E w' _ _ tid iid Hstored Hv eq_refl).
      rewrite obj_get_set_eq. cbn [t_instances set_instances].
      rewrite obj_get_set_eq. reflexivity.
    + intros tid' iid' Hother.
      rewrite (getInstance_current E w' _ _ tid' iid' Hstored Hv eq_refl).
      rewrite (getInstance_current E w doc ts tid' iid' Hf Hv Hts).
      destruct (String.eqb_spec tid tid') as [<- | Hne].
      * rewrite obj_get_set_eq, Hget. cbn [t_instances set_instances].
        rewrite Hinsts. destruct Hother as [Hother | Hother]; [ contradiction | ].
        rewrite obj_get_set_ne by (apply not_eq_sym; exact Hother). reflexivity.
      * rewrite obj_get_set_ne by exact Hne.
        destruct (obj_get ts tid') as [t' |]; [ | reflexivity ].
        destruct (t_instances t'); reflexivity.
  - unfold StoreRest.updateInstance.
    rewrite (bind_Ret _ _ _ _ _ (load_current E w doc Hf Hv)).
    unfold tenants_of. rewrite Hts. erewrite bind_Ret by reflexivity.
    rewrite Hget. unfold instances_of. rewrite Hinsts.
    erewrite bind_Ret by reflexivity. rewrite Hi. reflexivity.
Qed.

End StoreUpdateFacts.

Lemma updateTenant_touches_metadata_only_witness :
  exists t' w',
    StoreRest.updateTenant Scenario.env "t-acme"
      (StoreRest.mkFullTenantPatch None (Some "Acme Corp") (Some "acme-corp")
         None None None (Some []))
      Scenario.world
    = (Model.Ret (Some t'), w')
    /\ Model.t_instances t' = Model.t_instances Scenario.acme.
Proof.
  destruct (updateTenant_touches_metadata_only Scenario.env Scenario.world
              Scenario.registry
              [("t-default", Scenario.default_tenant); ("t-acme", Scenario.acme)]
              "t-acme"
              (StoreRest.mkFullTenantPatch None (Some "Acme Corp")
                 (Some "acme-corp") None None None (Some []))
              ltac:(vm_compute; reflexivity) eq_refl eq_refl eq_refl)
    as (t' & w' & Hrun & Hinsts & _).
  exists t', w'. split; [ exact Hrun | exact Hinsts ].
Defined.

Lemma updateInstance_stays_in_place_witness :
  exists w',
    StoreRest.updateInstance Scenario.env "t-acme" "inst-a"
      (StoreRest.mkInstancePatch (Some "inst-z") None None None None None
         (Some "moved?"))
      Scenario.world
    = (Model.Ret
         (Some (StoreRest.assign_instance Scenario.alpha
                  (StoreRest.mkInstancePatch (Some "inst-z") None None None None
                     None (Some "moved?")))), w')
    /\ Store.getInstance Scenario.env "t-acme" "inst-a" w'
       = (Model.Ret
            (Some (StoreRest.assign_instance Scenario.alpha
                     (StoreRest.mkInstancePatch (Some "inst-z") None None None None
                        None (Some "moved?")))), w').
Proof.
  destruct (updateInstance_stays_in_place Scenario.env Scenario.world
              Scenario.registry
              [("t-default", Scenario.default_tenant); ("t-acme", Scenario.acme)]
              "t-acme" "inst-a" Scenario.acme
              [("inst-a", Scenario.alpha); ("inst-b", Scenario.beta)]
              (StoreRest.mkInstancePatch (Some "inst-z") None None None None None
                 (Some "moved?"))
              ltac:(vm_compute; reflexivity) eq_refl eq_refl eq_refl eq_refl
              eq_refl)
    as (w' & Hrun & Hget & _).
  exists w'. split; [ exact Hrun | exact Hget ].
Defined.

(** ** The registry keeps every tenant under its own id *)

Section KeyedFacts.
Import Model Runtime Store.
Variable E : Env.

Lemma obj_set_keyed (ts : Obj Tenant) (k : string) (t : Tenant) :
  Forall (fun kt => t_id (snd kt) = fst kt) ts ->
  t_id t = k ->
  Forall (fun kt => t_id (snd kt) = fst kt) (obj_set ts k t).
Proof.
  intros Hall Hk. induction Hall as [| [k' v'] r Hkv Hr IH]; cbn [obj_set].
  - constructor; [ exact Hk | constructor ].
  - destruct (String.eqb k' k) eqn:Heq.
    + apply String.eqb_eq in Heq as ->. constructor; [ exact Hk | exact Hr ].
    + constructor; assumption.
Qed.

Lemma obj_delete_keyed (ts : Obj Tenant) (k : string) :
  Forall (fun kt => t_id (snd kt) = fst kt) ts ->
  Forall (fun kt => t_id (snd kt) = fst kt) (obj_delete ts k).
Proof.
  intros Hall. induction Hall as [| [k' v'] r Hkv _ IH]; cbn [obj_delete].
  - constructor.
  - destruct (String.eqb k' k); [ exact IH | constructor; assumption ].
Qed.

Lemma obj_get_keyed (ts : Obj Tenant) (k : string) (t : Tenant) :
  Forall (fun kt => t_id (snd kt) = fst kt) ts ->
  obj_get ts k = Some t -> t_id t = k.
Proof.
  intros Hall. induction Hall as [| [k' v'] r Hkv _ IH]; cbn [obj_get];
    [ discriminate | ].
  destruct (String.eqb k' k) eqn:Heq; [ | exact IH ].
  intros [= <-]. apply String.eqb_eq in Heq as <-. exact Hkv.
Qed.

(** [load] hands the mutations a current, well-keyed document, which is
    the one on disk. *)
Lemma load_run_keyed (w : World) :
  Frame.well_keyed E w ->
  exists d w1,
    load E w = (Ret d, w1)
    /\ files w1 !! STORE_PATH E = Some (Json d)
    /\ needs_migration d = false
    /\ Frame.keyed_by_id d.
Proof.
  intros Hwk.
  destruct (files w !! STORE_PATH E) as [[raw | doc |] |] eqn:Hf.
  - destruct (load_bootstrap_run E w)
      as (d & w' & H1 & H2 & H3 & _ & t & Ht & _);
      [ right; eexists; split; [ exact Hf | reflexivity ] | ].
    exists d, w'. repeat split; try assumption.
    unfold Frame.keyed_by_id. rewrite Ht. repeat constructor.
  - destruct (needs_migration doc) eqn:Hneeds.
    + destruct (load_migration_run E w doc Hf Hneeds)
        as (d & w' & H1 & H2 & H3 & _ & t & Ht & _).
      exists d, w'. repeat split; try assumption.
      unfold Frame.keyed_by_id. rewrite Ht. repeat constructor.
    + exists doc, w. rewrite (load_current E w doc Hf Hneeds).
      repeat split; try assumption. apply Hwk; assumption.
  - destruct (load_bootstrap_run E w)
      as (d & w' & H1 & H2 & H3 & _ & t & Ht & _);
      [ right; eexists; split; [ exact Hf | reflexivity ] | ].
    exists d, w'. repeat split; try assumption.
    unfold Frame.keyed_by_id. rewrite Ht. repeat constructor.
  - destruct (load_bootstrap_run E w)
      as (d & w' & H1 & H2 & H3 & _ & t & Ht & _);
      [ left; exact Hf | ].
    exists d, w'. repeat split; try assumption.
    unfold Frame.keyed_by_id. rewrite Ht. repeat constructor.
Qed.

(** The state the registry file is in after a mutation. *)
Lemma keyed_after_save (w w' : World) (d : Doc) (ts' : Obj Tenant) :
  needs_migration d = false ->
  Forall (fun kt => t_id (snd kt) = fst kt) ts' ->
  save E (set_tenants d ts') w = (Ret tt, w') ->
  exists d',
    Observe.stored E w' = Some d' /\ version_ge_2 d' = true
    /\ Frame.keyed_by_id d'.
Proof.
  intros Hv Hk Hsave.
  destruct (save_run E (set_tenants d ts') w) as (w2 & Hsave2 & Hstored & _).
  rewrite Hsave in Hsave2. injection Hsave2 as <-.
  exists (set_tenants d ts'). unfold Observe.stored. rewrite Hstored.
  split; [ reflexivity | ].
  split; [ apply current_version; exact Hv | exact Hk ].
Qed.

Lemma keyed_as_loaded (w1 : World) (d : Doc) :
  files w1 !! STORE_PATH E = Some (Json d) ->
  needs_migration d = false ->
  Frame.keyed_by_id d ->
  exists d',
    Observe.stored E w1 = Some d' /\ version_ge_2 d' = true
    /\ Frame.keyed_by_id d'.
Proof.
  intros Hf Hv Hk. exists d. unfold Observe.stored. rewrite Hf.
  split; [ reflexivity | ]. split; [ apply current_version; exact Hv | exact Hk ].
Qed.

(** One mutation of store.js, seen from after its [load]: either it
    stops (returns or throws) without writing, or it saves the document
    with changed tenants and then returns. *)
Lemma mutation_keeps_keyed {A} (w : World) (m : M A)
    (body : Doc -> M A) :
  Frame.well_keyed E w ->
  m = bind (load E) body ->
  (forall d w1,
      Frame.keyed_by_id d ->
      (exists o, body d w1 = (o, w1))
      \/ (exists ts' a,
            Forall (fun kt => t_id (snd kt) = fst kt) ts'
            /\ body d w1
               = bind (save E (set_tenants d ts')) (fun _ => ret a) w1)) ->
  forall o w',
    m w = (o, w') ->
    exists d',
      Observe.stored E w' = Some d' /\ version_ge_2 d' = true
      /\ Frame.keyed_by_id d'.
Proof.
  intros Hwk -> Hbody o w' Hrun.
  destruct (load_run_keyed w Hwk) as (d & w1 & Hload & Hf & Hv & Hk).
  rewrite (bind_Ret _ _ _ _ _ Hload) in Hrun.
  destruct (Hbody d w1 Hk) as [[o' Hstop] | (ts' & a & Hk' & Hsaves)].
  - rewrite Hstop in Hrun. injection Hrun as <- <-.
    apply (keyed_as_loaded w1 d); assumption.
  - rewrite Hsaves in Hrun.
    destruct (save_run E (set_tenants d ts') w1) as (w2 & Hsave & _).
    rewrite (bind_Ret _ _ _ _ _ Hsave) in Hrun. injection Hrun as <- <-.
    apply (keyed_after_save w1 w2 d ts'); assumption.
Qed.

(** X13. Invariant of the registry: if the document on disk stores
    every tenant under the tenant's own id, so does the document on disk
    after any mutation of store.js (tenant add, update, remove; instance
    add, update, remove), whatever the arguments and whether the call
    returns or throws. The document on disk is then at version 2 or
    more. *)
Theorem store_mutations_keep_tenants_keyed (w : World) :
  Frame.well_keyed E w ->
  (forall t, Frame.registry_keyed E (snd (addTenant E t w)))
  /\ (forall tid p, Frame.registry_keyed E (snd (updateTenant E tid p w)))
  /\ (forall tid, Frame.registry_keyed E (snd (removeTenant E tid w)))
  /\ (forall tid i, Frame.registry_keyed E (snd (addInstance E tid i w)))
  /\ (forall tid iid p,
        Frame.registry_keyed E (snd (StoreRest.updateInstance E tid iid p w)))
  /\ (forall tid iid,
        Frame.registry_keyed E (snd (removeInstance E tid iid w))).
Proof.
  intros Hwk. unfold Frame.registry_keyed.
  repeat split.
  - intros t. destruct (addTenant E t w) as [o w'] eqn:Hrun. cbn [snd].
    eapply (mutation_keeps_keyed w _ _ Hwk eq_refl); [ | exact Hrun ].
    intros d w1 Hk. unfold tenants_of.
    destruct (tenants d) as [ts |] eqn:Hts.
    + right. eexists. eexists. split; [ | reflexivity ].
      apply obj_set_keyed; [ unfold Frame.keyed_by_id in Hk; rewrite Hts in Hk;
                             exact Hk | reflexivity ].
    + left. eexists. reflexivity.
  - intros tid p. destruct (updateTenant E tid p w) as [o w'] eqn:Hrun. cbn [snd].
    eapply (mutation_keeps_keyed w _ _ Hwk eq_refl); [ | exact Hrun ].
    intros d w1 Hk. unfold tenants_of, Frame.keyed_by_id in *.
    destruct (tenants d) as [ts |] eqn:Hts; [ | left; eexists; reflexivity ].
    cbn [default] in Hk. erewrite bind_Ret by reflexivity.
    destruct (obj_get ts tid) as [t |] eqn:Hget; [ | left; eexists; reflexivity ].
    right. eexists. eexists. split; [ | reflexivity ].
    apply obj_set_keyed; [ exact Hk | ].
    cbn [t_id assign_tenant]. apply (obj_get_keyed ts tid t Hk Hget).
  - intros tid. destruct (removeTenant E tid w) as [o w'] eqn:Hrun. cbn [snd].
    eapply (mutation_keeps_keyed w _ _ Hwk eq_refl); [ | exact Hrun ].
    intros d w1 Hk. unfold tenants_of, Frame.keyed_by_id in *.
    destruct (tenants d) as [ts |] eqn:Hts; [ | left; eexists; reflexivity ].
    cbn [default] in Hk. erewrite bind_Ret by reflexivity.
    right. eexists. eexists. split; [ | reflexivity ].
    apply obj_delete_keyed. exact Hk.
  - intros tid i. destruct (addInstance E tid i w) as [o w'] eqn:Hrun. cbn [snd].
    eapply (mutation_keeps_keyed w _ _ Hwk eq_refl); [ | exact Hrun ].
    intros d w1 Hk. unfold tenants_of, Frame.keyed_by_id in *.
    destruct (tenants d) as [ts |] eqn:Hts; [ | left; eexists; reflexivity ].
    cbn [default] in Hk. erewrite bind_Ret by reflexivity.
    destruct (obj_get ts tid) as [t |] eqn:Hget; [ | left; eexists; reflexivity ].
    right. eexists. eexists. split; [ | reflexivity ].
    apply obj_set_keyed; [ exact Hk | ].
    cbn [t_id set_instances]. apply (obj_get_keyed ts tid t Hk Hget).
  - intros tid iid p.
    destruct (StoreRest.updateInstance E tid iid p w) as [o w'] eqn:Hrun. cbn [snd].
    eapply (mutation_keeps_keyed w _ _ Hwk eq_refl); [ | exact Hrun ].
    intros d w1 Hk. unfold tenants_of, Frame.keyed_by_id in *.
    destruct (tenants d) as [ts |] eqn:Hts; [ | left; eexists; reflexivity ].
    cbn [default] in Hk. erewrite bind_Ret by reflexivity.
    destruct (obj_get ts tid) as [t |] eqn:Hget; [ | left; eexists; reflexivity ].
    unfold instances_of.
    destruct (t_instances t) as [insts |]; [ | left; eexists; reflexivity ].
    erewrite bind_Ret by reflexivity.
    destruct (obj_get insts iid) as [i |]; [ | left; eexists; reflexivity ].
    right. eexists. eexists. split; [ | reflexivity ].
    apply obj_set_keyed; [ exact Hk | ].
    cbn [t_id set_instances]. apply (obj_get_keyed ts tid t Hk Hget).
  - intros tid iid. destruct (removeInstance E tid iid w) as [o w'] eqn:Hrun.
    cbn [snd].
    eapply (mutation_keeps_keyed w _ _ Hwk eq_refl); [ | exact Hrun ].
    intros d w1 Hk. unfold tenants_of, Frame.keyed_by_id in *.
    destruct (tenants d) as [ts |] eqn:Hts; [ | left; eexists; reflexivity ].
    cbn [default] in Hk. erewrite bind_Ret by reflexivity.
    destruct (obj_get ts tid) as [t |] eqn:Hget; [ | left; eexists; reflexivity ].
    unfold instances_of.
    destruct (t_instances t) as [insts |]; [ | left; eexists; reflexivity ].
    erewrite bind_Ret by reflexivity.
    right. eexists. eexists. split; [ | reflexivity ].
    apply obj_set_keyed; [ exact Hk | ].
    cbn [t_id set_instances]. apply (obj_get_keyed ts tid t Hk Hget).
Qed.

End KeyedFacts.

Lemma store_mutations_keep_tenants_keyed_witness :
  Frame.well_keyed Scenario.env Scenario.world
  /\ Frame.registry_keyed Scenario.env
       (snd (Store.removeTenant Scenario.env "t-acme" Scenario.world)).
Proof.
  assert (Hwk : Frame.well_keyed Scenario.env Scenario.world).
  { intros doc Hf _. vm_compute in Hf. injection Hf as <-.
    vm_compute. repeat constructor. }
  split; [ exact Hwk | ].
  apply (store_mutations_keep_tenants_keyed Scenario.env Scenario.world Hwk).
Defined.

(** ** Looking an instance up without its tenant *)

Section FinderFacts.
Import Model Runtime Store.
Variable E : Env.

Lemma obj_get_in_keys {V} (o : Obj V) (k : string) (v : V) :
  obj_get o k = Some v -> k ∈ obj_keys o.
Proof.
  induction o as [| [k' v'] r IH]; cbn [obj_get obj_keys map fst];
    [ discriminate | ].
  destruct (String.eqb k' k) eqn:Hk.
  - apply String.eqb_eq in Hk as ->. intros _. apply list_elem_of_here.
  - intros H. apply list_elem_of_further, IH, H.
Qed.

Lemma find_instance_sound (ts : Obj Tenant) (id : string)
    (t : Tenant) (i : Instance) :
  Forall (fun kt => t_id (snd kt) = fst kt) ts ->
  NoDup (obj_keys ts) ->
  find_instance (obj_values ts) id = Some (t, i) ->
  obj_get ts (t_id t) = Some t
  /\ exists insts, t_instances t = Some insts /\ obj_get insts id = Some i.
Proof.
  intros Hk. induction Hk as [| [k v] r Hkv Hr IH];
    cbn [obj_values obj_keys map snd fst find_instance obj_get];
    [ discriminate | ].
  intros Hnd Hfind. apply NoDup_cons in Hnd as [Hnotin Hnd].
  cbn [snd fst] in Hkv.
  assert (Hrest : find_instance (obj_values r) id = Some (t, i) ->
                  (if String.eqb k (t_id t) then Some v else obj_get r (t_id t))
                  = Some t
                  /\ exists insts,
                      t_instances t = Some insts /\ obj_get insts id = Some i).
  { intros Hf. destruct (IH Hnd Hf) as [Hget Hin]. split; [ | exact Hin ].
    destruct (String.eqb k (t_id t)) eqn:Heq; [ | exact Hget ].
    apply String.eqb_eq in Heq. rewrite Heq in Hnotin.
    exfalso. apply Hnotin. exact (obj_get_in_keys r (t_id t) t Hget). }
  destruct (t_instances v) as [insts |] eqn:Hinsts; [ | exact (Hrest Hfind) ].
  destruct (obj_get insts id) as [i' |] eqn:Hi; [ | exact (Hrest Hfind) ].
  injection Hfind as <- <-. rewrite Hkv, String.eqb_refl.
  split; [ reflexivity | ]. exists insts. split; assumption.
Qed.

Lemma find_instance_complete (ts : Obj Tenant) (tid id : string)
    (t : Tenant) (insts : Obj Instance) (i : Instance) :
  obj_get ts tid = Some t ->
  t_instances t = Some insts ->
  obj_get insts id = Some i ->
  exists found, find_instance (obj_values ts) id = Some found.
Proof.
  induction ts as [| [k v] r IH];
    cbn [obj_values map snd find_instance obj_get]; [ discriminate | ].
  intros Hget Ht Hi.
  destruct (String.eqb k tid).
  - injection Hget as ->. rewrite Ht, Hi. eexists. reflexivity.
  - destruct (t_instances v) as [vi |]; [ | exact (IH Hget Ht Hi) ].
    destruct (obj_get vi id); [ eexists; reflexivity | exact (IH Hget Ht Hi) ].
Qed.

(** What the tenant-less lookup finds is what the scoped lookup finds
    under the found tenant's id. *)
Lemma found_across_is_scoped
    (w : World) (doc : Doc) (id : string) (t : Tenant) (inst : Instance) :
  files w !! STORE_PATH E = Some (Json doc) ->
  needs_migration doc = false ->
  Frame.keyed_by_id doc ->
  Frame.unique_keys doc ->
  findInstanceAcrossTenants E id w = (Ret (Some (t, inst)), w) ->
  getInstance E (t_id t) id w = (Ret (Some inst), w).
Proof.
  intros Hf Hv Hk Hnd Hfind.
  unfold findInstanceAcrossTenants in Hfind.
  rewrite (bind_Ret _ _ _ _ _ (load_current E w doc Hf Hv)) in Hfind.
  unfold tenants_of in Hfind.
  destruct (tenants doc) as [ts |] eqn:Htenants; [ | discriminate Hfind ].
  unfold Frame.keyed_by_id, Frame.unique_keys in *. rewrite Htenants in *.
  change (default [] (Some ts)) with ts in *.
  injection Hfind as Hfind.
  destruct (find_instance_sound ts id t inst Hk Hnd Hfind)
    as (Hget & insts & Hinsts & Hi).
  rewrite (getInstance_current E w doc ts (t_id t) id Hf Hv Htenants).
  rewrite Hget, Hinsts, Hi. reflexivity.
Qed.

(** X14. The tenant-less lookup of the legacy routes agrees with the
    tenant-scoped one. On a current registry whose tenants object is
    well formed (each key once, each tenant under its own id):
    [findInstanceAcrossTenants id] reads without writing; what it
    returns is a tenant [t] and the instance that [getInstance (t.id)
    id] returns; and it returns [null] only when [getInstance] returns
    an instance for no tenant id at all. *)
Theorem findInstanceAcrossTenants_agrees_with_getInstance
    (w : World) (doc : Doc) (id : string) :
  files w !! STORE_PATH E = Some (Json doc) ->
  needs_migration doc = false ->
  Frame.keyed_by_id doc ->
  Frame.unique_keys doc ->
  tenants doc <> None ->
  exists found,
    findInstanceAcrossTenants E id w = (Ret found, w)
    /\ match found with
       | Some (t, i) => getInstance E (t_id t) id w = (Ret (Some i), w)
       | None => forall tid i, getInstance E tid id w <> (Ret (Some i), w)
       end.
Proof.
  intros Hf Hv Hk Hnd Hts.
  destruct (tenants doc) as [ts |] eqn:Htenants; [ | contradiction ].
  unfold Frame.keyed_by_id, Frame.unique_keys in *. rewrite Htenants in *.
  change (default [] (Some ts)) with ts in *.
  exists (find_instance (obj_values ts) id). split.
  - unfold findInstanceAcrossTenants.
    rewrite (bind_Ret _ _ _ _ _ (load_current E w doc Hf Hv)).
    unfold tenants_of. rewrite Htenants. reflexivity.
  - destruct (find_instance (obj_values ts) id) as [[t i] |] eqn:Hfind.
    + destruct (find_instance_sound ts id t i Hk Hnd Hfind)
        as (Hget & insts & Hinsts & Hi).
      rewrite (getInstance_current E w doc ts (t_id t) id Hf Hv Htenants).
      rewrite Hget, Hinsts, Hi. reflexivity.
    + intros tid i.
      rewrite (getInstance_current E w doc ts tid id Hf Hv Htenants).
      destruct (obj_get ts tid) as [t |] eqn:Hget; [ | discriminate ].
      destruct (t_instances t) as [insts |] eqn:Hinsts; [ | discriminate ].
      intros [= Hi].
      destruct (find_instance_complete ts tid id t insts i Hget Hinsts Hi)
        as [found Hfound].
      rewrite Hfound in Hfind. discriminate.
Qed.

End FinderFacts.

Lemma findInstanceAcrossTenants_agrees_with_getInstance_witness :
  exists found,
    Store.findInstanceAcrossTenants Scenario.env "inst-b" Scenario.world
    = (Model.Ret found, Scenario.world)
    /\ match found with
       | Some (t, i) =>
           Store.getInstance Scenario.env (Model.t_id t) "inst-b" Scenario.world
           = (Model.Ret (Some i), Scenario.world)
       | None =>
           forall tid i,
             Store.getInstance Scenario.env tid "inst-b" Scenario.world
             <> (Model.Ret (Some i), Scenario.world)
       end.
Proof.
  apply (findInstanceAcrossTenants_agrees_with_getInstance Scenario.env
           Scenario.world Scenario.registry "inst-b").
  - vm_compute. reflexivity.
  - reflexivity.
  - vm_compute. repeat constructor.
  - change (NoDup ["t-default"; "t-acme"]).
    apply NoDup_cons_2; [ | apply NoDup_singleton ].
    rewrite list_elem_of_singleton. discriminate.
  - discriminate.
Defined.

(** ** The status a dashboard row shows *)

Section StatusRenderFacts.
Import Model Runtime.
Variable E : Env.

Lemma compositeStatus_is_rendered (d : option Deployment) (h : option Health) :
  Dashboard.statusDotClass (Server.compositeStatus d h)
  = Dashboard.Text ("status-" ++ Server.compositeStatus d h)%string
  /\ exists l,
       obj_get Dashboard.labels (Server.compositeStatus d h) = Some l
       /\ Dashboard.statusLabel (Server.compositeStatus d h) = Dashboard.Text l.
Proof.
  unfold Server.compositeStatus.
  destruct d as [d |]; [ | split; [ reflexivity | eexists; split; reflexivity ] ].
  destruct (String.eqb (deployment_status d) "BUILDING");
    [ split; [ reflexivity | eexists; split; reflexivity ] | ].
  destruct (String.eqb (deployment_status d) "DEPLOYING");
    [ split; [ reflexivity | eexists; split; reflexivity ] | ].
  destruct (String.eqb (deployment_status d) "FAILED"
            || String.eqb (deployment_status d) "CRASHED");
    [ split; [ reflexivity | eexists; split; reflexivity ] | ].
  destruct (String.eqb (deployment_status d) "SUCCESS").
  - destruct h as [[[|] [[|] |]] |];
      (split; [ reflexivity | eexists; split; reflexivity ]).
  - destruct (String.eqb (deployment_status d) "REMOVED");
      (split; [ reflexivity | eexists; split; reflexivity ]).
Qed.

(** X15. Server and dashboard agree on the status vocabulary. When the
    status of an instance has to be resolved, [enrichInstance] returns a
    summary (it never throws), and the dashboard has an own label and an
    own dot class for the status of that summary: [statusDotClass] gives
    ["status-" + status], not the ['status-unknown'] fallback nor an
    inherited property, and [statusLabel] gives the entry of its
    table. *)
Theorem enrichInstance_status_is_rendered (inst : Instance) (w : World) :
  Observe.fresh_entry w inst = None ->
  exists r w',
    Routes.enrichInstance E inst w = (Ret r, w')
    /\ Routes.s_id r = i_id inst
    /\ Dashboard.statusDotClass (Routes.s_status r)
       = Dashboard.Text ("status-" ++ Routes.s_status r)%string
    /\ exists l,
         obj_get Dashboard.labels (Routes.s_status r) = Some l
         /\ Dashboard.statusLabel (Routes.s_status r) = Dashboard.Text l.
Proof.
  intros Hmiss.
  destruct (resolveStatus_run E inst w) as (s & w' & Hrun & Hstatus & _).
  exists {| Routes.s_id := i_id inst; Routes.s_name := i_name inst;
            Routes.s_createdAt := i_createdAt inst;
            Routes.s_notes := i_notes inst;
            Routes.s_setupPassword := setupPassword (i_config inst);
            Routes.s_domain := sd_domain s; Routes.s_status := sd_status s;
            Routes.s_deployment := sd_deployment s;
            Routes.s_tailscale := i_tailscale inst |}, w'.
  split.
  - unfold Routes.enrichInstance, Routes.liveStatus.
    erewrite bind_Ret; [ reflexivity | ].
    apply try_catch_Ret. rewrite (getInstanceStatus_miss E inst w Hmiss).
    exact Hrun.
  - cbn [Routes.s_id Routes.s_status]. split; [ reflexivity | ].
    rewrite Hstatus. apply compositeStatus_is_rendered.
Qed.

(** What a resolution gives once the [try] block has thrown. *)
Lemma resolveStatus_after_throw (inst : Instance) (w w1 : World) (e : Exn) :
  Server.queryControlPlane E inst w = (Throw e, w1) ->
  Server.resolveStatus E inst w
  = (Ret (mkStatusData (Some (DeploymentUnknown (String_ e))) None None "unknown"),
     with_statusCache
       (<[i_id inst :=
            mkCacheEntry
              (mkStatusData (Some (DeploymentUnknown (String_ e))) None None
                            "unknown")
              (clock w1)]> (statusCache w1)) w1).
Proof.
  intros Hq. unfold Server.resolveStatus.
  erewrite bind_Ret
    by (erewrite try_catch_Throw by exact Hq; reflexivity).
  cbn [fst snd]. erewrite bind_Ret by reflexivity.
  erewrite bind_Ret by reflexivity. reflexivity.
Qed.

(** X16. A control-plane failure is turned into a snapshot, and the
    snapshot is cached. If the deployments query is rejected, or it
    succeeds and the project query that follows is rejected, then a
    status resolution does not throw: it returns the deployment
    [{status: 'UNKNOWN', error: String(err)}] (the deployment found by a
    successful first query is dropped), no domain, no health data and
    the status ['unknown']; it sends no health probe; and it stores this
    snapshot, so that it is what the next read within the TTL gets. *)
Theorem getInstanceStatus_control_plane_failure
    (inst : Instance) (w : World) (e : Exn) :
  Observe.fresh_entry w inst = None ->
  (settled (railwayGql E (gqlCalls w) (Observe.deployments_query inst)) = Throw e
   \/ exists d,
        settled (railwayGql E (gqlCalls w) (Observe.deployments_query inst))
        = Ret d
        /\ settled (railwayGql E (gqlCalls w ++ [Observe.deployments_query inst])
                      (PROJECT_QUERY (projectId (i_railway inst))))
           = Throw e) ->
  let failed :=
    mkStatusData (Some (DeploymentUnknown (String_ e))) None None "unknown" in
  exists w',
    Server.getInstanceStatus E inst w = (Ret failed, w')
    /\ probes w' = probes w
    /\ files w' = files w
    /\ Observe.fresh_entry w' inst = Some failed.
Proof.
  intros Hmiss Hfail failed.
  rewrite (getInstanceStatus_miss E inst w Hmiss).
  assert (Hq : exists w1,
             Server.queryControlPlane E inst w = (Throw e, w1)
             /\ probes w1 = probes w /\ files w1 = files w).
  { unfold Server.queryControlPlane.
    change (DEPLOYMENTS_QUERY (serviceId (i_railway inst))
                              (environmentId (i_railway inst)))
      with (Observe.deployments_query inst).
    destruct Hfail as [H1 | (d & H1 & H2)].
    - erewrite bind_Throw by (apply gql_Throw; exact H1).
      eexists. split; [ reflexivity | split; reflexivity ].
    - erewrite bind_Ret by (apply gql_Ret; exact H1).
      erewrite bind_Throw by (apply gql_Throw; exact H2).
      eexists. split; [ reflexivity | split; reflexivity ]. }
  destruct Hq as (w1 & Hq & Hprobes & Hfiles).
  rewrite (resolveStatus_after_throw inst w w1 e Hq).
  eexists. split; [ reflexivity | ].
  norm_world. split; [ exact Hprobes | ]. split; [ exact Hfiles | ].
  unfold Observe.fresh_entry. norm_world.
  rewrite lookup_insert_eq. cbn [ce_fetchedAt ce_data].
  rewrite Z.sub_diag. reflexivity.
Qed.

End StatusRenderFacts.

Lemma enrichInstance_status_is_rendered_witness :
  exists r w',
    Routes.enrichInstance Scenario.env Scenario.alpha Scenario.world
    = (Model.Ret r, w')
    /\ Routes.s_status r = "running".
Proof.
  destruct (enrichInstance_status_is_rendered Scenario.env Scenario.alpha
              Scenario.world eq_refl) as (r & w' & Hrun & _).
  exists r, w'. split; [ exact Hrun | ].
  vm_compute in Hrun. injection Hrun as <- _. reflexivity.
Defined.

Lemma getInstanceStatus_control_plane_failure_witness :
  exists w',
    Server.getInstanceStatus Incident.down_env Scenario.alpha Scenario.world
    = (Model.Ret
         (Model.mkStatusData
            (Some (Model.DeploymentUnknown "Error: fetch failed")) None None
            "unknown"), w')
    /\ Model.probes w' = [].
Proof.
  destruct (getInstanceStatus_control_plane_failure Incident.down_env
              Scenario.alpha Scenario.world (Model.JsError "fetch failed")
              eq_refl (or_introl eq_refl))
    as (w' & Hrun & Hprobes & _).
  exists w'. split; [ exact Hrun | exact Hprobes ].
Defined.

(** ** The instance routes *)

Section InstanceRouteFacts.
Import Model Runtime.
Variable E : Env.

(** A handler that starts with a registry lookup that finds the
    instance goes on with the instance. *)
Lemma found_then {A B} (lookup : M (option A)) (k : option A -> M B)
    (h : Exn -> M B) (w : World) (a : A) :
  lookup w = (Ret (Some a), w) ->
  try_catch (bind lookup k) h w = try_catch (k (Some a)) h w.
Proof.
  intros H. unfold try_catch, bind. rewrite H. reflexivity.
Qed.

(** X17. Deleting an instance asks the control plane first. If the
    project deletion is rejected, the route answers 500 with the error
    text and nothing local changes: the registry file and the status
    cache are as before, and the instance can still be read. *)
Theorem deleteInstance_keeps_record_when_remote_fails
    (w : World) (doc : Doc) (ts : Obj Tenant) (tid id : string) (t : Tenant)
    (insts : Obj Instance) (inst : Instance) (e : Exn) :
  files w !! Store.STORE_PATH E = Some (Json doc) ->
  Store.needs_migration doc = false ->
  tenants doc = Some ts ->
  obj_get ts tid = Some t ->
  t_instances t = Some insts ->
  obj_get insts id = Some inst ->
  settled (railwayGql E (gqlCalls w) (PROJECT_DELETE (projectId (i_railway inst))))
  = Throw e ->
  exists w',
    Routes.deleteInstance E tid id w
    = (Ret (Server.status_json 500 (Server.BError (String_ e))), w')
    /\ files w' = files w
    /\ statusCache w' = statusCache w
    /\ Store.getInstance E tid id w' = (Ret (Some inst), w').
Proof.
  intros Hf Hv Hts Hget Hinsts Hinst Hfail.
  assert (Hfound : Store.getInstance E tid id w = (Ret (Some inst), w)).
  { rewrite (getInstance_current E w doc ts tid id Hf Hv Hts).
    rewrite Hget, Hinsts, Hinst. reflexivity. }
  unfold Routes.deleteInstance, Server.guarded.
  rewrite (found_then _ _ _ w inst Hfound).
  erewrite try_catch_Throw
    by (apply bind_Throw; apply gql_Throw; exact Hfail).
  eexists. split; [ reflexivity | ]. norm_world.
  split; [ reflexivity | ]. split; [ reflexivity | ].
  erewrite getInstance_current; [ | exact Hf | exact Hv | exact Hts ].
  rewrite Hget, Hinsts, Hinst. reflexivity.
Qed.


(** X19. The detail route never answers from the status cache. For an
    instance the registry finds, it drops the cache entry, resolves the
    status anew (the deployments query is sent even when a snapshot
    younger than the TTL was cached), answers 200 with the instance and
    that status, and leaves the new snapshot in the cache. The gateway
    token is not part of the answer. *)
Theorem getInstanceDetail_resolves_afresh
    (tid id : string) (inst : Instance) (w : World) :
  Store.getInstance E tid id w = (Ret (Some inst), w) ->
  exists s w',
    Routes.getInstanceDetail E tid id w
    = (Ret (Routes.mkDetailResponse 200
              (Routes.DInstance (Routes.detail_of inst s))), w')
    /\ (exists rest,
          gqlCalls w' = gqlCalls w ++ Observe.deployments_query inst :: rest)
    /\ sd_status s = Server.compositeStatus (sd_deployment s) (sd_health s)
    /\ Observe.fresh_entry w' inst = Some s.
Proof.
  intros Hfound.
  set (w0 := with_statusCache (delete (i_id inst) (statusCache w)) w).
  destruct (resolveStatus_run E inst w0)
    as (s & w' & Hrun & Hstatus & Hcache & _ & Hcalls & _).
  assert (Hmiss : Observe.fresh_entry w0 inst = None).
  { unfold Observe.fresh_entry, w0. norm_world.
    rewrite lookup_delete_eq. reflexivity. }
  exists s, w'. split; [ | split; [ exact Hcalls | split; [ exact Hstatus | ] ] ].
  - unfold Routes.getInstanceDetail.
    rewrite (found_then _ _ _ w inst Hfound).
    apply try_catch_Ret. unfold Routes.freshDetail.
    erewrite bind_Ret by reflexivity. fold w0.
    erewrite bind_Ret; [ reflexivity | ].
    unfold Routes.liveStatus. apply try_catch_Ret.
    rewrite (getInstanceStatus_miss E inst w0 Hmiss). exact Hrun.
  - unfold Observe.fresh_entry. rewrite Hcache, lookup_insert_eq.
    cbn [ce_fetchedAt ce_data]. rewrite Z.sub_diag. reflexivity.
Qed.

(** X20. The health route works from the cache only. For an instance
    the registry finds, it always answers with HTTP status 200, it makes
    no control-plane call, and it leaves the registry and the status
    cache alone. The domain is the one of the cached snapshot whatever
    the snapshot's age: without a cached domain the answer is the error
    'Domain not yet available.' and nothing is probed; with one, exactly
    that domain is probed. *)
Theorem getInstanceHealth_uses_cached_domain
    (tid id : string) (inst : Instance) (w : World) :
  Store.getInstance E tid id w = (Ret (Some inst), w) ->
  exists body w',
    Routes.getInstanceHealth E tid id w = (Ret (200%nat, body), w')
    /\ gqlCalls w' = gqlCalls w
    /\ statusCache w' = statusCache w
    /\ files w' = files w
    /\ match Server.truthy
               (statusCache w !! i_id inst ≫= (fun c => sd_domain (ce_data c)))
       with
       | None =>
           body = Routes.HError "Domain not yet available."
           /\ probes w' = probes w
       | Some domain => probes w' = probes w ++ [domain]
       end.
Proof.
  intros Hfound. unfold Routes.getInstanceHealth.
  rewrite (found_then _ _ _ w inst Hfound).
  unfold Routes.probeCached, try_catch, bind, Server.statusCache_get.
  cbv beta iota.
  destruct (Server.truthy
              (statusCache w !! i_id inst ≫= (fun c => sd_domain (ce_data c))))
    as [domain |].
  - unfold await, lift_outcome, ret.
    destruct (settled (fetchHealthz E (probes w) domain))
      as [[st | [h | e]] | e];
      (eexists; eexists; split; [ reflexivity | ]); norm_world;
      repeat split; reflexivity.
  - eexists. eexists. split; [ reflexivity | ].
    repeat split; reflexivity.
Qed.

End InstanceRouteFacts.

Lemma deleteInstance_keeps_record_when_remote_fails_witness :
  exists w',
    Routes.deleteInstance Scenario.env "t-acme" "inst-b" Scenario.world
    = (Model.Ret
         (Server.status_json 500
            (Server.BError "Error: Railway API error: Not Authorized")), w')
    /\ Store.getInstance Scenario.env "t-acme" "inst-b" w'
       = (Model.Ret (Some Scenario.beta), w').
Proof.
  destruct (deleteInstance_keeps_record_when_remote_fails Scenario.env
              Scenario.world Scenario.registry _ "t-acme" "inst-b"
              Scenario.acme _ Scenario.beta
              (Model.JsError "Railway API error: Not Authorized")
              eq_refl eq_refl eq_refl eq_refl eq_refl eq_refl eq_refl)
    as (w' & Hrun & _ & _ & Hread).
  exists w'. split; [ exact Hrun | exact Hread ].
Defined.


Lemma getInstanceDetail_resolves_afresh_witness :
  Observe.fresh_entry Incident.warm_world Scenario.alpha = None
  /\ exists s w',
       fst (Routes.getInstanceDetail Scenario.env "t-acme" "inst-a"
              Incident.warm_world)
       = Model.Ret (Routes.mkDetailResponse 200
                      (Routes.DInstance (Routes.detail_of Scenario.alpha s)))
       /\ Observe.fresh_entry w' Scenario.alpha = Some s.
Proof.
  split; [ reflexivity | ].
  destruct (getInstanceDetail_resolves_afresh Scenario.env "t-acme" "inst-a"
              Scenario.alpha Incident.warm_world eq_refl)
    as (s & w' & Hrun & _ & _ & Hfresh).
  exists s, w'. split; [ rewrite Hrun; reflexivity | exact Hfresh ].
Defined.

Lemma getInstanceHealth_uses_cached_domain_witness :
  Observe.fresh_entry Incident.warm_world Scenario.alpha = None
  /\ exists body w',
       Routes.getInstanceHealth Scenario.env "t-acme" "inst-a" Incident.warm_world
       = (Model.Ret (200%nat, body), w')
       /\ Model.probes w' = ["alpha.up.railway.app"]
       /\ Model.gqlCalls w' = [].
Proof.
  split; [ reflexivity | ].
  destruct (getInstanceHealth_uses_cached_domain Scenario.env "t-acme" "inst-a"
              Scenario.alpha Incident.warm_world eq_refl)
    as (body & w' & Hrun & Hcalls & _ & _ & Hprobes).
  exists body, w'. split; [ exact Hrun | ].
  split; [ exact Hprobes | exact Hcalls ].
Defined.

(** ** Creating a tenant *)

Section CreateTenantFacts.
Import Model Runtime.
Variable E : Env.


(** X21. POST /api/tenants refuses a request without a usable name
    before it touches anything: when the name is missing, or nothing is
    left of it after cleaning (so for an empty, a blank and an
    all-punctuation name), the answer is a 400 and the world is exactly
    as before, on any world: the registry is not even loaded, so a
    missing or outdated registry file is not created or migrated. *)
Theorem createTenant_rejects_unusable_name
    (req : Server.TenantBody) (w : World) :
  (Server.tb_name req = None
   \/ exists name,
        Server.tb_name req = Some name /\ Server.cleanName name = EmptyString) ->
  exists msg,
    Server.createTenant E req w
    = (Ret (Server.status_json 400 (Server.BError msg)), w)
    /\ (msg = "Name is required."
        \/ msg = "Name must contain alphanumeric characters.").
Proof.
  intros [Hnone | (name & Hname & Hclean)];
    unfold Server.createTenant, Server.guarded.
  - rewrite Hnone. eexists. split; [ reflexivity | left; reflexivity ].
  - rewrite Hname.
    destruct (Server.is_empty name || (length (Js.trim (Js.chars name)) =? 0)%nat);
      [ eexists; split; [ reflexivity | left; reflexivity ] | ].
    rewrite Hclean. eexists. split; [ reflexivity | right; reflexivity ].
Qed.




End CreateTenantFacts.

Lemma createTenant_rejects_unusable_name_witness :
  exists msg,
    Server.createTenant Scenario.env (Server.mkTenantBody (Some "?!") None)
      Scenario.corrupt_world
    = (Model.Ret (Server.status_json 400 (Server.BError msg)),
       Scenario.corrupt_world).
Proof.
  destruct (createTenant_rejects_unusable_name Scenario.env
              (Server.mkTenantBody (Some "?!") None) Scenario.corrupt_world
              (or_intror (ex_intro _ "?!" (conj eq_refl eq_refl))))
    as (msg & Hrun & _).
  exists msg. exact Hrun.
Defined.


(** ** Creating an instance *)

Section CreateInstanceWrites.
Import Model Runtime.
Variable E : Env.






















End CreateInstanceWrites.


(** ** Best-effort steps, restart, and the routes without tenant id *)

Section BestEffortFacts.
Import Model Runtime.
Variable E : Env.



(** X25. What a restart (and so a redeploy) does. For an instance the
    registry finds, the route sends exactly one redeploy request for the
    instance's service and environment and writes no file. If the
    control plane accepts it, the answer is 200 and the cached status of
    the instance is dropped, so that the next status read resolves
    anew; if the control plane rejects it, the answer is a 500 with the
    error text and the status cache is left as it was. *)
Theorem restartInstance_evicts_on_success
    (tid id : string) (inst : Instance) (w : World) :
  Store.getInstance E tid id w = (Ret (Some inst), w) ->
  let request :=
    SERVICE_INSTANCE_REDEPLOY (serviceId (i_railway inst))
                              (environmentId (i_railway inst)) in
  exists r w',
    Server.restartInstance E tid id w = (Ret r, w')
    /\ files w' = files w
    /\ gqlCalls w' = gqlCalls w ++ [request]
    /\ match settled (railwayGql E (gqlCalls w) request) with
       | Ret _ =>
           r = Server.json (Server.BMessage "Redeployment triggered.")
           /\ statusCache w' = delete (i_id inst) (statusCache w)
           /\ Observe.fresh_entry w' inst = None
       | Throw err =>
           r = Server.status_json 500 (Server.BError (String_ err))
           /\ statusCache w' = statusCache w
       end.
Proof.
  intros Hfound request.
  unfold Server.restartInstance, Server.guarded.
  rewrite (found_then _ _ _ w inst Hfound). fold request.
  destruct (settled (railwayGql E (gqlCalls w) request)) as [d | err] eqn:Hreply.
  - eexists. eexists. split.
    + apply try_catch_Ret.
      erewrite bind_Ret by (apply gql_Ret; exact Hreply).
      erewrite bind_Ret by reflexivity. reflexivity.
    + norm_world. repeat split.
      unfold Observe.fresh_entry. norm_world.
      rewrite lookup_delete_eq. reflexivity.
  - eexists. eexists. split.
    + erewrite try_catch_Throw
        by (apply bind_Throw; apply gql_Throw; exact Hreply).
      reflexivity.
    + norm_world. repeat split.
Qed.

Lemma liveStatus_returns (inst : Instance) (w : World) :
  exists s w', Routes.liveStatus E inst w = (Ret s, w').
Proof.
  unfold Routes.liveStatus, try_catch.
  destruct (Server.getInstanceStatus E inst w) as [[s | err] w1].
  - exists s, w1. reflexivity.
  - eexists. eexists. reflexivity.
Qed.

Lemma freshDetail_returns (inst : Instance) (w : World) :
  exists r w', Routes.freshDetail E inst w = (Ret r, w').
Proof.
  unfold Routes.freshDetail.
  erewrite bind_Ret by reflexivity.
  match goal with
  | |- context [bind (Routes.liveStatus E inst) _ ?w0] =>
      destruct (liveStatus_returns inst w0) as (s & w' & Hlive)
  end.
  erewrite bind_Ret by exact Hlive.
  eexists. eexists. reflexivity.
Qed.

(** X26. The routes without tenant id are the tenant-scoped routes at
    the tenant that owns the instance. On a current registry whose
    tenants object is well formed, when the tenant-less lookup finds the
    instance under tenant [t], then restart, redeploy, delete, health
    and detail under /api/instances/:id give the same answer and have
    the same effects as under /api/tenants/(t.id)/instances/:id. *)
Theorem legacy_routes_act_in_owning_tenant
    (w : World) (doc : Doc) (id : string) (t : Tenant) (inst : Instance) :
  files w !! Store.STORE_PATH E = Some (Json doc) ->
  Store.needs_migration doc = false ->
  Frame.keyed_by_id doc ->
  Frame.unique_keys doc ->
  Store.findInstanceAcrossTenants E id w = (Ret (Some (t, inst)), w) ->
  Routes.legacyRestart E id w = Server.restartInstance E (t_id t) id w
  /\ Routes.legacyRedeploy E id w = Server.redeployInstance E (t_id t) id w
  /\ Routes.legacyDelete E id w = Routes.deleteInstance E (t_id t) id w
  /\ Routes.legacyHealth E id w = Routes.getInstanceHealth E (t_id t) id w
  /\ Routes.legacyGetInstance E id w
     = Routes.getInstanceDetail E (t_id t) id w.
Proof.
  intros Hf Hv Hk Hnd Hfind.
  pose proof (found_across_is_scoped E w doc id t inst Hf Hv Hk Hnd Hfind)
    as Hscoped.
  repeat split.
  - unfold Routes.legacyRestart, Server.restartInstance, Server.guarded.
    rewrite (bind_Ret _ _ _ _ _ Hfind).
    rewrite (found_then _ _ _ w inst Hscoped). reflexivity.
  - unfold Routes.legacyRedeploy, Server.redeployInstance, Server.guarded.
    rewrite (bind_Ret _ _ _ _ _ Hfind).
    rewrite (found_then _ _ _ w inst Hscoped). reflexivity.
  - unfold Routes.legacyDelete, Routes.deleteInstance, Server.guarded.
    rewrite (bind_Ret _ _ _ _ _ Hfind).
    rewrite (found_then _ _ _ w inst Hscoped). reflexivity.
  - unfold Routes.legacyHealth, Routes.getInstanceHealth.
    rewrite (bind_Ret _ _ _ _ _ Hfind).
    rewrite (found_then _ _ _ w inst Hscoped). reflexivity.
  - unfold Routes.legacyGetInstance, Routes.getInstanceDetail.
    rewrite (bind_Ret _ _ _ _ _ Hfind).
    rewrite (found_then _ _ _ w inst Hscoped).
    destruct (freshDetail_returns inst w) as (r & w' & Hfresh).
    rewrite (try_catch_Ret _ _ _ _ _ Hfresh). exact Hfresh.
Qed.

End BestEffortFacts.

Lemma restartInstance_evicts_on_success_witness :
  exists w',
    Server.restartInstance Scenario.env "t-acme" "inst-a" Incident.warm_world
    = (Model.Ret (Server.json (Server.BMessage "Redeployment triggered.")), w')
    /\ Model.statusCache w' !! "inst-a" = None.
Proof.
  destruct (restartInstance_evicts_on_success Scenario.env "t-acme" "inst-a"
              Scenario.alpha Incident.warm_world eq_refl)
    as (r & w' & Hrun & _ & _ & Hreply).
  cbv zeta in Hreply. destruct Hreply as (-> & Hcache & _).
  exists w'. split; [ exact Hrun | ].
  rewrite Hcache. apply lookup_delete_eq.
Defined.

Lemma legacy_routes_act_in_owning_tenant_witness :
  Routes.legacyDelete Scenario.env "inst-b" Scenario.world
  = Routes.deleteInstance Scenario.env "t-acme" "inst-b" Scenario.world.
Proof.
  assert (Hk : Frame.keyed_by_id Scenario.registry)
    by (vm_compute; repeat constructor).
  assert (Hnd : Frame.unique_keys Scenario.registry).
  { change (NoDup ["t-default"; "t-acme"]).
    apply NoDup_cons_2; [ | apply NoDup_singleton ].
    rewrite list_elem_of_singleton. discriminate. }
  apply (legacy_routes_act_in_owning_tenant Scenario.env Scenario.world
           Scenario.registry "inst-b" Scenario.acme Scenario.beta
           eq_refl eq_refl Hk Hnd eq_refl).
Defined.

(** ** The auth middleware *)

Section AuthFacts.
Import Auth.
Local Open Scope string_scope.
Variable base64_decode : string -> string.
Variable FLEET_PASSWORD : string.

Lemma app_cons (a : ascii) (p s : string) :
  String a p ++ s = String a (p ++ s).
Proof. reflexivity. Qed.

Lemma prefix_split (p s : string) :
  String.prefix p s = true -> s = p ++ slice_from (String.length p) s.
Proof.
  revert s. induction p as [| a p IH]; intros s.
  - intros _. reflexivity.
  - destruct s as [| b s]; cbn [String.prefix]; [ discriminate | ].
    destruct (ascii_dec a b) as [<- | _]; [ | discriminate ].
    intros H. cbn [String.length slice_from]. rewrite app_cons. f_equal.
    apply IH. exact H.
Qed.

Lemma prefix_app (p s : string) : String.prefix p (p ++ s) = true.
Proof.
  induction p as [| a p IH]; [ destruct s; reflexivity | ].
  rewrite app_cons. cbn [String.prefix].
  destruct (ascii_dec a a); [ exact IH | contradiction ].
Qed.

Lemma slice_from_app (p s : string) : slice_from (String.length p) (p ++ s) = s.
Proof.
  induction p as [| a p IH]; [ reflexivity | ].
  rewrite app_cons. cbn [String.length slice_from]. exact IH.
Qed.

Lemma indexOf_split (c : ascii) (s : string) (i : nat) :
  indexOf c s = Some i ->
  exists user,
    s = user ++ String c (slice_from (i + 1) s) /\ indexOf c user = None.
Proof.
  revert i. induction s as [| a r IH]; intros i; cbn [indexOf]; [ discriminate | ].
  destruct (Ascii.eqb a c) eqn:Hac.
  - intros [= <-]. apply Ascii.eqb_eq in Hac as ->.
    exists EmptyString. split; reflexivity.
  - destruct (indexOf c r) as [j |] eqn:Hj; [ | discriminate ].
    intros [= <-]. destruct (IH j eq_refl) as (user & Hr & Hnone).
    exists (String a user). split.
    + rewrite app_cons. cbn [Nat.add slice_from]. f_equal. exact Hr.
    + cbn [indexOf]. rewrite Hac, Hnone. reflexivity.
Qed.

Lemma indexOf_app (c : ascii) (user rest : string) :
  indexOf c user = None ->
  indexOf c (user ++ String c rest) = Some (String.length user)
  /\ slice_from (String.length user + 1) (user ++ String c rest) = rest.
Proof.
  induction user as [| a user IH].
  - intros _. change (EmptyString ++ String c rest) with (String c rest).
    cbn [indexOf String.length Nat.add slice_from].
    rewrite Ascii.eqb_refl. split; reflexivity.
  - rewrite app_cons. cbn [indexOf String.length Nat.add slice_from].
    destruct (Ascii.eqb a c); [ discriminate | ].
    destruct (indexOf c user) as [j |]; [ discriminate | ].
    intros _. destruct (IH eq_refl) as [Hidx Hslice].
    rewrite Hidx. split; [ reflexivity | exact Hslice ].
Qed.

(** X27. The auth middleware hands a request on exactly when a password
    is configured, the Authorization header is ['Basic ' + payload], and
    the decoded payload is either [user + ':' + FLEET_PASSWORD] for a
    user name without colon (any user name will do, and the password may
    itself contain colons), or the password alone when the password has
    no colon. In particular nothing passes while no password is
    configured. *)
Theorem requireAuth_passes_exactly_with_password (authorization : option string) :
  requireAuth base64_decode FLEET_PASSWORD authorization = Next
  <-> FLEET_PASSWORD <> EmptyString
      /\ exists payload,
           authorization = Some ("Basic " ++ payload)
           /\ ((exists user,
                  base64_decode payload
                  = user ++ String colon FLEET_PASSWORD
                  /\ indexOf colon user = None)
               \/ (base64_decode payload = FLEET_PASSWORD
                   /\ indexOf colon FLEET_PASSWORD = None)).
Proof.
  unfold requireAuth, Server.is_empty. split.
  - destruct (String.eqb_spec FLEET_PASSWORD EmptyString) as [| Hset];
      [ discriminate | ].
    destruct (String.prefix "Basic " (default EmptyString authorization))
      eqn:Hprefix; [ | discriminate ].
    cbn [negb].
    destruct authorization as [auth |]; [ | discriminate Hprefix ].
    change (default EmptyString (Some auth)) with auth in *.
    apply prefix_split in Hprefix.
    change (String.length "Basic ") with 6%nat in Hprefix.
    intros Hpass. split; [ exact Hset | ].
    exists (slice_from 6 auth). split; [ f_equal; exact Hprefix | ].
    destruct (indexOf colon (base64_decode (slice_from 6 auth)))
      as [i |] eqn:Hidx.
    + destruct (String.eqb_spec
                  (slice_from (i + 1) (base64_decode (slice_from 6 auth)))
                  FLEET_PASSWORD) as [Heq | _]; [ | discriminate Hpass ].
      left. destruct (indexOf_split _ _ _ Hidx) as (user & Hsplit & Hnone).
      exists user. rewrite Heq in Hsplit. split; assumption.
    + destruct (String.eqb_spec (base64_decode (slice_from 6 auth))
                  FLEET_PASSWORD) as [Heq | _]; [ | discriminate Hpass ].
      right. split; [ exact Heq | rewrite <- Heq; exact Hidx ].
  - intros (Hset & payload & -> & Hcred).
    destruct (String.eqb_spec FLEET_PASSWORD EmptyString) as [| _];
      [ contradiction | ].
    change (default EmptyString (Some ("Basic " ++ payload)))
      with ("Basic " ++ payload).
    rewrite prefix_app. cbn [negb].
    change 6%nat with (String.length "Basic ").
    rewrite slice_from_app.
    destruct Hcred as [(user & -> & Hnone) | (-> & Hnone)].
    + destruct (indexOf_app colon user FLEET_PASSWORD Hnone) as [-> ->].
      rewrite String.eqb_refl. reflexivity.
    + rewrite Hnone, String.eqb_refl. reflexivity.
Qed.

End AuthFacts.
